(** * pyxunlei: a shallow embedding of [XunLeiClient] and its properties

    The client of [src/pyxunlei/pyxunlei.py] talks to a download service
    over HTTP.  The embedding keeps the shape of the Python code:

    - values decoded from JSON are [pyval]s, with Python's truthiness,
      [dict.get], iteration and [==] written out;
    - exceptions are an explicit result type [Res];
    - the methods of the client run in a state-and-exception monad [M]
      over a [World]: the attributes of [self] plus the trace of every
      call made to the session and to the clock.  The service and the
      clock are an environment [Env] that answers from the trace so far;
    - what the code takes from libraries that are not part of the
      repository (pydantic's field validation, [int()] on a string,
      [str()] of a container) is the interface [PyLib]. *)

From Stdlib Require Import ZArith String Ascii List Bool Lia DecimalString.
From stdpp Require Import base list strings.

Set Warnings "-register-all".

Open Scope Z_scope.
Open Scope string_scope.
Open Scope list_scope.

(** ** Python values *)

(** What [response.json()] can return.  Floats are left out; a [dict] is
    an association list in insertion order, read by its first binding;
    a string is the sequence of its bytes. *)
Inductive pyval :=
| PNone
| PBool (b : bool)
| PInt (z : Z)
| PStr (s : string)
| PList (l : list pyval)
| PDict (d : list (string * pyval)).

(** The exception classes the code can meet, all of them subclasses of
    [Exception]. *)
Inductive exn :=
| RequestException   (* requests: connection errors, timeouts *)
| HTTPError          (* requests: raise_for_status *)
| JSONDecodeError    (* requests: response.json() on a body that is not JSON *)
| PanAuthInvalid
| ValueError
| TypeError
| AttributeError
| KeyError
| IndexError
| ValidationError    (* pydantic *)
| RecursionError
| CallbackError.     (* anything raised by a caller-supplied callback *)

Inductive Res (A : Type) :=
| Ok (a : A)
| Raise (e : exn).
Arguments Ok {A} a.
Arguments Raise {A} e.

Definition res_bind {A B} (r : Res A) (k : A -> Res B) : Res B :=
  match r with
  | Ok a => k a
  | Raise e => Raise e
  end.

Declare Scope res_scope.
Delimit Scope res_scope with res.
Notation "'let?' x ':=' r 'in' k" := (res_bind r (fun x => k))
  (at level 10, x name, r at level 100, k at level 200,
   format "'[v' 'let?'  x  ':='  r  'in' '/' k ']'") : res_scope.
Open Scope res_scope.

(** [for x in xs: body] over an accumulator that the body updates. *)
Fixpoint for_each {A S} (body : A -> S -> Res S) (xs : list A) (s : S) : Res S :=
  match xs with
  | [] => Ok s
  | x :: rest => let? s' := body x s in for_each body rest s'
  end.

(** [bool(v)] *)
Definition truthy (v : pyval) : bool :=
  match v with
  | PNone => false
  | PBool b => b
  | PInt z => negb (Z.eqb z 0)
  | PStr s => negb (String.eqb s "")
  | PList l => match l with [] => false | _ => true end
  | PDict d => match d with [] => false | _ => true end
  end.

Fixpoint dict_get (d : list (string * pyval)) (k : string) : option pyval :=
  match d with
  | [] => None
  | (k', v) :: rest => if String.eqb k' k then Some v else dict_get rest k
  end.

(** [v.get(k, default)]: only a dict has [get]. *)
Definition py_get_default (v : pyval) (k : string) (default : pyval) : Res pyval :=
  match v with
  | PDict d => Ok (match dict_get d k with Some x => x | None => default end)
  | _ => Raise AttributeError
  end.

(** [v.get(k)] *)
Definition py_get (v : pyval) (k : string) : Res pyval :=
  py_get_default v k PNone.

Fixpoint chars (s : string) : list pyval :=
  match s with
  | EmptyString => []
  | String c rest => PStr (String c EmptyString) :: chars rest
  end.

(** [for x in v]: a list gives its elements, a dict its keys, a string
    its characters; nothing else can be iterated. *)
Definition py_iter (v : pyval) : Res (list pyval) :=
  match v with
  | PList l => Ok l
  | PDict d => Ok (map (fun kv => PStr (fst kv)) d)
  | PStr s => Ok (chars s)
  | _ => Raise TypeError
  end.

(** [v[0]] *)
Definition py_index0 (v : pyval) : Res pyval :=
  match v with
  | PList l => match l with x :: _ => Ok x | [] => Raise IndexError end
  | PStr s => match s with
              | String c _ => Ok (PStr (String c EmptyString))
              | EmptyString => Raise IndexError
              end
  | PDict _ => Raise KeyError
  | _ => Raise TypeError
  end.

(** [v == n] for an integer literal [n]: a bool compares as 0 or 1. *)
Definition py_eq_int (v : pyval) (n : Z) : bool :=
  match v with
  | PInt z => Z.eqb z n
  | PBool b => Z.eqb (if b then 1 else 0) n
  | _ => false
  end.

(** [v in names] for a set of strings: lists and dicts cannot be hashed. *)
Definition py_in_set (v : pyval) (names : list string) : Res bool :=
  match v with
  | PStr s => Ok (existsb (String.eqb s) names)
  | PList _ | PDict _ => Raise TypeError
  | _ => Ok false
  end.

(** [str(n)] for an integer. *)
Definition str_of_int (z : Z) : string := NilZero.string_of_int (Z.to_int z).

(** [sep.join(parts)] *)
Definition join (sep : string) (parts : list string) : string :=
  String.concat sep parts.

(** [sub in s] *)
Fixpoint contains (sub s : string) : bool :=
  String.prefix sub s ||
  match s with
  | EmptyString => false
  | String _ rest => contains sub rest
  end.

(** ** What the code takes from libraries *)

Class PyLib := {
  (** pydantic's validation of a [str] and of an [int] field: a value
      of the field's own type is kept as it is, whether another value
      is converted or refused depends on pydantic's version and mode. *)
  validate_str : pyval -> option string;
  validate_int : pyval -> option Z;
  validate_str_ok : forall s, validate_str (PStr s) = Some s;
  validate_int_ok : forall z, validate_int (PInt z) = Some z;
  (** a [datetime] field *)
  datetime : Type;
  validate_datetime : pyval -> option datetime;
  (** [int(s)] for a string [s] *)
  int_of_str : string -> option Z;
  (** [str(v)] for a list or a dict *)
  repr_container : pyval -> string;
}.

(** A strict instance, for running the model: fields accept their own
    type only, timestamps are kept as text. *)
Definition parse_digits (s : string) : option Z :=
  match NilZero.int_of_string s with
  | Some d => Some (Z.of_int d)
  | None => None
  end.

Definition strict_lib : PyLib := {|
  validate_str v := match v with PStr s => Some s | _ => None end;
  validate_int v := match v with PInt z => Some z | _ => None end;
  validate_str_ok := fun _ => eq_refl;
  validate_int_ok := fun _ => eq_refl;
  datetime := string;
  validate_datetime v := match v with PStr s => Some s | _ => None end;
  int_of_str := parse_digits;
  repr_container := fun _ => "<container>";
|}.

(** ** The data model *)

Module TaskFile.
Record t := {
  index : Z;
  file_name : string;
  file_size : Z;
}.
End TaskFile.

Module TaskInfo.
Section Fields.
Context {lib : PyLib}.
Record t := {
  name : string;
  file_name : string;
  file_size : Z;
  updated_time : datetime;
  progress : Z;
  real_path : string;
  speed : Z;
  created_time : datetime;
  origin : pyval;   (* the record as the service sent it *)
}.
End Fields.
End TaskInfo.

Section WithLib.
Context {lib : PyLib}.

(** [str(v)] *)
Definition py_str (v : pyval) : string :=
  match v with
  | PNone => "None"
  | PBool b => if b then "True" else "False"
  | PInt z => str_of_int z
  | PStr s => s
  | PList _ | PDict _ => repr_container v
  end.

(** [int(v)] *)
Definition py_int (v : pyval) : Res Z :=
  match v with
  | PInt z => Ok z
  | PBool b => Ok (if b then 1 else 0)
  | PStr s => match int_of_str s with Some z => Ok z | None => Raise ValueError end
  | _ => Raise TypeError
  end.

(** [TaskFile(index=.., file_size=.., file_name=..)] *)
Definition new_TaskFile (index file_size file_name : pyval) : Res TaskFile.t :=
  match validate_int index, validate_int file_size, validate_str file_name with
  | Some i, Some sz, Some n =>
      Ok {| TaskFile.index := i; TaskFile.file_name := n; TaskFile.file_size := sz |}
  | _, _, _ => Raise ValidationError
  end.

(** [TaskInfo(name=.., file_name=.., ...)]: one validation error
    whichever field is refused. *)
Definition new_TaskInfo (name file_name : pyval) (file_size : Z)
    (updated_time progress real_path : pyval) (speed : Z)
    (created_time origin : pyval) : Res TaskInfo.t :=
  match validate_str name, validate_str file_name,
        validate_datetime updated_time, validate_int progress,
        validate_str real_path, validate_datetime created_time, origin with
  | Some n, Some fn, Some ut, Some pr, Some rp, Some ct, PDict _ =>
      Ok {| TaskInfo.name := n; TaskInfo.file_name := fn;
            TaskInfo.file_size := file_size; TaskInfo.updated_time := ut;
            TaskInfo.progress := pr; TaskInfo.real_path := rp;
            TaskInfo.speed := speed; TaskInfo.created_time := ct;
            TaskInfo.origin := origin |}
  | _, _, _, _, _, _, _ => Raise ValidationError
  end.

End WithLib.

(** ** [filter_file_by_size] (lines 483-496) *)

Definition default_min_size : Z := 500 * 1024 * 1024.
Definition default_max_size : Z := 40 * 1024 * 1024 * 1024.

Definition in_size_range (min_size max_size : Z) (i : TaskFile.t) : bool :=
  Z.leb min_size (TaskFile.file_size i) && Z.leb (TaskFile.file_size i) max_size.

Definition filter_file_by_size (task_files : list TaskFile.t)
    (min_size max_size : Z) : list TaskFile.t :=
  match task_files with
  | [] => []
  | _ => List.filter (in_size_range min_size max_size) task_files
  end.

(** The call with both defaults. *)
Definition filter_file_by_size_default (task_files : list TaskFile.t) : list TaskFile.t :=
  filter_file_by_size task_files default_min_size default_max_size.

(** ** Library functions written out *)

(** [re.findall] for the pattern of line 108: the literal text up to
    and with the opening quote, one greedy group of any characters but
    a line end, the closing quote with the literal text after it. *)
Module Uiauth.

Definition dquote : string := String (ascii_of_nat 34) EmptyString.
Definition opening : string := "function uiauth(value){ return " +:+ dquote.
Definition closing : string := dquote +:+ " }".

Fixpoint skip (n : nat) (s : string) : string :=
  match n, s with
  | S n', String _ rest => skip n' rest
  | _, _ => s
  end.

Fixpoint keep (n : nat) (s : string) : string :=
  match n, s with
  | S n', String c rest => String c (keep n' rest)
  | _, _ => EmptyString
  end.

Fixpoint until_newline (s : string) : string :=
  match s with
  | EmptyString => EmptyString
  | String c rest =>
      if Ascii.eqb c (ascii_of_nat 10) then EmptyString
      else String c (until_newline rest)
  end.

(** Where the last [closing] of a line starts: the greedy group gives
    back as little as it has to. *)
Fixpoint last_closing (line : string) : option nat :=
  match line with
  | EmptyString => None
  | String _ rest =>
      match last_closing rest with
      | Some k => Some (S k)
      | None => if String.prefix closing line then Some O else None
      end
  end.

(** A match that starts at the head of [s]: the group and the length
    of the whole match. *)
Definition match_at (s : string) : option (string * nat) :=
  if String.prefix opening s then
    let line := until_newline (skip (String.length opening) s) in
    match last_closing line with
    | Some k =>
        Some (keep k line, (String.length opening + k + String.length closing)%nat)
    | None => None
    end
  else None.

(** Left to right, matches do not overlap: [resume] characters of the
    last match are still to be passed. *)
Fixpoint scan (s : string) (resume : nat) : list string :=
  match s with
  | EmptyString => []
  | String _ rest =>
      match resume with
      | S n => scan rest n
      | O =>
          match match_at s with
          | Some (group, len) => group :: scan rest (len - 1)
          | None => scan rest O
          end
      end
  end.

Definition findall (text : string) : list string := scan text O.

End Uiauth.

(** [urllib.parse.quote] with its default safe set, on the bytes of the
    string. *)
Definition quote_safe (c : ascii) : bool :=
  let n := nat_of_ascii c in
  (Nat.leb 65 n && Nat.leb n 90) || (Nat.leb 97 n && Nat.leb n 122)
  || (Nat.leb 48 n && Nat.leb n 57)
  || existsb (Ascii.eqb c) (list_ascii_of_string "_.-~/").

Definition hex_digit (n : nat) : ascii :=
  nth n (list_ascii_of_string "0123456789ABCDEF") (ascii_of_nat 48).

Fixpoint quote (s : string) : string :=
  match s with
  | EmptyString => EmptyString
  | String c rest =>
      if quote_safe c then String c (quote rest)
      else
        let n := nat_of_ascii c in
        String (ascii_of_nat 37)
          (String (hex_digit (n / 16)) (String (hex_digit (n mod 16)) (quote rest)))
  end.

(** [quote(v)]: only a string can be quoted. *)
Definition py_quote (v : pyval) : Res string :=
  match v with
  | PStr s => Ok (quote s)
  | _ => Raise TypeError
  end.

(** ** The session, the clock and the client's state *)

(** The body of a request: [data=json.dumps(v)] or [json=v]. *)
Inductive payload :=
| NoBody
| Data (v : pyval)
| Json (v : pyval).

Record Request := {
  req_method : string;
  req_url : string;
  req_params : list (string * string);
  req_headers : list (string * string);
  req_body : payload;
  req_timeout : option Z;
}.

(** A response: [json] is what [response.json()] returns, [None] when
    it raises. *)
Record Response := {
  status_code : Z;
  text : string;
  json : option pyval;
}.

(** The session call returns a response or raises. *)
Inductive Reply :=
| NoReply
| Answer (r : Response).

Inductive Event :=
| EHttp (req : Request) (rep : Reply)
| ETime (t : Z).

(** The service and the clock, as functions of what happened so far
    (the newest event first). [clock] gives [int(time.time())]. *)
Record Env := {
  http : list Event -> Request -> Reply;
  clock : list Event -> Z;
}.

(** The attributes of [self] the methods read and write. *)
Record XunLeiClient := {
  http_endpoint : string;
  _device_id : pyval;
  _token_str : option string;
  _token_time : Z;
  _parent_folder_id : pyval;
}.

Record World := {
  self : XunLeiClient;
  trace : list Event;
}.

Definition M (A : Type) : Type := World -> Res A * World.

Definition ret {A} (a : A) : M A := fun w => (Ok a, w).

Definition raise {A} (e : exn) : M A := fun w => (Raise e, w).

Definition bind {A B} (m : M A) (k : A -> M B) : M B :=
  fun w =>
    match m w with
    | (Ok a, w') => k a w'
    | (Raise e, w') => (Raise e, w')
    end.

Declare Scope m_scope.
Delimit Scope m_scope with M.
Notation "'let*' x ':=' m 'in' k" := (bind m (fun x => k))
  (at level 10, x name, m at level 100, k at level 200,
   format "'[v' 'let*'  x  ':='  m  'in' '/' k ']'") : m_scope.
Notation "m ';;' k" := (bind m (fun _ => k))
  (at level 100, k at level 200, right associativity) : m_scope.
Open Scope m_scope.

(** A pure step that may raise. *)
Definition lift {A} (r : Res A) : M A := fun w => (r, w).

(** [try: body except Exception as e: handler] *)
Definition try_except {A} (body : M A) (handler : exn -> M A) : M A :=
  fun w =>
    match body w with
    | (Ok a, w') => (Ok a, w')
    | (Raise e, w') => handler e w'
    end.

Definition get_self : M XunLeiClient := fun w => (Ok (self w), w).

Definition set_self (c : XunLeiClient) : M unit :=
  fun w => (Ok tt, {| self := c; trace := trace w |}).

Definition set_token_str (s : string) : M unit :=
  let* me := get_self in
  set_self {| http_endpoint := http_endpoint me; _device_id := _device_id me;
              _token_str := Some s; _token_time := _token_time me;
              _parent_folder_id := _parent_folder_id me |}.

Definition set_token_time (t : Z) : M unit :=
  let* me := get_self in
  set_self {| http_endpoint := http_endpoint me; _device_id := _device_id me;
              _token_str := _token_str me; _token_time := t;
              _parent_folder_id := _parent_folder_id me |}.

Definition set_device_id (v : pyval) : M unit :=
  let* me := get_self in
  set_self {| http_endpoint := http_endpoint me; _device_id := v;
              _token_str := _token_str me; _token_time := _token_time me;
              _parent_folder_id := _parent_folder_id me |}.

(** [response.raise_for_status()] *)
Definition raise_for_status (r : Response) : M unit :=
  if Z.leb 400 (status_code r) && Z.ltb (status_code r) 600
  then raise HTTPError else ret tt.

(** [response.json()] *)
Definition response_json (r : Response) : M pyval :=
  match json r with
  | Some v => ret v
  | None => raise JSONDecodeError
  end.

(** Paths under the gateway prefix. *)
Definition prefix_cgi : string := "/webman/3rdparty/pan-xunlei-com/index.cgi".
Definition path_index : string := prefix_cgi +:+ "/".
Definition path_info_watch : string := prefix_cgi +:+ "/device/info/watch".
Definition path_resource_list : string :=
  prefix_cgi +:+ "/drive/v1/resource/list?device_space=".
Definition path_files : string := prefix_cgi +:+ "/drive/v1/files?device_space=".
Definition path_task : string := prefix_cgi +:+ "/drive/v1/task?device_space=".
Definition path_patch_task : string := prefix_cgi +:+ "/method/patch/drive/v1/task".
Definition filters_completed : string :=
  "%7B%22phase%22%3A%7B%22in%22%3A%22PHASE_TYPE_COMPLETE%22%7D%2C%22type%22%3A%7B%22in%22%3A%22user%23download-url%2Cuser%23download%22%7D%7D".
Definition filters_uncompleted : string :=
  "%7B%22phase%22%3A%7B%22in%22%3A%22PHASE_TYPE_PENDING%2CPHASE_TYPE_RUNNING%2CPHASE_TYPE_PAUSED%2CPHASE_TYPE_ERROR%22%7D%2C%22type%22%3A%7B%22in%22%3A%22user%23download-url%2Cuser%23download%22%7D%7D".
Definition tasks_url (endpoint space filters : string) : string :=
  endpoint +:+ prefix_cgi +:+ "/drive/v1/tasks?space=" +:+ space
  +:+ "&page_token=&filters=" +:+ filters +:+ "&limit=200&device_space=".

Definition user_agent : string :=
  "Mozilla/5.0 (Macintosh; Intel Mac OS X 10_15_7) AppleWebKit/537.36 (KHTML, like Gecko) Chrome/121.0.0.0 Safari/537.36".

(** Nesting depth of a value: enough fuel for any recursion that
    descends into it. *)
Fixpoint depth (v : pyval) : nat :=
  match v with
  | PList l => S (foldr Nat.max O (map depth l))
  | PDict d => S (foldr Nat.max O (map (fun kv => depth (snd kv)) d))
  | _ => O
  end.

(** ** The methods of [XunLeiClient] *)

Section Client.
Context {lib : PyLib} (env : Env).

(** A call on [self._session]: the service answers from the trace, the
    call is recorded. *)
Definition session_request (req : Request) : M Response :=
  fun w =>
    let rep := http env (trace w) req in
    let w' := {| self := self w; trace := EHttp req rep :: trace w |} in
    match rep with
    | Answer r => (Ok r, w')
    | NoReply => (Raise RequestException, w')
    end.

(** [int(time.time())] *)
Definition now : M Z :=
  fun w =>
    let t := clock env (trace w) in
    (Ok t, {| self := self w; trace := ETime t :: trace w |}).

(** Lines 94-121.  The clock is read only when a token is cached. *)
Definition get_pan_auth : M string :=
  let* me := get_self in
  let* cached :=
    match _token_str me with
    | Some token =>
        let* t := now in
        ret (if Z.ltb t (_token_time me + 600) then Some token else None)
    | None => ret None
    end in
  match cached with
  | Some token => ret token
  | None =>
      try_except
        (let url := http_endpoint me +:+ path_index in
         let* resp := session_request
           {| req_method := "GET"; req_url := url; req_params := [];
              req_headers := []; req_body := NoBody; req_timeout := Some 30 |} in
         if negb (Z.eqb (status_code resp) 200) then ret EmptyString
         else
           match Uiauth.findall (text resp) with
           | token :: _ =>
               set_token_str token;;
               let* t := now in
               set_token_time t;;
               ret token
           | [] => ret EmptyString
           end)
        (fun _ => ret EmptyString)
  end.

(** Lines 69-79, the [headers] property. *)
Definition headers : M (list (string * string)) :=
  let* token := get_pan_auth in
  ret [("pan-auth", token); ("DNT", "1"); ("User-Agent", user_agent);
       ("device-space", EmptyString); ("content-type", "application/json");
       ("Accept", "*/*"); ("Accept-Language", "zh-CN,zh;q=0.9")].

Definition is_request_exception (e : exn) : bool :=
  match e with
  | RequestException | HTTPError | JSONDecodeError => true
  | _ => false
  end.

(** Lines 123-163. *)
Definition get_device_id : M pyval :=
  let* me := get_self in
  match _device_id me with
  | PNone =>
      try_except
        (let* token := get_pan_auth in
         if String.eqb token EmptyString then raise ValueError
         else
           let* req := session_request
             {| req_method := "POST";
                req_url := http_endpoint me +:+ path_info_watch;
                req_params := []; req_headers := [("pan-auth", token)];
                req_body := NoBody; req_timeout := Some 30 |} in
           (if negb (Z.eqb (status_code req) 200)
            then raise_for_status req else ret tt);;
           let* data := response_json req in
           let* target := lift (py_get data "target") in
           set_device_id target;;
           if negb (truthy target) then raise ValueError else ret target)
        (fun e => if is_request_exception e then raise e else raise ValueError)
  | cached => ret cached
  end.

(** Lines 288-300: the record built for one task of [completed_tasks]. *)
Definition completed_task_info (task : pyval) : Res TaskInfo.t :=
  let? p := py_get task "progress" in
  let? progress := (if truthy p then py_get task "progress" else Ok (PInt 0)) in
  let? name := py_get task "name" in
  let? file_name := py_get task "name" in
  let? fs := py_get task "file_size" in
  let? file_size := py_int fs in
  let? updated_time := py_get task "updated_time" in
  let? params := py_get task "params" in
  let? real_path := py_get params "real_path" in
  let? params := py_get task "params" in
  let? sp := py_get_default params "speed" (PInt 0) in
  let? speed := py_int sp in
  let? created_time := py_get task "created_time" in
  new_TaskInfo name file_name file_size updated_time progress real_path speed
    created_time task.

(** Lines 315-327: the same for [uncompleted_tasks], [file_name] first. *)
Definition uncompleted_task_info (task : pyval) : Res TaskInfo.t :=
  let? p := py_get task "progress" in
  let? progress := (if truthy p then py_get task "progress" else Ok (PInt 0)) in
  let? file_name := py_get task "name" in
  let? name := py_get task "name" in
  let? fs := py_get task "file_size" in
  let? file_size := py_int fs in
  let? updated_time := py_get task "updated_time" in
  let? params := py_get task "params" in
  let? real_path := py_get params "real_path" in
  let? params := py_get task "params" in
  let? sp := py_get_default params "speed" (PInt 0) in
  let? speed := py_int sp in
  let? created_time := py_get task "created_time" in
  new_TaskInfo name file_name file_size updated_time progress real_path speed
    created_time task.

(** The code the two listings share: lines 282-287 and 301, 309-314 and
    328, with the loop of the listing as [build]. *)
Definition fetch_tasks (filters : string) (build : pyval -> Res TaskInfo.t)
    : M (list TaskInfo.t) :=
  let* me := get_self in
  let* space := lift (py_quote (_device_id me)) in
  let url := tasks_url (http_endpoint me) space filters in
  let* hs := headers in
  let* resp := session_request
    {| req_method := "GET"; req_url := url; req_params := [];
       req_headers := hs; req_body := NoBody; req_timeout := None |} in
  let* data := response_json resp in
  let* tasks := lift (py_get data "tasks") in
  if negb (truthy tasks) then ret []
  else
    let* items := lift (py_iter tasks) in
    lift (for_each (fun task res => let? info := build task in Ok (res ++ [info]))
            items []).

(** Lines 276-301. *)
Definition completed_tasks : M (list TaskInfo.t) :=
  fetch_tasks filters_completed completed_task_info.

(** Lines 303-328. *)
Definition uncompleted_tasks : M (list TaskInfo.t) :=
  fetch_tasks filters_uncompleted uncompleted_task_info.

(** Lines 389-402, the body of the loop of [helper]; [helper] is the
    recursive call, [task_files] the list the closure appends to. *)
Definition helper_step (helper : pyval -> list TaskFile.t -> Res (list TaskFile.t))
    (resource : pyval) (task_files : list TaskFile.t) : Res (list TaskFile.t) :=
  let? is_dir := py_get resource "is_dir" in
  if truthy is_dir then
    let? dir := py_get resource "dir" in
    let? resources := py_get dir "resources" in
    helper resources task_files
  else
    let? fi := py_get resource "file_index" in
    let? file_index :=
      (if negb (truthy fi) then Ok (PInt 0) else py_get resource "file_index") in
    let? file_size := py_get resource "file_size" in
    let? file_name := py_get resource "name" in
    let? task_file := new_TaskFile file_index file_size file_name in
    Ok (task_files ++ [task_file]).

(** Lines 387-402 with the recursion bounded by [fuel]. *)
Fixpoint helper_fuel (fuel : nat) (resources : pyval)
    (task_files : list TaskFile.t) : Res (list TaskFile.t) :=
  match fuel with
  | O => Raise RecursionError
  | S fuel' =>
      let? items := py_iter resources in
      for_each (helper_step (helper_fuel fuel')) items task_files
  end.

(** [helper]: the nesting of [resources] bounds the recursion. *)
Definition helper (resources : pyval) (task_files : list TaskFile.t)
    : Res (list TaskFile.t) :=
  helper_fuel (S (depth resources)) resources task_files.

(** A caller's [preprocess_files]: absent (not callable), or a function
    on the file list that returns a list or raises. *)
Definition callback : Type := option (list TaskFile.t -> Res (list TaskFile.t)).

(** [data.get('list').get('resources')[0]] *)
Definition first_resource (data : pyval) : Res pyval :=
  let? lst := py_get data "list" in
  let? resources := py_get lst "resources" in
  py_index0 resources.

(** [sum([i.file_size for i in task_files])] *)
Definition total_size (task_files : list TaskFile.t) : Z :=
  foldr Z.add 0 (map TaskFile.file_size task_files).

(** Lines 422-436, the body of the task-creation request. *)
Definition task_body (me : XunLeiClient) (task_name : pyval) (magnetic_link : string)
    (task_file_count target_parent_id : pyval) (task_files : list TaskFile.t)
    (sub_file_index : list string) : pyval :=
  PDict [
    ("type", PStr "user#download-url");
    ("name", task_name);
    ("file_name", task_name);
    ("file_size", PStr (str_of_int (total_size task_files)));
    ("space", _device_id me);
    ("params", PDict [
       ("target", _device_id me);
       ("url", PStr magnetic_link);
       ("total_file_count", PStr (py_str task_file_count));
       ("parent_folder_id", target_parent_id);
       ("sub_file_index", PStr (join "," sub_file_index));
       ("file_id", PStr EmptyString)])].

(** Lines 421-450: submit the task and read the answer. *)
Definition submit_task (task_name : pyval) (magnetic_link : string)
    (task_file_count : pyval) (task_files : list TaskFile.t)
    (sub_file_index : list string) (target_parent_id : pyval) : M pyval :=
  let* me := get_self in
  let body := task_body me task_name magnetic_link task_file_count
                target_parent_id task_files sub_file_index in
  let* hs := headers in
  let* response := session_request
    {| req_method := "POST"; req_url := http_endpoint me +:+ path_task;
       req_params := []; req_headers := hs; req_body := Data body;
       req_timeout := None |} in
  let* result := response_json response in
  let* status := lift (py_get result "HttpStatus") in
  if py_eq_int status 0 then ret (PInt 1) else ret (PInt 0).

(** Lines 353-371: ask the service for the resources of the link.
    [None] where the code gives up with [return 0]. *)
Definition list_resources (magnetic_link : string) : M (option pyval) :=
  let* me := get_self in
  let url := http_endpoint me +:+ path_resource_list in
  let body := PDict [("urls", PStr magnetic_link)] in
  let* hs := headers in
  let* response := session_request
    {| req_method := "POST"; req_url := url; req_params := [];
       req_headers := hs; req_body := Data body; req_timeout := Some 60 |} in
  if negb (Z.eqb (status_code response) 200) then ret None
  else
    let* data := response_json response in
    let* lst := lift (py_get_default data "list" (PDict [])) in
    let* found := lift (py_get lst "resources") in
    if negb (truthy found) then ret None else ret (Some data).

(** Lines 405-406: [preprocess_files] is applied when it is callable. *)
Definition preprocess (preprocess_files : callback) (task_files : list TaskFile.t)
    : Res (list TaskFile.t) :=
  match preprocess_files with
  | Some f => f task_files
  | None => Ok task_files
  end.

(** Lines 373-450: what the code does with the resources it found. *)
Definition download_resources (data : pyval) (magnetic_link sub_dir : string)
    (preprocess_files : callback) : M pyval :=
  let* first := lift (first_resource data) in
  let* task_name := lift (py_get first "name") in
  let* completed := completed_tasks in
  let* uncompleted := uncompleted_tasks in
  let all_task_names := map TaskInfo.name (completed ++ uncompleted) in
  let* exists_ := lift (py_in_set task_name all_task_names) in
  if exists_ then ret (PInt 2)
  else
    let* first := lift (first_resource data) in
    let* task_file_count := lift (py_get first "file_count") in
    let* lst := lift (py_get data "list") in
    let* root_resources := lift (py_get lst "resources") in
    let* task_files := lift (helper root_resources []) in
    let* task_files := lift (preprocess preprocess_files task_files) in
    let sub_file_index :=
      map (fun i => str_of_int (TaskFile.index i)) task_files in
    let* me := get_self in
    let submit := submit_task task_name magnetic_link task_file_count
                    task_files sub_file_index in
    if negb (String.eqb sub_dir EmptyString) then
      if contains "/" sub_dir then ret (PBool false)
      else
        let body := PDict [("parent_id", _parent_folder_id me);
                           ("name", PStr sub_dir);
                           ("space", _device_id me);
                           ("kind", PStr "drive#folder")] in
        let* hs := headers in
        let* response := session_request
          {| req_method := "POST"; req_url := http_endpoint me +:+ path_files;
             req_params := []; req_headers := hs; req_body := Data body;
             req_timeout := None |} in
        let* created := response_json response in
        let* file := lift (py_get created "file") in
        let* target_parent_id := lift (py_get file "id") in
        submit target_parent_id
    else submit (_parent_folder_id me).

(** Lines 352-454: the whole of [download_magnetic] runs under one
    [try], any exception gives 0. *)
Definition download_magnetic (magnetic_link sub_dir : string)
    (preprocess_files : callback) : M pyval :=
  try_except
    (let* found := list_resources magnetic_link in
     match found with
     | None => ret (PInt 0)
     | Some data => download_resources data magnetic_link sub_dir preprocess_files
     end)
    (fun _ => ret (PInt 0)).

(** The request the three task operations share (lines 510-533,
    564-587, 614-637): set the phase [phase] on the task [task_id]. *)
Definition patch_task (phase task_id : string) : M Response :=
  let* me := get_self in
  (if negb (truthy (_device_id me))
   then let* id := get_device_id in set_device_id id
   else ret tt);;
  let* me := get_self in
  let url := http_endpoint me +:+ path_patch_task in
  let* token := get_pan_auth in
  let params := [("pan_auth", token); ("device_space", EmptyString)] in
  let* me := get_self in
  let data := PDict [("space", _device_id me);
                     ("type", PStr "user#download-url");
                     ("id", PStr task_id);
                     ("set_params", PDict [("spec", PStr phase)])] in
  let* hs := headers in
  session_request
    {| req_method := "POST"; req_url := url; req_params := params;
       req_headers := hs; req_body := Json data; req_timeout := None |}.

(** Lines 539-546, 589-596, 639-646: read the answer. *)
Definition patch_result (response : Response) : M bool :=
  let* result := response_json response in
  let* code := lift (py_get_default result "error_code" (PInt 0)) in
  if py_eq_int code 0 then ret true else ret false.

Definition spec_of (phase : string) : string :=
  "{" +:+ Uiauth.dquote +:+ "phase" +:+ Uiauth.dquote +:+ ":"
  +:+ Uiauth.dquote +:+ phase +:+ Uiauth.dquote +:+ "}".

(** Lines 498-550. *)
Definition delete_task (task_id : string) : M bool :=
  try_except
    (let* response := patch_task (spec_of "delete") task_id in
     (if negb (Z.eqb (status_code response) 200)
      then raise_for_status response else ret tt);;
     patch_result response)
    (fun _ => ret false).

(** Lines 552-600. *)
Definition pause_task (task_id : string) : M bool :=
  try_except
    (let* response := patch_task (spec_of "pause") task_id in
     patch_result response)
    (fun _ => ret false).

(** Lines 602-650. *)
Definition start_task (task_id : string) : M bool :=
  try_except
    (let* response := patch_task (spec_of "running") task_id in
     patch_result response)
    (fun _ => ret false).

End Client.

(** ** The resource tree of the specification *)

(** A resource is a file, with the index the service declares for it
    (if any) and its size, or a directory of resources. *)
Inductive Resource :=
| File (name : string) (file_index : option Z) (file_size : Z)
| Directory (name : string) (children : list Resource).

(** The specification's flattening: depth first, in pre-order; a file
    gives one entry, a directory the entries of its children. *)
Fixpoint flatten (r : Resource) : list TaskFile.t :=
  match r with
  | File name file_index file_size =>
      [{| TaskFile.index := match file_index with Some i => i | None => 0 end;
          TaskFile.file_name := name;
          TaskFile.file_size := file_size |}]
  | Directory _ children => List.flat_map flatten children
  end.

Definition flatten_all (rs : list Resource) : list TaskFile.t :=
  List.flat_map flatten rs.

(** The number of files of a tree. *)
Fixpoint leaf_count (r : Resource) : nat :=
  match r with
  | File _ _ _ => 1%nat
  | Directory _ children => foldr Nat.add O (map leaf_count children)
  end.

Definition leaf_count_all (rs : list Resource) : nat :=
  foldr Nat.add O (map leaf_count rs).

Section Encoding.
Context {lib : PyLib}.

(** The index a file declares: none when the key is absent or its
    value is falsy, else the integer pydantic reads from the value. *)
Definition encodes_index (field : option pyval) (file_index : option Z) : Prop :=
  match file_index with
  | None => match field with Some x => truthy x = false | None => True end
  | Some i =>
      exists x, field = Some x /\ validate_int x = Some i
                /\ (truthy x = false -> i = 0)
  end.

(** The JSON the service sends for a resource: a dict that may carry
    more keys than the ones the code reads.  Size and name are what
    pydantic reads from the values of a file. *)
Inductive encodes : pyval -> Resource -> Prop :=
| encodes_file d name file_index file_size size_value name_value :
    match dict_get d "is_dir" with Some x => truthy x = false | None => True end ->
    encodes_index (dict_get d "file_index") file_index ->
    dict_get d "file_size" = Some size_value ->
    validate_int size_value = Some file_size ->
    dict_get d "name" = Some name_value ->
    validate_str name_value = Some name ->
    encodes (PDict d) (File name file_index file_size)
| encodes_directory d is_dir dir vs name children :
    dict_get d "is_dir" = Some is_dir -> truthy is_dir = true ->
    dict_get d "dir" = Some (PDict dir) ->
    dict_get dir "resources" = Some (PList vs) ->
    Forall2 encodes vs children ->
    encodes (PDict d) (Directory name children).

End Encoding.

(** One such JSON for each tree. *)
Fixpoint resource_json (r : Resource) : pyval :=
  match r with
  | File name file_index file_size =>
      PDict (("name", PStr name) :: ("file_size", PInt file_size)
             :: match file_index with
                | Some i => [("file_index", PInt i)]
                | None => []
                end)
  | Directory name children =>
      PDict [("name", PStr name); ("is_dir", PBool true);
             ("dir", PDict [("resources", PList (map resource_json children))])]
  end.

(** ** The requests that create something *)

(** The request of lines 415-418. *)
Definition folder_request (endpoint : string) (me : XunLeiClient) (hs : list (string * string))
    (sub_dir : string) : Request :=
  {| req_method := "POST"; req_url := endpoint +:+ path_files; req_params := [];
     req_headers := hs;
     req_body := Data (PDict [("parent_id", _parent_folder_id me);
                              ("name", PStr sub_dir);
                              ("space", _device_id me);
                              ("kind", PStr "drive#folder")]);
     req_timeout := None |}.

Section Requests.
Context {lib : PyLib}.

(** The request of lines 438-442. *)
Definition task_request (endpoint : string) (me : XunLeiClient) (hs : list (string * string))
    (task_name : pyval) (magnetic_link : string)
    (task_file_count target_parent_id : pyval) (task_files : list TaskFile.t)
    : Request :=
  {| req_method := "POST"; req_url := endpoint +:+ path_task; req_params := [];
     req_headers := hs;
     req_body := Data (task_body me task_name magnetic_link task_file_count
                         target_parent_id task_files
                         (map (fun i => str_of_int (TaskFile.index i)) task_files));
     req_timeout := None |}.

End Requests.

(** The outcomes of a submission, as a caller tells them apart with
    [==] (test.py, lines 21-26). *)
Inductive Outcome := Failed | Created | AlreadyExists.

Definition outcome_of (v : pyval) : option Outcome :=
  if py_eq_int v 1 then Some Created
  else if py_eq_int v 2 then Some AlreadyExists
  else if py_eq_int v 0 then Some Failed
  else None.

(** ** What a run adds to the trace *)

(** The events of [w'] that [w] does not have yet. *)
Definition new_events (w w' : World) : list Event :=
  take (length (trace w') - length (trace w)) (trace w').

Definition is_folder_creation (endpoint : string) (req : Request) : bool :=
  String.eqb (req_method req) "POST"
  && String.eqb (req_url req) (endpoint +:+ path_files).

Definition is_task_creation (endpoint : string) (req : Request) : bool :=
  String.eqb (req_method req) "POST"
  && String.eqb (req_url req) (endpoint +:+ path_task).

(** An event that creates nothing: a reading of the clock, or a call
    that is neither the folder creation nor the task creation. *)
Definition creates_nothing (endpoint : string) (e : Event) : bool :=
  match e with
  | ETime _ => true
  | EHttp req _ =>
      negb (is_folder_creation endpoint req) && negb (is_task_creation endpoint req)
  end.

Definition is_call (e : Event) : bool :=
  match e with
  | EHttp _ _ => true
  | ETime _ => false
  end.

(** A field of the body of a request, and one of its [params]. *)
Definition body_field (req : Request) (k : string) : option pyval :=
  match req_body req with
  | Data (PDict d) | Json (PDict d) => dict_get d k
  | _ => None
  end.

Definition params_field (req : Request) (k : string) : option pyval :=
  match body_field req "params" with
  | Some (PDict d) => dict_get d k
  | _ => None
  end.

(** [follows endpoint m allowed Q]: from a world of this endpoint, [m]
    keeps the endpoint, adds only [allowed] events to the trace, and a
    value it returns satisfies [Q]. *)
Definition follows (endpoint : string) {A} (m : M A) (allowed : Event -> Prop)
    (Q : A -> Prop) : Prop :=
  forall w, http_endpoint (self w) = endpoint ->
    http_endpoint (self (m w).2) = endpoint
    /\ (exists new, trace (m w).2 = new ++ trace w /\ Forall allowed new)
    /\ (forall a, (m w).1 = Ok a -> Q a).

(** Events that read and change nothing at the service: the clock and
    the GET requests. *)
Definition allows_reads (allowed : Event -> Prop) : Prop :=
  (forall t, allowed (ETime t))
  /\ (forall req rep, req_method req = "GET" -> allowed (EHttp req rep)).

(** ** What the specification says of a submission *)

Section Submits.
Context {lib : PyLib}.

(** [req] is the task-creation request for the resources [data] found
    for [magnetic_link]: the tree of [data] flattened to [task_files],
    [preprocess_files] applied to it, and the files it returns, [kept],
    sent with the name and the file count of the first resource. *)
Definition submits (endpoint : string) (data : pyval) (magnetic_link : string)
    (preprocess_files : callback) (task_file_count : pyval)
    (task_files kept : list TaskFile.t) (req : Request) : Prop :=
  exists me hs first task_name lst root_resources target_parent_id,
    first_resource data = Ok first
    /\ py_get first "name" = Ok task_name
    /\ py_get first "file_count" = Ok task_file_count
    /\ py_get data "list" = Ok lst
    /\ py_get lst "resources" = Ok root_resources
    /\ helper root_resources [] = Ok task_files
    /\ preprocess preprocess_files task_files = Ok kept
    /\ req = task_request endpoint me hs task_name magnetic_link task_file_count
               target_parent_id kept.

(** The indices of [kept] stand in the order in which flattening
    discovered them. *)
Definition in_discovery_order (kept discovered : list TaskFile.t) : Prop :=
  map TaskFile.index kept `sublist_of` map TaskFile.index discovered.

(** A filter the specification permits: it may drop entries and
    reorder them. *)
Definition permitted (f : list TaskFile.t -> Res (list TaskFile.t)) : Prop :=
  forall task_files, exists kept, f task_files = Ok kept /\ kept ⊆+ task_files.

(** What the specification asks of a [sub_dir] with a separator: the
    outcome is [Failed] and the run makes no call at all. *)
Definition rejected_without_call (env : Env) (magnetic_link sub_dir : string)
    (preprocess_files : callback) (w : World) : Prop :=
  let run := download_magnetic env magnetic_link sub_dir preprocess_files w in
  (exists v, run.1 = Ok v /\ outcome_of v = Some Failed)
  /\ Forall (fun e => is_call e = false) (new_events w run.2).

End Submits.

(** ** What the specification says of the token and of the task operations *)

(** The request of line 102 for the entry page. *)
Definition index_request (endpoint : string) : Request :=
  {| req_method := "GET"; req_url := endpoint +:+ path_index; req_params := [];
     req_headers := []; req_body := NoBody; req_timeout := Some 30 |}.

(** The world once the age of a cached token has been looked at: the
    clock has been read if there is a token. *)
Definition after_check (env : Env) (w : World) : World :=
  match _token_str (self w) with
  | Some _ => {| self := self w; trace := ETime (clock env (trace w)) :: trace w |}
  | None => w
  end.

(** The token found in a reply: the first match of the pattern in the
    text of a reply with status 200. *)
Definition extracted (rep : Reply) : option string :=
  match rep with
  | Answer resp =>
      if Z.eqb (status_code resp) 200 then head (Uiauth.findall (text resp)) else None
  | NoReply => None
  end.

(** The [error_code] of a response is 0, as [==] has it, or absent. *)
Definition error_code_ok (response : Response) : Prop :=
  exists d, json response = Some (PDict d)
    /\ (dict_get d "error_code" = None
        \/ exists code, dict_get d "error_code" = Some code /\ py_eq_int code 0 = true).

(** ** The rest of the client *)

(** [v == s] for a string [s]. *)
Definition py_eq_str (v : pyval) (s : string) : bool :=
  match v with
  | PStr x => String.eqb x s
  | _ => false
  end.

(** [len(v)] *)
Definition py_len (v : pyval) : Res nat :=
  match v with
  | PList l => Ok (length l)
  | PDict d => Ok (length d)
  | PStr s => Ok (String.length s)
  | _ => Raise TypeError
  end.

(** [", ".join(names)]: every part has to be a string. *)
Definition py_join (sep : string) (parts : list pyval) : Res string :=
  let? texts := for_each (fun part acc =>
                            match part with
                            | PStr s => Ok (acc ++ [s])
                            | _ => Raise TypeError
                            end) parts [] in
  Ok (join sep texts).

Definition set_parent_folder_id (v : pyval) : M unit :=
  let* me := get_self in
  set_self {| http_endpoint := http_endpoint me; _device_id := _device_id me;
              _token_str := _token_str me; _token_time := _token_time me;
              _parent_folder_id := v |}.

(** The keyword arguments [_make_request] hands on to the session. *)
Record kwargs := {
  kw_headers : option (list (string * string));
  kw_params : list (string * string);
  kw_body : payload;
  kw_timeout : option Z;
}.

Definition filters_folder : string :=
  "{" +:+ Uiauth.dquote +:+ "kind" +:+ Uiauth.dquote +:+ ":{" +:+ Uiauth.dquote
  +:+ "eq" +:+ Uiauth.dquote +:+ ":" +:+ Uiauth.dquote +:+ "drive#folder"
  +:+ Uiauth.dquote +:+ "}}".

(** What [torrentool] reads from a torrent file: the announce URLs,
    tier by tier, and the magnet link. *)
Record Torrent := {
  announce_urls : list (list string);
  magnet_link : string;
}.

Section Rest.
Context {lib : PyLib} (env : Env).

(** How [requests] writes the value of a query parameter: no text for
    [None], one for a string or a number, one for each element of a
    list. *)
Context (query_values : pyval -> list string).

(** Lines 165-203.  The default of [kwargs.pop] is evaluated whether
    the caller gave headers or not; the handler logs and raises again. *)
Definition _make_request (method endpoint : string) (kw : kwargs) : M pyval :=
  try_except
    (let* me := get_self in
     let url :=
       if String.prefix "http" endpoint then endpoint
       else http_endpoint me
            +:+ (if String.prefix "/" endpoint then endpoint else "/" +:+ endpoint) in
     let* own := headers env in
     let hs := match kw_headers kw with Some given => given | None => own end in
     let* response := session_request env
       {| req_method := method; req_url := url; req_params := kw_params kw;
          req_headers := hs; req_body := kw_body kw; req_timeout := kw_timeout kw |} in
     raise_for_status response;;
     let* result := response_json response in
     let* code := lift (py_get result "error_code") in
     if py_eq_int code 403 then raise PanAuthInvalid else ret result)
    (fun e => raise e).

(** Lines 223-231: the query of the folder listing. *)
Definition folder_params (me : XunLeiClient) : list (string * string) :=
  map (pair "space") (query_values (_device_id me))
  ++ [("limit", "200"); ("parent_id", EmptyString); ("filters", filters_folder);
      ("page_token", EmptyString); ("device_space", EmptyString)].

(** Line 251: the folders of the given name. *)
Definition matching_folders (files : list pyval) (download_root_dir : string)
    : Res (list pyval) :=
  for_each (fun f acc =>
              let? name := py_get f "name" in
              Ok (if py_eq_str name download_root_dir then acc ++ [f] else acc))
    files [].

(** Lines 205-274.  [_parent_folder_name] is written beside the id and
    read by the log only; it is not kept. *)
Definition _init_download_directory (download_root_dir : string) : M unit :=
  try_except
    (let* me := get_self in
     (if negb (truthy (_device_id me))
      then let* id := get_device_id env in set_device_id id
      else ret tt);;
     let* me := get_self in
     let* data := _make_request "GET"
       "webman/3rdparty/pan-xunlei-com/index.cgi/drive/v1/files"
       {| kw_headers := None; kw_params := folder_params me; kw_body := NoBody;
          kw_timeout := None |} in
     let* files := lift (py_get_default data "files" (PList [])) in
     if negb (truthy files) then raise ValueError
     else
       (* the log of line 240 *)
       let* count := lift (py_len files) in
       let* items := lift (py_iter files) in
       let* names := lift (for_each (fun f acc => let? name := py_get f "name" in
                                                  Ok (acc ++ [name])) items []) in
       let* folder :=
         if String.eqb download_root_dir EmptyString then lift (py_index0 files)
         else
           let* items := lift (py_iter files) in
           let* matching := lift (matching_folders items download_root_dir) in
           match matching with
           | [] =>
               let* items := lift (py_iter files) in
               let* names := lift (for_each
                 (fun f acc => let? name := py_get_default f "name" (PStr EmptyString) in
                               Ok (acc ++ [name])) items []) in
               let* available := lift (py_join ", " names) in
               raise ValueError
           | folder :: _ => ret folder
           end in
       let* id := lift (py_get folder "id") in
       set_parent_folder_id id;;
       let* name := lift (py_get folder "name") in
       let* me := get_self in
       if negb (truthy (_parent_folder_id me)) then raise ValueError else ret tt)
    (fun e => if is_request_exception e then raise e else raise ValueError).

(** Lines 652-684: the first request of the session, for its cookie.
    Whatever happens to it is logged and forgotten. *)
Definition _create_session : M unit :=
  let* me := get_self in
  try_except
    (let* response := session_request env
       {| req_method := "GET"; req_url := http_endpoint me +:+ path_index;
          req_params := []; req_headers := []; req_body := NoBody;
          req_timeout := None |} in
     ret tt)
    (fun _ => ret tt).

(** Lines 46-67.  The attributes are set, the folder id is not there
    yet ([None] stands for it: nothing reads it before line 246 or 260
    writes it). *)
Definition __init__ (host : string) (port : Z) (ssl : bool)
    (device_name download_root_dir : string) : M unit :=
  set_self {| http_endpoint := (if ssl then "https" else "http") +:+ "://" +:+ host
                               +:+ ":" +:+ str_of_int port;
              _device_id := PNone; _token_str := None; _token_time := 0;
              _parent_folder_id := PNone |};;
  _create_session;;
  let* id := get_device_id env in
  _init_download_directory download_root_dir.

(** Lines 81-92.  [has_parent_folder_id] is [hasattr(self,
    '_parent_folder_id')]. *)
Definition is_connected (has_parent_folder_id : bool) : M bool :=
  try_except
    (let* id := get_device_id env in
     set_device_id id;;
     (if negb has_parent_folder_id then _init_download_directory EmptyString
      else ret tt);;
     ret true)
    (fun _ => ret false).

(** Lines 330-336. *)
Definition download_http_task : M bool := ret false.

(** Lines 468-481; [from_file] is [Torrent.from_file]. *)
Definition _torrent2magnet (from_file : string -> Res Torrent) (file_path : string)
    : Res string :=
  let? torrent := from_file file_path in
  let? trs := for_each (fun tr acc =>
                          match tr with
                          | first :: _ => Ok (acc ++ [quote first])
                          | [] => Raise IndexError
                          end) (announce_urls torrent) [] in
  Ok (magnet_link torrent +:+ "&" +:+ join "&" trs).

(** Lines 456-466: not under a [try]. *)
Definition download_torrent (from_file : string -> Res Torrent)
    (torrent_file_path sub_dir : string) (preprocess_files : callback) : M pyval :=
  let* magnet := lift (_torrent2magnet from_file torrent_file_path) in
  download_magnetic env magnet sub_dir preprocess_files.

End Rest.

(** ** Notions for the further properties *)

(** A result with the accumulator [acc] put in front of it. *)
Definition onto {A} (acc : list A) (r : Res (list A)) : Res (list A) :=
  match r with
  | Ok new => Ok (acc ++ new)
  | Raise e => Raise e
  end.

(** The line feed. *)
Definition line_feed : ascii := ascii_of_nat 10.

Fixpoint has_char (c : ascii) (s : string) : bool :=
  match s with
  | EmptyString => false
  | String c' rest => Ascii.eqb c' c || has_char c rest
  end.

(** The attributes that reading the token leaves alone. *)
Definition same_settings (c c' : XunLeiClient) : Prop :=
  http_endpoint c' = http_endpoint c
  /\ _device_id c' = _device_id c
  /\ _parent_folder_id c' = _parent_folder_id c.

(** The request of lines 137-141 for the device. *)
Definition device_request (endpoint token : string) : Request :=
  {| req_method := "POST"; req_url := endpoint +:+ path_info_watch;
     req_params := []; req_headers := [("pan-auth", token)];
     req_body := NoBody; req_timeout := Some 30 |}.

(** The calls of [get_device_id]: the clock, GET requests, and the
    request for the device with a token that is not empty. *)
Definition device_events (endpoint : string) (e : Event) : Prop :=
  match e with
  | ETime _ => True
  | EHttp req _ =>
      req_method req = "GET"
      \/ exists token, token <> EmptyString /\ req = device_request endpoint token
  end.

(** The first URL of each announce tier. *)
Definition first_urls (torrent : Torrent) : list string :=
  map (fun tier => hd EmptyString tier) (announce_urls torrent).

(** The URL [_make_request] calls for [endpoint] (lines 167-172). *)
Definition request_url (base endpoint : string) : string :=
  if String.prefix "http" endpoint then endpoint
  else base +:+ (if String.prefix "/" endpoint then endpoint else "/" +:+ endpoint).

(** [keeps_settings m]: a run of [m] changes nothing of the client but
    the token and its time. *)
Definition keeps_settings {A} (m : M A) : Prop :=
  forall w, same_settings (self w) (self (m w).2).

(** A folder of the listing has the name [name]. *)
Definition named (name : string) (folder : pyval) : bool :=
  match py_get folder "name" with
  | Ok n => py_eq_str n name
  | Raise _ => false
  end.

(** The folders [_init_download_directory] chooses from: all of them
    without a name, those of the name otherwise. *)
Definition candidates (download_root_dir : string) (folders : list pyval) : list pyval :=
  if String.eqb download_root_dir EmptyString then folders
  else List.filter (named download_root_dir) folders.

(** The request of line 233 for the folders of the device. *)
Definition folders_request (endpoint : string) (params hs : list (string * string))
    : Request :=
  {| req_method := "GET"; req_url := endpoint +:+ prefix_cgi +:+ "/drive/v1/files";
     req_params := params; req_headers := hs; req_body := NoBody;
     req_timeout := None |}.

(** ** The story of a submission *)

(** An event that changes nothing at any service: the clock, a GET. *)
Definition reads (e : Event) : Prop :=
  match e with
  | ETime _ => True
  | EHttp req _ => req_method req = "GET"
  end.

Definition is_task_event (endpoint : string) (e : Event) : bool :=
  match e with
  | EHttp req _ => is_task_creation endpoint req
  | ETime _ => false
  end.

Definition is_folder_event (endpoint : string) (e : Event) : bool :=
  match e with
  | EHttp req _ => is_folder_creation endpoint req
  | ETime _ => false
  end.

(** What [download_magnetic] returns for a result of its body. *)
Definition settle (r : Res pyval) : pyval :=
  match r with
  | Ok v => v
  | Raise _ => PInt 0
  end.

(** The answer to the folder creation names the folder [target]
    (line 419). *)
Definition folder_created (rep : Reply) (target : pyval) : Prop :=
  exists resp created file,
    rep = Answer resp /\ json resp = Some created
    /\ py_get created "file" = Ok file /\ py_get file "id" = Ok target.

(** The answer to the task creation has [HttpStatus == 0] (lines
    444-445). *)
Definition task_accepted (rep : Reply) : Prop :=
  exists resp result status,
    rep = Answer resp /\ json resp = Some result
    /\ py_get result "HttpStatus" = Ok status /\ py_eq_int status 0 = true.

Section Stories.
Context {lib : PyLib}.
Context (endpoint : string) (c : XunLeiClient) (magnetic_link sub_dir : string).

(** The events [new], newest first, create nothing. *)
Definition quiet (new : list Event) : Prop :=
  Forall (fun e => creates_nothing endpoint e = true) new.

(** [new] has the creation of the folder [sub_dir], answered by [rep],
    and nothing else that creates. *)
Definition with_folder (rep : Reply) (new : list Event) : Prop :=
  exists hs after before,
    new = after ++ EHttp (folder_request endpoint c hs sub_dir) rep :: before
    /\ quiet after /\ quiet before.

(** What has happened when the task is about to be created under
    [target]: nothing but reading and [target] is the client's folder,
    or the folder [sub_dir] has been created and [target] is its id. *)
Definition ready (target : pyval) (new : list Event) : Prop :=
  (sub_dir = EmptyString /\ target = _parent_folder_id c /\ quiet new)
  \/ (sub_dir <> EmptyString
      /\ exists rep, with_folder rep new /\ folder_created rep target).

(** The events of a run that returns [v]: either no task creation was
    sent and [v] is not 1, or the task creation is the newest event,
    sent when all was [ready], and [v] is 1 or 0 as it was accepted or
    not. *)
Definition story (v : pyval) (new : list Event) : Prop :=
  (v <> PInt 1
   /\ (quiet new \/ (sub_dir <> EmptyString /\ exists rep, with_folder rep new)))
  \/ exists hs task_name task_file_count target kept rep rest,
       new = EHttp (task_request endpoint c hs task_name magnetic_link task_file_count
                      target kept) rep :: rest
       /\ ready target rest
       /\ (task_accepted rep /\ v = PInt 1 \/ ~ task_accepted rep /\ v = PInt 0).

End Stories.

(** The request of the task operations (lines 513-533, 567-587,
    617-637) for the phase [phase] of the task [task_id]. *)
Definition patch_request (endpoint : string) (c : XunLeiClient) (token : string)
    (hs : list (string * string)) (phase task_id : string) : Request :=
  {| req_method := "POST"; req_url := endpoint +:+ path_patch_task;
     req_params := [("pan_auth", token); ("device_space", EmptyString)];
     req_headers := hs;
     req_body := Json (PDict [("space", _device_id c);
                              ("type", PStr "user#download-url");
                              ("id", PStr task_id);
                              ("set_params", PDict [("spec", PStr phase)])]);
     req_timeout := None |}.

(** A run that ends with the request for [phase], after reading only,
    and leaves the client's settings alone. *)
Definition patches (env : Env) (phase task_id : string) (w w' : World) : Prop :=
  exists token hs rep add,
    trace w'
    = EHttp (patch_request (http_endpoint (self w)) (self w) token hs (spec_of phase)
               task_id) rep :: add ++ trace w
    /\ Forall reads add
    /\ same_settings (self w) (self w').

(** The request of a task listing (lines 282-283, 309-310): a GET of
    the tasks URL for some device and the given filters. *)
Definition is_task_listing (endpoint filters : string) (req : Request) : Prop :=
  req_method req = "GET"
  /\ exists space, req_url req = tasks_url endpoint space filters.

(** The request of the resource listing (lines 356-361). *)
Definition is_resource_listing (endpoint : string) (req : Request) : Prop :=
  req_method req = "POST" /\ req_url req = endpoint +:+ path_resource_list.

(** ** A service to run the client against *)

Module Sample.

Definition route : Type := string * string * Reply.

(** Answers by method and URL, whatever happened before. *)
Definition serve (routes : list route) (_ : list Event) (req : Request) : Reply :=
  match List.find (fun r => String.eqb (fst (fst r)) (req_method req)
                            && String.eqb (snd (fst r)) (req_url req)) routes with
  | Some r => snd r
  | None => NoReply
  end.

Definition ok_json (v : pyval) : Reply :=
  Answer {| status_code := 200; text := EmptyString; json := Some v |}.

Definition ok_text (s : string) : Reply :=
  Answer {| status_code := 200; text := s; json := None |}.

Definition endpoint : string := "http://nas:2345".

Definition page : string :=
  "<script>function uiauth(value){ return " +:+ Uiauth.dquote +:+ "tok123"
  +:+ Uiauth.dquote +:+ " }</script>".

(** One file of 1 GiB with index 0. *)
Definition movie : Resource := File "movie.mkv" (Some 0) 1073741824.

(** A directory with a small and a large file, indices 1 and 2. *)
Definition season : Resource :=
  Directory "Season" [File "note.txt" (Some 1) 120; File "e01.mkv" (Some 2) 734003200].

(** The resources found for a link: one directory of the task's name
    that holds the trees [rs]. *)
Definition found (name : string) (file_count : Z) (rs : list Resource) : pyval :=
  PList [PDict [("name", PStr name); ("file_count", PInt file_count);
                ("is_dir", PBool true);
                ("dir", PDict [("resources", PList (map resource_json rs))])]].

Definition listing (name : string) (file_count : Z) (rs : list Resource) : pyval :=
  PDict [("list", PDict [("resources", found name file_count rs)])].

Definition task_record (name : string) : pyval :=
  PDict [("name", PStr name); ("file_size", PStr "1073741824");
         ("updated_time", PStr "2024-01-01T00:00:00Z"); ("progress", PInt 40);
         ("params", PDict [("real_path", PStr "/downloads"); ("speed", PInt 10)]);
         ("created_time", PStr "2024-01-01T00:00:00Z")].

Definition routes (resources : pyval) (completed uncompleted : list pyval)
    (patch : Reply) : list route :=
  [("GET", endpoint +:+ path_index, ok_text page);
   ("POST", endpoint +:+ path_info_watch, ok_json (PDict [("target", PStr "dev#1")]));
   ("POST", endpoint +:+ path_resource_list, ok_json resources);
   ("GET", tasks_url endpoint (quote "dev#1") filters_completed,
      ok_json (PDict [("tasks", PList completed)]));
   ("GET", tasks_url endpoint (quote "dev#1") filters_uncompleted,
      ok_json (PDict [("tasks", PList uncompleted)]));
   ("POST", endpoint +:+ path_files,
      ok_json (PDict [("file", PDict [("id", PStr "folder7")])]));
   ("POST", endpoint +:+ path_task, ok_json (PDict [("HttpStatus", PInt 0)]));
   ("POST", endpoint +:+ path_patch_task, patch)].

Definition service (resources : pyval) (completed uncompleted : list pyval)
    (patch : Reply) : Env :=
  {| http := serve (routes resources completed uncompleted patch);
     clock := fun tr => 1000 + Z.of_nat (length tr) |}.

(** The magnet resolves to the one movie, no task is known. *)
Definition fresh : Env :=
  service (listing "Sample.Movie" 1 [movie]) [] [] (ok_json (PDict [])).

(** The same, with the task already running. *)
Definition running : Env :=
  service (listing "Sample.Movie" 1 [movie]) [] [task_record "Sample.Movie"]
    (ok_json (PDict [("error_code", PInt 0)])).

(** The magnet resolves to the directory of two files. *)
Definition series : Env :=
  service (listing "Sample.Series" 2 [season]) [task_record "Other"] []
    (ok_json (PDict [("error_code", PInt 7)])).

Definition client : XunLeiClient :=
  {| http_endpoint := endpoint; _device_id := PStr "dev#1"; _token_str := None;
     _token_time := 0; _parent_folder_id := PStr "root" |}.

Definition start : World := {| self := client; trace := [] |}.

(** A client whose token was read at second 900. *)
Definition warm : World :=
  {| self := {| http_endpoint := endpoint; _device_id := PStr "dev#1";
                _token_str := Some "old"; _token_time := 900;
                _parent_folder_id := PStr "root" |};
     trace := [] |}.

Definition magnet : string := "magnet:?xt=urn:btih:8F2977E2E2D2F351FC5C57FC25AEC39EBE4F3822".

(** Two callbacks: the size filter with its defaults, and one that
    returns the files in reverse. *)
Definition by_size : callback := Some (fun l => Ok (filter_file_by_size_default l)).
Definition reversed (l : list TaskFile.t) : Res (list TaskFile.t) := Ok (rev l).
Definition reorder : callback := Some reversed.

(** The service finds no resource for the magnet. *)
Definition nothing : Env :=
  service (PDict [("list", PDict [("resources", PList [])])]) [] []
    (ok_json (PDict [])).

(** The requests of a run that create a task, oldest first. *)
Definition task_requests (w w' : World) : list Request :=
  omap (fun e => match e with
                 | EHttp req _ => if is_task_creation endpoint req then Some req else None
                 | ETime _ => None
                 end) (rev (new_events w w')).

(** A torrent with two announce tiers, and one with an empty tier. *)
Definition torrent : Torrent :=
  {| announce_urls := [["http://t1/announce"; "http://t1b/announce"]; ["udp://t2:80"]];
     magnet_link := magnet |}.

Definition broken : Torrent := {| announce_urls := [[]]; magnet_link := magnet |}.

Definition from_file (file_path : string) : Res Torrent :=
  if String.eqb file_path "movie.torrent" then Ok torrent
  else if String.eqb file_path "broken.torrent" then Ok broken
  else Raise ValueError.

(** The device answers with an empty target. *)
Definition unnamed : Env :=
  {| http := serve (("POST", endpoint +:+ path_info_watch,
                     ok_json (PDict [("target", PStr EmptyString)]))
                    :: routes (listing "Sample.Movie" 1 [movie]) [] [] (ok_json (PDict [])));
     clock := fun tr => 1000 + Z.of_nat (length tr) |}.

(** A client that has no device yet. *)
Definition blank : World :=
  {| self := {| http_endpoint := endpoint; _device_id := PNone; _token_str := None;
                _token_time := 0; _parent_folder_id := PNone |};
     trace := [] |}.

(** How the sample session writes a query value. *)
Definition query_values (v : pyval) : list string :=
  match v with
  | PStr s => [s]
  | PInt z => [str_of_int z]
  | _ => []
  end.

(** The folders of the device. *)
Definition folders : pyval :=
  PList [PDict [("id", PStr "folder1"); ("name", PStr "downloads")];
         PDict [("id", PStr "folder2"); ("name", PStr "movies")]].

(** The service with the listing of the folders. *)
Definition nas : Env :=
  {| http := serve (("GET", endpoint +:+ prefix_cgi +:+ "/drive/v1/files",
                     ok_json (PDict [("files", folders)]))
                    :: routes (listing "Sample.Movie" 1 [movie]) [] [] (ok_json (PDict [])));
     clock := fun tr => 1000 + Z.of_nat (length tr) |}.

(** A callback that raises, and a service that does not answer. *)
Definition failing : callback := Some (fun _ => Raise CallbackError).

Definition down : Env :=
  {| http := fun _ _ => NoReply; clock := fun tr => 1000 + Z.of_nat (length tr) |}.

End Sample.

(** * Properties *)

(** ** The pattern of the token *)

Example findall_greedy :
  Uiauth.findall (Uiauth.opening +:+ "a" +:+ Uiauth.closing +:+ " x "
                  +:+ Uiauth.closing)
  = ["a" +:+ Uiauth.closing +:+ " x "].
Proof. reflexivity. Qed.

Example findall_stays_on_the_line :
  Uiauth.findall (Uiauth.opening +:+ "a" +:+ String (ascii_of_nat 10) Uiauth.closing)
  = [].
Proof. reflexivity. Qed.

Example findall_all_matches :
  Uiauth.findall (Uiauth.opening +:+ "a" +:+ Uiauth.closing
                  +:+ String (ascii_of_nat 10) Uiauth.opening +:+ "b" +:+ Uiauth.closing)
  = ["a"; "b"].
Proof. reflexivity. Qed.

Example findall_sample_page : Uiauth.findall Sample.page = ["tok123"].
Proof. reflexivity. Qed.

(** ** The size filter *)

Lemma in_size_range_spec min_size max_size i :
  in_size_range min_size max_size i = true <->
  min_size <= TaskFile.file_size i <= max_size.
Proof. unfold in_size_range. rewrite andb_true_iff, !Z.leb_le. tauto. Qed.

Lemma filter_file_by_size_unfold task_files min_size max_size :
  filter_file_by_size task_files min_size max_size
  = List.filter (in_size_range min_size max_size) task_files.
Proof. by destruct task_files. Qed.

Lemma bool_filter_prop {A} (f : A -> bool) (P : A -> Prop) `{!forall x, Decision (P x)}
    (l : list A) :
  (forall x, f x = true <-> P x) -> List.filter f l = filter P l.
Proof.
  intros Hf. induction l as [|x l IH]; [done|].
  cbn [List.filter]. rewrite filter_cons, IH.
  destruct (f x) eqn:Hx; case_decide as HP; try done.
  - by apply Hf in Hx.
  - apply Hf in HP. congruence.
Qed.

(** C2. [filter_file_by_size] keeps exactly the entries whose size lies
    in [min_size, max_size], both ends included, in the order of the
    input: it is the filter of the input by that condition, hence a
    subsequence of it with the stated members.  The defaults are
    500 MiB and 40 GiB. *)
Theorem filter_file_by_size_spec (task_files : list TaskFile.t) (min_size max_size : Z) :
  let kept := filter_file_by_size task_files min_size max_size in
  kept = filter (fun i => min_size <= TaskFile.file_size i <= max_size) task_files
  /\ kept `sublist_of` task_files
  /\ (forall i, i ∈ kept <->
                i ∈ task_files /\ min_size <= TaskFile.file_size i <= max_size)
  /\ filter_file_by_size_default task_files
     = filter_file_by_size task_files 524288000 42949672960.
Proof.
  intros kept.
  assert (Hk : kept = filter (fun i => min_size <= TaskFile.file_size i <= max_size)
                        task_files).
  { unfold kept. rewrite filter_file_by_size_unfold.
    apply bool_filter_prop. intros i. apply in_size_range_spec. }
  split; [exact Hk|]. rewrite Hk. split; [apply sublist_filter|].
  split; [intros i; rewrite list_elem_of_filter; tauto|].
  reflexivity.
Qed.

(** ** Flattening the resource tree *)

Lemma Resource_nested_ind (P : Resource -> Prop) :
  (forall name file_index file_size, P (File name file_index file_size)) ->
  (forall name children, Forall P children -> P (Directory name children)) ->
  forall r, P r.
Proof.
  intros Hfile Hdir. fix IH 1. intros [name i s|name children].
  - apply Hfile.
  - apply Hdir. induction children as [|c cs IHcs]; constructor; [apply IH|apply IHcs].
Qed.

Lemma dict_get_depth d k v : dict_get d k = Some v -> (depth v < depth (PDict d))%nat.
Proof.
  cbn [depth]. induction d as [|[k' v'] d IH]; [done|].
  cbn. destruct (String.eqb k' k).
  - intros [= ->]. lia.
  - intros H. specialize (IH H). lia.
Qed.

Lemma py_get_depth v k x : py_get v k = Ok x -> (depth x < depth v)%nat.
Proof.
  destruct v as [| | | | |d]; try done. cbn.
  destruct (dict_get d k) as [y|] eqn:Hy; intros [= <-].
  - by apply dict_get_depth in Hy.
  - cbn. lia.
Qed.

Lemma list_depth (l : list pyval) x : x ∈ l -> (depth x < depth (PList l))%nat.
Proof.
  cbn [depth]. induction 1 as [x l|x y l _ IH]; cbn; lia.
Qed.

Lemma chars_depth s x : x ∈ chars s -> depth x = O.
Proof.
  induction s as [|c s IH]; cbn; [by intros ?%elem_of_nil|].
  intros [->|?]%elem_of_cons; [done|by apply IH].
Qed.

Lemma py_iter_depth v items x :
  py_iter v = Ok items -> x ∈ items -> (depth x <= depth v)%nat.
Proof.
  destruct v as [| | |s|l|d]; try done; intros [= <-] Hx.
  - apply chars_depth in Hx. lia.
  - apply list_depth in Hx. lia.
  - apply list_elem_of_fmap in Hx as (kv & -> & _). cbn. lia.
Qed.

Lemma for_each_ext {A S} (f g : A -> S -> Res S) xs s :
  (forall x s', x ∈ xs -> f x s' = g x s') -> for_each f xs s = for_each g xs s.
Proof.
  revert s. induction xs as [|x xs IH]; intros s H; [done|].
  cbn. rewrite (H x s) by left. destruct (g x s) as [s'|e]; [|done].
  cbn. apply IH. intros y s'' Hy. apply H. by right.
Qed.

Section HelperProps.
Context {lib : PyLib}.

Lemma helper_step_ext f g resource task_files :
  (forall v acc, (depth v + 2 <= depth resource)%nat -> f v acc = g v acc) ->
  helper_step f resource task_files = helper_step g resource task_files.
Proof.
  intros H. unfold helper_step.
  destruct (py_get resource "is_dir") as [is_dir|e]; [cbn|done].
  destruct (truthy is_dir); [|done].
  destruct (py_get resource "dir") as [dir|e] eqn:Hdir; [cbn|done].
  destruct (py_get dir "resources") as [sub|e] eqn:Hsub; [cbn|done].
  apply H. apply py_get_depth in Hdir, Hsub. lia.
Qed.

(** Any fuel above the nesting of the value gives the same result. *)
Lemma helper_fuel_enough n m v task_files :
  (depth v < n)%nat -> (depth v < m)%nat ->
  helper_fuel n v task_files = helper_fuel m v task_files.
Proof.
  revert m v task_files. induction n as [|n IH]; intros [|m] v acc Hn Hm; try lia.
  cbn [helper_fuel]. destruct (py_iter v) as [items|e] eqn:Hit; [cbn|done].
  apply for_each_ext. intros x s Hx. apply helper_step_ext. intros sub acc' Hsub.
  pose proof (py_iter_depth _ _ _ Hit Hx). apply IH; lia.
Qed.

(** The recursion of lines 387-402 as the code writes it. *)
Lemma helper_unfold resources task_files :
  helper resources task_files
  = let? items := py_iter resources in
    for_each (helper_step helper) items task_files.
Proof.
  unfold helper at 1. cbn [helper_fuel].
  destruct (py_iter resources) as [items|e] eqn:Hit; [cbn|done].
  apply for_each_ext. intros x s Hx. apply helper_step_ext. intros sub acc' Hsub.
  pose proof (py_iter_depth _ _ _ Hit Hx). unfold helper.
  apply helper_fuel_enough; lia.
Qed.

Lemma helper_file d name file_index file_size size_value name_value task_files f :
  match dict_get d "is_dir" with Some x => truthy x = false | None => True end ->
  encodes_index (dict_get d "file_index") file_index ->
  dict_get d "file_size" = Some size_value ->
  validate_int size_value = Some file_size ->
  dict_get d "name" = Some name_value ->
  validate_str name_value = Some name ->
  helper_step f (PDict d) task_files
  = Ok (task_files ++ flatten (File name file_index file_size)).
Proof.
  intros Hdir Hidx Hsize Hsz Hname Hnm. unfold helper_step, py_get, py_get_default.
  cbn [res_bind]. rewrite Hsize, Hname.
  assert (truthy (match dict_get d "is_dir" with Some x => x | None => PNone end)
          = false) as ->.
  { by destruct (dict_get d "is_dir"). }
  unfold encodes_index in Hidx. destruct file_index as [i|].
  - destruct Hidx as (x & -> & Hx & Hzero). destruct (truthy x); cbn.
    + unfold new_TaskFile. by rewrite Hx, Hsz, Hnm.
    + rewrite Hzero by done. unfold new_TaskFile.
      by rewrite validate_int_ok, Hsz, Hnm.
  - assert (truthy (match dict_get d "file_index" with Some x => x | None => PNone end)
            = false) as ->.
    { by destruct (dict_get d "file_index"). }
    cbn. unfold new_TaskFile. by rewrite validate_int_ok, Hsz, Hnm.
Qed.

Lemma helper_encoded_list vs rs task_files :
  Forall (fun r => forall v acc, encodes v r ->
            helper_step helper v acc = Ok (acc ++ flatten r)) rs ->
  Forall2 encodes vs rs ->
  for_each (helper_step helper) vs task_files = Ok (task_files ++ flatten_all rs).
Proof.
  intros IH Henc. revert task_files.
  induction Henc as [|v r vs rs Hv _ IHrs]; intros acc.
  - cbn. by rewrite app_nil_r.
  - apply Forall_cons in IH as [IHr IH]. cbn.
    rewrite (IHr _ _ Hv). cbn. rewrite (IHrs IH).
    unfold flatten_all. cbn. by rewrite app_assoc.
Qed.

Lemma helper_encoded r :
  forall v task_files, encodes v r ->
    helper_step helper v task_files = Ok (task_files ++ flatten r).
Proof.
  induction r as [name i s|name children IH] using Resource_nested_ind;
    intros v acc Henc; inversion Henc; subst.
  - by eapply helper_file.
  - unfold helper_step, py_get, py_get_default. cbn [res_bind].
    repeat match goal with H : dict_get _ _ = Some _ |- _ => rewrite H end.
    match goal with H : truthy _ = true |- _ => rewrite H end.
    cbn [res_bind]. repeat match goal with H : dict_get _ _ = Some _ |- _ => rewrite H end.
    rewrite helper_unfold. cbn [py_iter res_bind].
    by apply helper_encoded_list.
Qed.

Lemma flatten_all_length rs : length (flatten_all rs) = leaf_count_all rs.
Proof.
  unfold flatten_all, leaf_count_all.
  induction rs as [|r rs IHrs]; [done|].
  cbn. rewrite length_app, IHrs. f_equal.
  clear IHrs rs. induction r as [name i s|name children IH] using Resource_nested_ind;
    [done|].
  cbn. induction IH as [|c cs Hc _ IHcs]; [done|].
  cbn. by rewrite length_app, Hc, IHcs.
Qed.

(** C4. Flattening descends depth first, in pre-order.  On the JSON of
    a list of resources [helper] appends to [task_files] the entries of
    the specification's [flatten_all]: one entry per file, with the
    declared index (0 when there is none) and the declared size, and
    for a directory the entries of its children.  So there are as many
    entries as files, and an empty tree gives the empty list. *)
Theorem helper_flattens (vs : list pyval) (rs : list Resource)
    (task_files : list TaskFile.t) :
  Forall2 encodes vs rs ->
  helper (PList vs) task_files = Ok (task_files ++ flatten_all rs)
  /\ (forall out, helper (PList vs) [] = Ok out -> length out = leaf_count_all rs)
  /\ helper (PList []) [] = Ok [].
Proof.
  intros Henc.
  assert (H : forall acc, helper (PList vs) acc = Ok (acc ++ flatten_all rs)).
  { intros acc. rewrite helper_unfold. cbn [py_iter res_bind].
    apply helper_encoded_list; [|done].
    apply Forall_forall. intros r _. apply helper_encoded. }
  split; [apply H|]. split; [|done].
  intros out. rewrite H. intros [= <-]. apply flatten_all_length.
Qed.

End HelperProps.

Lemma resource_json_encodes {lib : PyLib} r : encodes (resource_json r) r.
Proof.
  induction r as [name i s|name children IH] using Resource_nested_ind.
  - destruct i as [i|]; cbn;
      (eapply encodes_file;
         [done| |reflexivity|apply validate_int_ok|reflexivity|apply validate_str_ok]).
    + exists (PInt i). split; [done|]. split; [apply validate_int_ok|].
      cbn. by intros ->%negb_false_iff%Z.eqb_eq.
    + done.
  - cbn. eapply encodes_directory; cbn; try done.
    induction IH; constructor; auto.
Qed.

Lemma helper_flattens_witness :
  Forall2 (encodes (lib := strict_lib))
    (map resource_json [Sample.season; Sample.movie]) [Sample.season; Sample.movie]
  /\ helper (lib := strict_lib)
       (PList (map resource_json [Sample.season; Sample.movie])) []
     = Ok (flatten_all [Sample.season; Sample.movie]).
Proof.
  assert (H : Forall2 (encodes (lib := strict_lib))
                (map resource_json [Sample.season; Sample.movie])
                [Sample.season; Sample.movie]).
  { repeat constructor; apply resource_json_encodes. }
  split; [exact H|].
  exact (proj1 (helper_flattens (lib := strict_lib) _ _ [] H)).
Defined.

Lemma for_each_never {A S} (f : A -> S -> Res S) (e : exn) xs s :
  (forall x s', x ∈ xs -> f x s' <> Raise e) -> for_each f xs s <> Raise e.
Proof.
  revert s. induction xs as [|x xs IH]; intros s H; [done|].
  cbn. destruct (f x s) as [s'|e'] eqn:Hx; cbn.
  - apply IH. intros y s'' Hy. apply H. by right.
  - intros [= ->]. by apply (H x s); [left|].
Qed.

Lemma py_iter_raises v e : py_iter v = Raise e -> e = TypeError.
Proof. destruct v; cbn; congruence. Qed.

Lemma py_get_raises v k e : py_get v k = Raise e -> e = AttributeError.
Proof. destruct v; cbn; congruence. Qed.

(** The fuel of [helper] is never used up. *)
Lemma helper_never_exhausts {lib : PyLib} resources task_files :
  helper resources task_files <> Raise RecursionError.
Proof.
  remember (depth resources) as n eqn:Hn. revert resources task_files Hn.
  induction (lt_wf n) as [n _ IH]. intros resources task_files ->.
  rewrite helper_unfold.
  destruct (py_iter resources) as [items|e] eqn:Hit; cbn;
    [|by apply py_iter_raises in Hit as ->].
  apply for_each_never. intros x s Hx. unfold helper_step.
  pose proof (py_iter_depth _ _ _ Hit Hx) as Hdx.
  destruct (py_get x "is_dir") as [is_dir|e] eqn:Hd; cbn;
    [|by apply py_get_raises in Hd as ->].
  destruct (truthy is_dir).
  - destruct (py_get x "dir") as [dir|e] eqn:Hdir; cbn;
      [|by apply py_get_raises in Hdir as ->].
    destruct (py_get dir "resources") as [sub|e] eqn:Hsub; cbn;
      [|by apply py_get_raises in Hsub as ->].
    apply py_get_depth in Hdir, Hsub. eapply IH; [|done]. lia.
  - destruct (py_get x "file_index") as [fi|e] eqn:Hfi; cbn;
      [|by apply py_get_raises in Hfi as ->].
    destruct (negb (truthy fi)); cbn;
      (destruct (py_get x "file_size") as [file_size|e] eqn:Hfs; cbn;
         [|by apply py_get_raises in Hfs as ->]);
      (destruct (py_get x "name") as [file_name|e] eqn:Hfn; cbn;
         [|by apply py_get_raises in Hfn as ->]);
      unfold new_TaskFile; by repeat case_match.
Qed.

(** ** Reasoning about runs *)

Lemma new_events_app w w' new : trace w' = new ++ trace w -> new_events w w' = new.
Proof.
  unfold new_events. intros ->. rewrite length_app.
  replace (length new + length (trace w) - length (trace w))%nat with (length new) by lia.
  by rewrite take_app_length.
Qed.

Lemma bind_run {A B} (m : M A) (k : A -> M B) w :
  bind m k w = match m w with
               | (Ok a, w') => k a w'
               | (Raise e, w') => (Raise e, w')
               end.
Proof. reflexivity. Qed.

Section Runs.
Context (env : Env) (endpoint : string).

Lemma follows_ret {A} (a : A) allowed (Q : A -> Prop) :
  Q a -> follows endpoint (ret a) allowed Q.
Proof.
  intros HQ w Hw. cbn. split; [done|]. split; [by exists []|].
  by intros ? [= <-].
Qed.

Lemma follows_raise {A} e allowed (Q : A -> Prop) : follows endpoint (raise e) allowed Q.
Proof. intros w Hw. cbn. split; [done|]. split; [by exists []|done]. Qed.

Lemma follows_lift {A} (r : Res A) allowed :
  follows endpoint (lift r) allowed (fun a => r = Ok a).
Proof. intros w Hw. cbn. split; [done|]. split; [by exists []|done]. Qed.

Lemma follows_get_self allowed :
  follows endpoint get_self allowed (fun me => http_endpoint me = endpoint).
Proof.
  intros w Hw. cbn. split; [done|]. split; [by exists []|].
  by intros ? [= <-].
Qed.

Lemma follows_weaken {A} (m : M A) allowed (Q Q' : A -> Prop) :
  follows endpoint m allowed Q -> (forall a, Q a -> Q' a) -> follows endpoint m allowed Q'.
Proof.
  intros Hm HQ w Hw. destruct (Hm w Hw) as (Hep & Hnew & Hret).
  split; [done|]. split; [done|]. intros a Ha. by apply HQ, Hret.
Qed.

Lemma follows_bind {A B} (m : M A) (k : A -> M B) allowed (Q1 : A -> Prop)
    (Q : B -> Prop) :
  follows endpoint m allowed Q1 ->
  (forall a, Q1 a -> follows endpoint (k a) allowed Q) ->
  follows endpoint (bind m k) allowed Q.
Proof.
  intros Hm Hk w Hw. rewrite bind_run.
  destruct (Hm w Hw) as (Hep & (new1 & Htr1 & Hnew1) & HQ1).
  destruct (m w) as [[a|e] w1]; cbn in *.
  - destruct (Hk a (HQ1 a eq_refl) w1 Hep) as (Hep' & (new2 & Htr2 & Hnew2) & HQ).
    split; [done|]. split; [|done].
    exists (new2 ++ new1). rewrite Htr2, Htr1, app_assoc. split; [done|].
    by apply Forall_app.
  - split; [done|]. split; [by exists new1|done].
Qed.

Lemma follows_try_except {A} (body : M A) (handler : exn -> M A) allowed
    (Q : A -> Prop) :
  follows endpoint body allowed Q ->
  (forall e, follows endpoint (handler e) allowed Q) ->
  follows endpoint (try_except body handler) allowed Q.
Proof.
  intros Hb Hh w Hw. unfold try_except.
  destruct (Hb w Hw) as (Hep & (new1 & Htr1 & Hnew1) & HQ1).
  destruct (body w) as [[a|e] w1]; cbn in *.
  - split; [done|]. split; [by exists new1|done].
  - destruct (Hh e w1 Hep) as (Hep' & (new2 & Htr2 & Hnew2) & HQ).
    split; [done|]. split; [|done].
    exists (new2 ++ new1). rewrite Htr2, Htr1, app_assoc. split; [done|].
    by apply Forall_app.
Qed.

Lemma follows_set_self c allowed :
  http_endpoint c = endpoint -> follows endpoint (set_self c) allowed (fun _ => True).
Proof. intros Hc w Hw. cbn. split; [done|]. split; [by exists []|done]. Qed.

Lemma follows_set_token_str s allowed :
  follows endpoint (set_token_str s) allowed (fun _ => True).
Proof.
  eapply follows_bind; [apply follows_get_self|].
  intros me Hme. by apply follows_set_self.
Qed.

Lemma follows_set_token_time t allowed :
  follows endpoint (set_token_time t) allowed (fun _ => True).
Proof.
  eapply follows_bind; [apply follows_get_self|].
  intros me Hme. by apply follows_set_self.
Qed.

Lemma follows_set_device_id v allowed :
  follows endpoint (set_device_id v) allowed (fun _ => True).
Proof.
  eapply follows_bind; [apply follows_get_self|].
  intros me Hme. by apply follows_set_self.
Qed.

Lemma follows_now (allowed : Event -> Prop) :
  (forall t, allowed (ETime t)) -> follows endpoint (now env) allowed (fun _ => True).
Proof.
  intros Ht w Hw. cbn. split; [done|]. split; [|done].
  eexists [_]. split; [done|]. by constructor.
Qed.

Lemma follows_session_request req (allowed : Event -> Prop) :
  (forall rep, allowed (EHttp req rep)) ->
  follows endpoint (session_request env req) allowed (fun _ => True).
Proof.
  intros Hreq w Hw. unfold session_request.
  assert (Hex : exists new,
    EHttp req (http env (trace w) req) :: trace w = new ++ trace w
    /\ Forall allowed new).
  { eexists [_]. split; [done|]. by constructor. }
  destruct (http env (trace w) req); cbn; by repeat split.
Qed.

Lemma follows_raise_for_status r allowed :
  follows endpoint (raise_for_status r) allowed (fun _ => True).
Proof.
  unfold raise_for_status. case_match; [apply follows_raise|by apply follows_ret].
Qed.

Lemma follows_response_json r allowed :
  follows endpoint (response_json r) allowed (fun v => json r = Some v).
Proof.
  unfold response_json. destruct (json r); [by apply follows_ret|apply follows_raise].
Qed.

Lemma follows_get_pan_auth allowed :
  allows_reads allowed -> follows endpoint (get_pan_auth env) allowed (fun _ => True).
Proof.
  intros [Ht Hget]. unfold get_pan_auth.
  eapply follows_bind; [apply follows_get_self|]. intros me Hme.
  eapply follows_bind with (Q1 := fun _ => True).
  { destruct (_token_str me); [|by apply follows_ret].
    eapply follows_bind; [by apply follows_now|]. intros t _. by apply follows_ret. }
  intros [token|] _; [by apply follows_ret|].
  apply follows_try_except; [|intros e; by apply follows_ret].
  eapply follows_bind; [apply follows_session_request; intros; by apply Hget|].
  intros resp _. case_match; [by apply follows_ret|].
  case_match; [by apply follows_ret|].
  eapply follows_bind; [apply follows_set_token_str|]. intros _ _.
  eapply follows_bind; [by apply follows_now|]. intros t _.
  eapply follows_bind; [apply follows_set_token_time|]. intros _ _.
  by apply follows_ret.
Qed.

Lemma follows_headers allowed :
  allows_reads allowed -> follows endpoint (headers env) allowed (fun _ => True).
Proof.
  intros Hr. unfold headers.
  eapply follows_bind; [by apply follows_get_pan_auth|]. intros token _.
  by apply follows_ret.
Qed.

End Runs.

(** ** URLs *)

Lemma append_cancel (s a b : string) : s +:+ a = s +:+ b -> a = b.
Proof. induction s as [|c s IH]; cbn; [done|]. intros [= H]. by apply IH. Qed.

Lemma url_eqb_false (endpoint a b : string) :
  String.eqb a b = false -> String.eqb (endpoint +:+ a) (endpoint +:+ b) = false.
Proof.
  rewrite !String.eqb_neq. intros Hab H. by apply Hab, (append_cancel endpoint).
Qed.

Lemma get_creates_nothing endpoint req rep :
  req_method req = "GET" -> creates_nothing endpoint (EHttp req rep) = true.
Proof.
  intros Hm. unfold creates_nothing, is_folder_creation, is_task_creation.
  by rewrite Hm.
Qed.

Lemma listing_creates_nothing endpoint req rep :
  req_url req = endpoint +:+ path_resource_list ->
  creates_nothing endpoint (EHttp req rep) = true.
Proof.
  intros Hu. unfold creates_nothing, is_folder_creation, is_task_creation.
  rewrite Hu, !url_eqb_false by done. by rewrite !andb_false_r.
Qed.

(** ** The listings *)

Lemma res_bind_ok {A B} (r : Res A) (k : A -> Res B) b :
  res_bind r k = Ok b -> exists a, r = Ok a /\ k a = Ok b.
Proof. destruct r as [a|e]; [|done]. by exists a. Qed.

Lemma for_each_collect {A B} (build : A -> Res B) (P : B -> Prop) xs acc out :
  (forall x b, build x = Ok b -> P b) ->
  Forall P acc ->
  for_each (fun x res => let? b := build x in Ok (res ++ [b])) xs acc = Ok out ->
  Forall P out.
Proof.
  intros Hb. revert acc. induction xs as [|x xs IH]; intros acc Hacc; cbn.
  - by intros [= <-].
  - intros (acc' & (b & Hx & [= <-])%res_bind_ok & Hrest)%res_bind_ok.
    apply (IH (acc ++ [b])); [|done].
    apply Forall_app. split; [done|]. apply Forall_singleton. by eapply Hb.
Qed.

Section Listings.
Context {lib : PyLib} (env : Env).

Lemma new_TaskInfo_names name file_name file_size updated_time progress real_path
    speed created_time origin info :
  new_TaskInfo name file_name file_size updated_time progress real_path speed
    created_time origin = Ok info ->
  validate_str name = Some (TaskInfo.name info)
  /\ validate_str file_name = Some (TaskInfo.file_name info).
Proof.
  unfold new_TaskInfo. repeat case_match; try done. by intros [= <-].
Qed.

Lemma completed_task_info_names task info :
  completed_task_info task = Ok info -> TaskInfo.file_name info = TaskInfo.name info.
Proof.
  unfold completed_task_info. intros H.
  repeat (apply res_bind_ok in H as (? & ? & H)).
  apply new_TaskInfo_names in H as [Hn Hf]. congruence.
Qed.

Lemma uncompleted_task_info_names task info :
  uncompleted_task_info task = Ok info -> TaskInfo.file_name info = TaskInfo.name info.
Proof.
  unfold uncompleted_task_info. intros H.
  repeat (apply res_bind_ok in H as (? & ? & H)).
  apply new_TaskInfo_names in H as [Hn Hf]. congruence.
Qed.

Lemma follows_fetch_tasks endpoint filters build allowed (P : TaskInfo.t -> Prop) :
  allows_reads allowed ->
  (forall task info, build task = Ok info -> P info) ->
  follows endpoint (fetch_tasks env filters build) allowed (Forall P).
Proof.
  intros Hr Hb. unfold fetch_tasks.
  eapply follows_bind; [apply follows_get_self|]. intros me Hme.
  eapply follows_bind; [apply follows_lift|]. intros space _.
  eapply follows_bind; [by apply follows_headers|]. intros hs _.
  eapply follows_bind; [apply follows_session_request; intros; by apply Hr|].
  intros resp _.
  eapply follows_bind; [apply follows_response_json|]. intros data _.
  eapply follows_bind; [apply follows_lift|]. intros tasks _.
  case_match; [by apply follows_ret|].
  eapply follows_bind; [apply follows_lift|]. intros items _.
  eapply follows_weaken; [apply follows_lift|].
  intros out Hout. eapply for_each_collect; [exact Hb|constructor|exact Hout].
Qed.

End Listings.

(** ** The phases of a submission *)

Section Submission.
Context {lib : PyLib} (env : Env) (endpoint : string).

Lemma follows_completed_tasks allowed :
  allows_reads allowed ->
  follows endpoint (completed_tasks env) allowed (fun _ => True).
Proof.
  intros Hr. eapply follows_weaken;
    [by apply (follows_fetch_tasks env endpoint _ _ allowed (fun _ => True))|done].
Qed.

Lemma follows_uncompleted_tasks allowed :
  allows_reads allowed ->
  follows endpoint (uncompleted_tasks env) allowed (fun _ => True).
Proof.
  intros Hr. eapply follows_weaken;
    [by apply (follows_fetch_tasks env endpoint _ _ allowed (fun _ => True))|done].
Qed.

Lemma follows_list_resources magnetic_link (allowed : Event -> Prop) :
  allows_reads allowed ->
  (forall req rep, req_url req = endpoint +:+ path_resource_list ->
                   allowed (EHttp req rep)) ->
  follows endpoint (list_resources env magnetic_link) allowed (fun _ => True).
Proof.
  intros Hr Hl. unfold list_resources.
  eapply follows_bind; [apply follows_get_self|]. intros me Hme.
  eapply follows_bind; [by apply follows_headers|]. intros hs _.
  eapply follows_bind.
  { apply follows_session_request. intros rep. apply Hl. cbn. by rewrite Hme. }
  intros response _. case_match; [by apply follows_ret|].
  eapply follows_bind; [apply follows_response_json|]. intros data _.
  eapply follows_bind; [apply follows_lift|]. intros lst _.
  eapply follows_bind; [apply follows_lift|]. intros found _.
  case_match; by apply follows_ret.
Qed.

Lemma follows_submit_task task_name magnetic_link task_file_count task_files
    target_parent_id (allowed : Event -> Prop) (Q : pyval -> Prop) :
  allows_reads allowed ->
  (forall me hs rep, http_endpoint me = endpoint ->
     allowed (EHttp (task_request endpoint me hs task_name magnetic_link task_file_count
                       target_parent_id task_files) rep)) ->
  Q (PInt 1) -> Q (PInt 0) ->
  follows endpoint
    (submit_task env task_name magnetic_link task_file_count task_files
       (map (fun i => str_of_int (TaskFile.index i)) task_files) target_parent_id)
    allowed Q.
Proof.
  intros Hr Hreq Q1 Q0. unfold submit_task.
  eapply follows_bind; [apply follows_get_self|]. intros me Hme.
  eapply follows_bind; [by apply follows_headers|]. intros hs _.
  eapply follows_bind.
  { apply follows_session_request. intros rep.
    specialize (Hreq me hs rep Hme). unfold task_request in Hreq.
    by rewrite <- Hme in Hreq at 1. }
  intros response _.
  eapply follows_bind; [apply follows_response_json|]. intros result _.
  eapply follows_bind; [apply follows_lift|]. intros status _.
  case_match; by apply follows_ret.
Qed.

(** [download_resources], one path at a time.  A task is created for the
    files [preprocess_files] returns, under the root folder or under a
    folder created for a [sub_dir] with no separator; a [sub_dir] with
    a separator ends the run with [False] before any creation. *)
Lemma follows_download_resources data magnetic_link sub_dir preprocess_files
    (allowed : Event -> Prop) (Q : pyval -> Prop) :
  allows_reads allowed ->
  Q (PInt 2) ->
  (sub_dir <> EmptyString -> contains "/" sub_dir = true -> Q (PBool false)) ->
  (sub_dir = EmptyString \/ contains "/" sub_dir = false -> Q (PInt 1) /\ Q (PInt 0)) ->
  (sub_dir <> EmptyString -> contains "/" sub_dir = false ->
     forall me hs rep, http_endpoint me = endpoint ->
       allowed (EHttp (folder_request endpoint me hs sub_dir) rep)) ->
  (sub_dir = EmptyString \/ contains "/" sub_dir = false ->
     forall first task_name task_file_count lst root_resources task_files kept,
       first_resource data = Ok first ->
       py_get first "name" = Ok task_name ->
       py_get first "file_count" = Ok task_file_count ->
       py_get data "list" = Ok lst ->
       py_get lst "resources" = Ok root_resources ->
       helper root_resources [] = Ok task_files ->
       preprocess preprocess_files task_files = Ok kept ->
       forall me hs target_parent_id rep, http_endpoint me = endpoint ->
         allowed (EHttp (task_request endpoint me hs task_name magnetic_link
                           task_file_count target_parent_id kept) rep)) ->
  follows endpoint
    (download_resources env data magnetic_link sub_dir preprocess_files) allowed Q.
Proof.
  intros Hr Q2 Qfalse Qsubmit Hfolder Htask. unfold download_resources.
  eapply follows_bind; [apply follows_lift|]. intros first Hfirst.
  eapply follows_bind; [apply follows_lift|]. intros task_name Hname.
  eapply follows_bind; [by apply follows_completed_tasks|]. intros completed _.
  eapply follows_bind; [by apply follows_uncompleted_tasks|]. intros uncompleted _.
  eapply follows_bind; [apply follows_lift|]. intros exists_ _.
  destruct exists_; [by apply follows_ret|].
  eapply follows_bind; [apply follows_lift|]. intros first' Hfirst'.
  eapply follows_bind; [apply follows_lift|]. intros task_file_count Hcount.
  eapply follows_bind; [apply follows_lift|]. intros lst Hlst.
  eapply follows_bind; [apply follows_lift|]. intros root_resources Hroot.
  eapply follows_bind; [apply follows_lift|]. intros task_files Hfiles.
  eapply follows_bind; [apply follows_lift|]. intros kept Hkept.
  eapply follows_bind; [apply follows_get_self|]. intros me Hme.
  cbv beta in *. assert (first' = first) as -> by congruence.
  destruct (String.eqb_spec sub_dir EmptyString) as [Hsub|Hsub]; cbn [negb].
  - apply follows_submit_task; [done| |apply Qsubmit; by left..].
    intros. eapply Htask; eauto.
  - destruct (contains "/" sub_dir) eqn:Hslash; [by apply follows_ret, Qfalse|].
    eapply follows_bind; [by apply follows_headers|]. intros hs _.
    eapply follows_bind.
    { apply follows_session_request. intros rep.
      specialize (Hfolder Hsub eq_refl me hs rep Hme). unfold folder_request in Hfolder.
      by rewrite <- Hme in Hfolder at 1. }
    intros response _.
    eapply follows_bind; [apply follows_response_json|]. intros created _.
    eapply follows_bind; [apply follows_lift|]. intros file _.
    eapply follows_bind; [apply follows_lift|]. intros target_parent_id _.
    apply follows_submit_task; [done| |apply Qsubmit; by right..].
    intros. eapply Htask; eauto.
Qed.

End Submission.

(** ** [download_magnetic] *)

Lemma existsb_eqb_elem (name : string) (names : list string) :
  name ∈ names -> existsb (String.eqb name) names = true.
Proof.
  intros H. apply existsb_exists. exists name.
  split; [by apply list_elem_of_In|apply String.eqb_refl].
Qed.

Lemma creates_nothing_reads endpoint :
  allows_reads (fun e => creates_nothing endpoint e = true).
Proof. split; [done|]. intros req rep Hm. by apply get_creates_nothing. Qed.

Section Download.
Context {lib : PyLib} (env : Env).

Lemma follows_download_magnetic endpoint magnetic_link sub_dir preprocess_files
    (allowed : Event -> Prop) (Q : pyval -> Prop) :
  allows_reads allowed ->
  (forall req rep, req_url req = endpoint +:+ path_resource_list ->
                   allowed (EHttp req rep)) ->
  Q (PInt 0) ->
  (forall data,
     follows endpoint (download_resources env data magnetic_link sub_dir
                         preprocess_files) allowed Q) ->
  follows endpoint (download_magnetic env magnetic_link sub_dir preprocess_files)
    allowed Q.
Proof.
  intros Hr Hl Q0 Hrest. unfold download_magnetic.
  apply follows_try_except; [|intros e; by apply follows_ret].
  eapply follows_bind; [by apply follows_list_resources|].
  intros [data|] _; [apply Hrest|by apply follows_ret].
Qed.

Lemma download_magnetic_returns magnetic_link sub_dir preprocess_files w :
  exists v, (download_magnetic env magnetic_link sub_dir preprocess_files w).1 = Ok v.
Proof.
  unfold download_magnetic, try_except.
  destruct (bind _ _ w) as [[v|e] w']; cbn; eauto.
Qed.

(** The values behind the outcomes: 0, 1, 2, and [False] for a
    [sub_dir] with a separator. *)
Lemma download_magnetic_values magnetic_link sub_dir preprocess_files w v :
  (download_magnetic env magnetic_link sub_dir preprocess_files w).1 = Ok v ->
  v = PInt 0 \/ v = PInt 1 \/ v = PInt 2 \/ v = PBool false.
Proof.
  intros Hv.
  assert (H : follows (http_endpoint (self w))
            (download_magnetic env magnetic_link sub_dir preprocess_files)
            (fun _ => True)
            (fun v => v = PInt 0 \/ v = PInt 1 \/ v = PInt 2 \/ v = PBool false)).
  { apply follows_download_magnetic; try done; [by left|].
    intros data. apply follows_download_resources; try done; intros; tauto. }
  by apply (H w eq_refl).
Qed.

(** C1. When the name of the first resource found for the link is the
    name of a task that [completed_tasks] or [uncompleted_tasks]
    returns, [download_magnetic] returns 2 and creates neither a folder
    nor a task. *)
Theorem download_magnetic_already_exists (magnetic_link sub_dir : string)
    (preprocess_files : callback) (w w1 w2 w3 : World) (data first : pyval)
    (name : string) (completed uncompleted : list TaskInfo.t) :
  list_resources env magnetic_link w = (Ok (Some data), w1) ->
  first_resource data = Ok first ->
  py_get first "name" = Ok (PStr name) ->
  completed_tasks env w1 = (Ok completed, w2) ->
  uncompleted_tasks env w2 = (Ok uncompleted, w3) ->
  name ∈ map TaskInfo.name (completed ++ uncompleted) ->
  download_magnetic env magnetic_link sub_dir preprocess_files w = (Ok (PInt 2), w3)
  /\ Forall (fun e => creates_nothing (http_endpoint (self w)) e = true)
       (new_events w w3).
Proof.
  intros Hlist Hfirst Hname Hc Hu Hin. split.
  - unfold download_magnetic, try_except. rewrite bind_run, Hlist.
    unfold download_resources.
    rewrite bind_run. cbn [lift]. rewrite Hfirst.
    rewrite bind_run. cbn [lift]. rewrite Hname.
    rewrite bind_run, Hc. rewrite bind_run, Hu.
    rewrite bind_run. cbn [lift py_in_set].
    by rewrite (existsb_eqb_elem _ _ Hin).
  - pose (allowed := fun e => creates_nothing (http_endpoint (self w)) e = true).
    destruct (follows_list_resources env (http_endpoint (self w)) magnetic_link
                allowed (creates_nothing_reads _)
                (fun req rep => listing_creates_nothing _ req rep) w eq_refl)
      as (Hep1 & (new1 & Hnew1 & Hall1) & _).
    rewrite Hlist in Hep1, Hnew1. cbn in Hep1, Hnew1.
    destruct (follows_completed_tasks env (http_endpoint (self w)) allowed
                (creates_nothing_reads _) w1 Hep1)
      as (Hep2 & (new2 & Hnew2 & Hall2) & _).
    rewrite Hc in Hep2, Hnew2. cbn in Hep2, Hnew2.
    destruct (follows_uncompleted_tasks env (http_endpoint (self w)) allowed
                (creates_nothing_reads _) w2 Hep2)
      as (_ & (new3 & Hnew3 & Hall3) & _).
    rewrite Hu in Hnew3. cbn in Hnew3.
    rewrite (new_events_app w w3 (new3 ++ new2 ++ new1)).
    + by rewrite !Forall_app.
    + by rewrite Hnew3, Hnew2, Hnew1, !app_assoc.
Qed.

End Download.

(** ** The body of the task-creation request *)

Section Payload.
Context {lib : PyLib} (env : Env).

Lemma download_magnetic_after_listing magnetic_link sub_dir preprocess_files w data w1 :
  list_resources env magnetic_link w = (Ok (Some data), w1) ->
  (download_magnetic env magnetic_link sub_dir preprocess_files w).2
  = (download_resources env data magnetic_link sub_dir preprocess_files w1).2.
Proof.
  intros Hlist. unfold download_magnetic, try_except. rewrite bind_run, Hlist.
  by destruct (download_resources _ _ _ _ _ _) as [[v|e] w'].
Qed.

(** Every task-creation request of a run is the request for the files
    that [preprocess_files] returned. *)
Lemma task_requests_submitted magnetic_link sub_dir preprocess_files w data w1 :
  list_resources env magnetic_link w = (Ok (Some data), w1) ->
  Forall (fun e => forall req rep, e = EHttp req rep ->
            is_task_creation (http_endpoint (self w)) req = true ->
            exists task_file_count task_files kept,
              submits (http_endpoint (self w)) data magnetic_link preprocess_files
                task_file_count task_files kept req)
    (new_events w (download_magnetic env magnetic_link sub_dir preprocess_files w).2).
Proof.
  intros Hlist. set (endpoint := http_endpoint (self w)).
  set (allowed := fun e => forall req rep, e = EHttp req rep ->
         is_task_creation endpoint req = true ->
         exists task_file_count task_files kept,
           submits endpoint data magnetic_link preprocess_files
             task_file_count task_files kept req).
  assert (Hweak : forall e, creates_nothing endpoint e = true -> allowed e).
  { intros e He req rep -> Hreq. cbn in He.
    apply andb_true_iff in He as [_ He]. by rewrite Hreq in He. }
  destruct (follows_list_resources env endpoint magnetic_link
              (fun e => creates_nothing endpoint e = true) (creates_nothing_reads _)
              (fun req rep => listing_creates_nothing _ req rep) w eq_refl)
    as (Hep1 & (new1 & Hnew1 & Hall1) & _).
  rewrite Hlist in Hep1, Hnew1. cbn in Hep1, Hnew1.
  assert (H : follows endpoint
            (download_resources env data magnetic_link sub_dir preprocess_files)
            allowed (fun _ => True)).
  { apply follows_download_resources; try done.
    - split; intros; apply Hweak; [done|by apply get_creates_nothing].
    - intros _ _ me hs rep _ req rep' [= <- _] Hreq.
      unfold is_task_creation, folder_request in Hreq. cbn in Hreq.
      by rewrite url_eqb_false in Hreq.
    - intros _ first task_name task_file_count lst root_resources task_files kept
        Hfirst Hname Hcount Hlst Hroot Hfiles Hkept me hs target_parent_id rep _
        req rep' [= <- _] _.
      exists task_file_count, task_files, kept.
      by exists me, hs, first, task_name, lst, root_resources, target_parent_id. }
  destruct (H w1 Hep1) as (_ & (new2 & Hnew2 & Hall2) & _).
  rewrite (download_magnetic_after_listing _ _ _ _ _ _ Hlist).
  rewrite (new_events_app w _ (new2 ++ new1)).
  - apply Forall_app. split; [done|]. eapply Forall_impl; [exact Hall1|done].
  - by rewrite Hnew2, Hnew1, app_assoc.
Qed.

End Payload.

(** ** The token *)

Section Token.
Context (env : Env).

Lemma get_pan_auth_cached w token :
  _token_str (self w) = Some token ->
  clock env (trace w) < _token_time (self w) + 600 ->
  get_pan_auth env w = (Ok token, after_check env w).
Proof.
  intros Htok Ht. unfold get_pan_auth, after_check, bind, get_self, now, ret.
  rewrite Htok. apply Z.ltb_lt in Ht. by rewrite Ht.
Qed.

Lemma get_pan_auth_fetch w :
  _token_str (self w) = None \/ _token_time (self w) + 600 <= clock env (trace w) ->
  let w0 := after_check env w in
  let req := index_request (http_endpoint (self w)) in
  let rep := http env (trace w0) req in
  let called := EHttp req rep :: trace w0 in
  get_pan_auth env w
  = match extracted rep with
    | Some token =>
        (Ok token,
         {| self := {| http_endpoint := http_endpoint (self w);
                       _device_id := _device_id (self w);
                       _token_str := Some token;
                       _token_time := clock env called;
                       _parent_folder_id := _parent_folder_id (self w) |};
            trace := ETime (clock env called) :: called |})
    | None => (Ok EmptyString, {| self := self w; trace := called |})
    end.
Proof.
  intros Hold. cbv zeta.
  unfold get_pan_auth, after_check, extracted, index_request.
  unfold bind at 1. unfold get_self at 1. unfold bind at 1.
  destruct (_token_str (self w)) as [token|] eqn:Htok.
  - destruct Hold as [|Hold]; [done|]. apply Z.ltb_ge in Hold.
    unfold bind at 1, now at 1, ret at 1. rewrite Hold.
    unfold try_except, bind at 1, session_request. cbn [self trace].
    destruct (http env _ _) as [|resp]; [done|].
    destruct (Z.eqb_spec (status_code resp) 200) as [Hs|Hs]; cbn [negb]; [|done].
    destruct (Uiauth.findall (text resp)) as [|tok rest]; [done|].
    reflexivity.
  - unfold ret at 1.
    unfold try_except, bind at 1, session_request. cbn [self trace].
    destruct (http env _ _) as [|resp]; [done|].
    destruct (Z.eqb_spec (status_code resp) 200) as [Hs|Hs]; cbn [negb]; [|done].
    destruct (Uiauth.findall (text resp)) as [|tok rest]; [done|].
    reflexivity.
Qed.

(** C8. [get_pan_auth] returns the cached token, and calls nothing,
    when the token was read less than 600 seconds before (the clock
    counts whole seconds, as the code reads it).  Otherwise it requests
    the entry page; the token the pattern finds in the page is stored
    with the time read after the reply and returned, and when the
    request fails, the status is not 200 or the pattern is not found,
    the result is the empty string and the client is unchanged.  It
    never raises. *)
Theorem get_pan_auth_spec (w : World) :
  let w0 := after_check env w in
  let req := index_request (http_endpoint (self w)) in
  let rep := http env (trace w0) req in
  (forall token,
     _token_str (self w) = Some token ->
     clock env (trace w) < _token_time (self w) + 600 ->
     exists w', get_pan_auth env w = (Ok token, w')
       /\ self w' = self w
       /\ Forall (fun e => is_call e = false) (new_events w w'))
  /\ (_token_str (self w) = None
      \/ _token_time (self w) + 600 <= clock env (trace w) ->
      exists result w', get_pan_auth env w = (Ok result, w')
        /\ EHttp req rep ∈ new_events w w'
        /\ match extracted rep with
           | Some token =>
               result = token
               /\ _token_str (self w') = Some token
               /\ _token_time (self w') = clock env (EHttp req rep :: trace w0)
           | None => result = EmptyString /\ self w' = self w
           end)
  /\ (exists result w', get_pan_auth env w = (Ok result, w')).
Proof.
  cbv zeta.
  assert (Hcached : forall token,
     _token_str (self w) = Some token ->
     clock env (trace w) < _token_time (self w) + 600 ->
     exists w', get_pan_auth env w = (Ok token, w')
       /\ self w' = self w
       /\ Forall (fun e => is_call e = false) (new_events w w')).
  { intros token Htok Ht. exists (after_check env w).
    split; [by apply get_pan_auth_cached|].
    unfold after_check. rewrite Htok. split; [done|].
    rewrite (new_events_app _ _ [ETime (clock env (trace w))]) by done.
    by constructor. }
  assert (Hcheck : exists new, trace (after_check env w) = new ++ trace w).
  { unfold after_check. destruct (_token_str (self w)); [by eexists [_]|by exists []]. }
  destruct Hcheck as [new0 Hnew0].
  assert (Hfetch : _token_str (self w) = None
      \/ _token_time (self w) + 600 <= clock env (trace w) ->
      exists result w', get_pan_auth env w = (Ok result, w')
        /\ EHttp (index_request (http_endpoint (self w)))
             (http env (trace (after_check env w))
                (index_request (http_endpoint (self w)))) ∈ new_events w w'
        /\ match extracted (http env (trace (after_check env w))
                              (index_request (http_endpoint (self w)))) with
           | Some token =>
               result = token
               /\ _token_str (self w') = Some token
               /\ _token_time (self w')
                  = clock env (EHttp (index_request (http_endpoint (self w)))
                                 (http env (trace (after_check env w))
                                    (index_request (http_endpoint (self w))))
                               :: trace (after_check env w))
           | None => result = EmptyString /\ self w' = self w
           end).
  { intros Hold. pose proof (get_pan_auth_fetch w Hold) as Hrun. cbv zeta in Hrun.
    destruct (extracted _) as [token|]; eexists _, _; (split; [exact Hrun|]).
    - split; [|done]. erewrite (new_events_app w _ (_ :: _ :: new0)).
      + apply elem_of_cons. right. apply elem_of_cons. by left.
      + cbn [trace]. by rewrite Hnew0.
    - split; [|done]. erewrite (new_events_app w _ (_ :: new0)).
      + apply elem_of_cons. by left.
      + cbn [trace]. by rewrite Hnew0. }
  split; [exact Hcached|]. split; [exact Hfetch|].
  destruct (_token_str (self w)) as [token|] eqn:Htok.
  - destruct (Z.lt_ge_cases (clock env (trace w)) (_token_time (self w) + 600))
      as [Ht|Ht].
    + destruct (Hcached token eq_refl Ht) as (w' & ? & _). eauto.
    + destruct (Hfetch (or_intror Ht)) as (r & w' & ? & _). eauto.
  - destruct (Hfetch (or_introl eq_refl)) as (r & w' & ? & _). eauto.
Qed.

End Token.

(** ** Pausing, starting and deleting a task *)

Section Operations.
Context (env : Env).

(** What [== 0] accepts: the integer 0 and [False]. *)
Lemma py_eq_int_zero code :
  py_eq_int code 0 = true <-> code = PInt 0 \/ code = PBool false.
Proof.
  destruct code as [|[]|z| | |]; cbn; try (split; [done|intros [?|?]; done]).
  - split; [intros _; by right|done].
  - rewrite Z.eqb_eq. split; [intros ->; by left|]. by intros [[= ->]|?].
Qed.

Lemma patch_result_spec response w :
  exists b, patch_result response w = (b, w)
    /\ (b = Ok true <-> error_code_ok response)
    /\ (b = Ok true \/ b = Ok false \/ exists e, b = Raise e).
Proof.
  unfold patch_result, error_code_ok, response_json, bind, lift, raise, ret.
  destruct (json response) as [result|]; [|eexists; split; [done|]; split; [|eauto]].
  2:{ split; [done|]. by intros (d & ? & _). }
  destruct result as [| | | | |d];
    try (eexists; split; [done|]; split; [|eauto];
         split; [done|]; by intros (d & [= ?] & _)).
  cbn. destruct (dict_get d "error_code") as [code|] eqn:Hcode.
  - destruct (py_eq_int code 0) eqn:Heq; eexists; (split; [done|]); (split; [|eauto]).
    + split; [|done]. intros _. exists d. split; [done|]. right. by exists code.
    + split; [done|]. intros (d' & [= <-] & [?|(c & ? & ?)]); congruence.
  - cbn. eexists. split; [done|]. split; [|eauto].
    split; [|done]. intros _. exists d. split; [done|]. by left.
Qed.



End Operations.

(** ** Runs against the sample service *)

Lemma download_magnetic_already_exists_witness :
  exists w',
    download_magnetic (lib := strict_lib) Sample.running Sample.magnet EmptyString
      Sample.by_size Sample.start = (Ok (PInt 2), w')
    /\ Forall (fun e => creates_nothing Sample.endpoint e = true)
         (new_events Sample.start w').
Proof.
  eexists.
  eapply (download_magnetic_already_exists (lib := strict_lib) Sample.running
            Sample.magnet EmptyString Sample.by_size Sample.start
            _ _ _ _ _ "Sample.Movie");
    [vm_compute; reflexivity..|].
  apply list_elem_of_here.
Defined.

(** C6, as the specification states it, fails: with the sub-directory
    [a/b] the resources are listed and the tasks are read, four calls in
    all, before [False] is returned; and when the task is already
    known, the outcome is [AlreadyExists]. *)
Lemma sub_dir_separator_counterexample :
  contains "/" "a/b" = true
  /\ ~ rejected_without_call (lib := strict_lib) Sample.fresh Sample.magnet "a/b" None
        Sample.start
  /\ length (List.filter is_call
       (new_events Sample.start
          (download_magnetic (lib := strict_lib) Sample.fresh Sample.magnet "a/b" None
             Sample.start).2)) = 4%nat
  /\ (download_magnetic (lib := strict_lib) Sample.fresh Sample.magnet "a/b" None
        Sample.start).1 = Ok (PBool false)
  /\ (download_magnetic (lib := strict_lib) Sample.running Sample.magnet "a/b" None
        Sample.start).1 = Ok (PInt 2)
  /\ ~ rejected_without_call (lib := strict_lib) Sample.running Sample.magnet "a/b" None
        Sample.start.
Proof.
  split; [reflexivity|]. split; [|split; [|split; [|split]]].
  - intros [_ Hall]. cbv zeta in Hall.
    set (new := new_events _ _) in Hall. vm_compute in new. subst new.
    apply Forall_cons in Hall as [Hcall _]. discriminate Hcall.
  - vm_compute. reflexivity.
  - vm_compute. reflexivity.
  - vm_compute. reflexivity.
  - intros [(v & Hv & Ho) _]. cbv zeta in Hv.
    assert (Hrun : (download_magnetic (lib := strict_lib) Sample.running Sample.magnet
                      "a/b" None Sample.start).1 = Ok (PInt 2)) by (vm_compute; reflexivity).
    rewrite Hrun in Hv. injection Hv as <-. discriminate Ho.
Qed.

(** C3, as the specification states it, fails for a callback that
    reorders: the two files are discovered with the indices 1 and 2,
    the callback returns them in reverse, and the request carries
    [2,1], which is not the discovery order. *)
Lemma sub_file_index_counterexample :
  permitted Sample.reversed
  /\ exists req rep task_files kept,
       EHttp req rep
         ∈ new_events Sample.start
             (download_magnetic (lib := strict_lib) Sample.series Sample.magnet
                EmptyString Sample.reorder Sample.start).2
       /\ is_task_creation Sample.endpoint req = true
       /\ helper (lib := strict_lib) (Sample.found "Sample.Series" 2 [Sample.season]) []
          = Ok task_files
       /\ preprocess Sample.reorder task_files = Ok kept
       /\ map TaskFile.index task_files = [1; 2]
       /\ params_field req "sub_file_index" = Some (PStr "2,1")
       /\ ~ in_discovery_order kept task_files.
Proof.
  split.
  - intros task_files. eexists. split; [done|].
    apply Permutation_submseteq. symmetry. apply Permutation_rev.
  - eexists _, _, _, _. split; [|split; [|split; [|split; [|split; [|split]]]]].
    + set (new := new_events _ _). vm_compute in new. subst new.
      apply list_elem_of_here.
    + reflexivity.
    + vm_compute. reflexivity.
    + vm_compute. reflexivity.
    + reflexivity.
    + reflexivity.
    + unfold in_discovery_order. cbn.
      intros H. apply sublist_cons_r in H as [H|(l' & Hl & _)]; [|done].
      apply sublist_cons_r in H as [H|(l' & Hl & H)].
      * by apply sublist_nil_r in H.
      * injection Hl as <-. by apply sublist_nil_r in H.
Qed.

Lemma get_pan_auth_spec_witness :
  (exists w', get_pan_auth Sample.fresh Sample.warm = (Ok "old", w')
     /\ self w' = self Sample.warm
     /\ Forall (fun e => is_call e = false) (new_events Sample.warm w'))
  /\ (exists w', get_pan_auth Sample.fresh Sample.start = (Ok "tok123", w')
        /\ _token_str (self w') = Some "tok123").
Proof.
  split.
  - apply (get_pan_auth_spec Sample.fresh Sample.warm); [reflexivity|].
    vm_compute. reflexivity.
  - destruct (get_pan_auth_spec Sample.fresh Sample.start)
      as (_ & Hfetch & _).
    destruct (Hfetch (or_introl eq_refl)) as (result & w' & Hrun & _ & Hres).
    vm_compute in Hres. destruct Hres as (-> & Htok & _).
    exists w'. by split.
Defined.


(** ** The scenarios of the specification *)

(** One file of 1 GiB, no task of that name: the task is created with
    the file's size and index. *)
Example scenario_created :
  let run := download_magnetic (lib := strict_lib) Sample.fresh Sample.magnet
               EmptyString Sample.by_size Sample.start in
  run.1 = Ok (PInt 1)
  /\ (map (fun req => (body_field req "file_size", params_field req "sub_file_index"))
        (Sample.task_requests Sample.start run.2)
      = [(Some (PStr "1073741824"), Some (PStr "0"))]).
Proof. vm_compute. done. Qed.

(** The same with the task already among the unfinished ones: nothing
    is sent to the creation endpoint. *)
Example scenario_already_exists :
  let run := download_magnetic (lib := strict_lib) Sample.running Sample.magnet
               EmptyString Sample.by_size Sample.start in
  run.1 = Ok (PInt 2) /\ Sample.task_requests Sample.start run.2 = [].
Proof. vm_compute. done. Qed.

(** No resource for the link. *)
Example scenario_no_resources :
  (download_magnetic (lib := strict_lib) Sample.nothing Sample.magnet EmptyString None
     Sample.start).1 = Ok (PInt 0).
Proof. vm_compute. done. Qed.

(** A sub-directory without a separator: the folder is created first
    and the task goes under it. *)
Example scenario_sub_dir :
  let run := download_magnetic (lib := strict_lib) Sample.series Sample.magnet
               "Season 1" Sample.by_size Sample.start in
  run.1 = Ok (PInt 1)
  /\ (map (fun req => (params_field req "parent_folder_id",
                       params_field req "sub_file_index",
                       params_field req "total_file_count"))
        (Sample.task_requests Sample.start run.2)
      = [(Some (PStr "folder7"), Some (PStr "2"), Some (PStr "2"))]).
Proof. vm_compute. done. Qed.

(** * More properties of the code *)

(** ** The size filter, composed *)

Lemma bool_filter_twice {A} (f g : A -> bool) (l : list A) :
  List.filter g (List.filter f l) = List.filter (fun x => f x && g x) l.
Proof.
  induction l as [|x l IH]; [done|]. cbn.
  destruct (f x); cbn; [destruct (g x)|]; by rewrite ?IH.
Qed.

Lemma in_size_range_both a b c d i :
  in_size_range a b i && in_size_range c d i
  = in_size_range (Z.max a c) (Z.min b d) i.
Proof.
  apply eq_true_iff_eq. rewrite andb_true_iff, !in_size_range_spec. lia.
Qed.

(** X1. Filtering by size twice keeps the files that lie in both
    ranges: it is one filtering with the larger lower bound and the
    smaller upper bound.  So the order of two filterings does not
    matter and a second filtering with the same bounds changes nothing. *)
Theorem filter_file_by_size_twice (task_files : list TaskFile.t) (a b c d : Z) :
  filter_file_by_size (filter_file_by_size task_files a b) c d
  = filter_file_by_size task_files (Z.max a c) (Z.min b d)
  /\ filter_file_by_size (filter_file_by_size task_files a b) c d
     = filter_file_by_size (filter_file_by_size task_files c d) a b
  /\ filter_file_by_size (filter_file_by_size task_files a b) a b
     = filter_file_by_size task_files a b.
Proof.
  assert (H : forall a b c d,
    filter_file_by_size (filter_file_by_size task_files a b) c d
    = filter_file_by_size task_files (Z.max a c) (Z.min b d)).
  { intros a' b' c' d'. rewrite !filter_file_by_size_unfold, bool_filter_twice.
    apply List.filter_ext. intros i. apply in_size_range_both. }
  split; [apply H|]. split.
  - rewrite !H. by rewrite (Z.max_comm a c), (Z.min_comm b d).
  - rewrite H. by rewrite Z.max_id, Z.min_id.
Qed.

(** X2. Narrower bounds keep a subsequence of what wider bounds keep,
    and bounds that cross keep nothing. *)
Theorem filter_file_by_size_narrower (task_files : list TaskFile.t)
    (min_size max_size min_size' max_size' : Z) :
  min_size' <= min_size -> max_size <= max_size' ->
  filter_file_by_size task_files min_size max_size
    `sublist_of` filter_file_by_size task_files min_size' max_size'
  /\ (max_size < min_size -> filter_file_by_size task_files min_size max_size = []).
Proof.
  intros Hmin Hmax. split.
  - replace (filter_file_by_size task_files min_size max_size)
      with (filter_file_by_size
              (filter_file_by_size task_files min_size' max_size') min_size max_size).
    + rewrite (filter_file_by_size_unfold (filter_file_by_size _ _ _)).
      rewrite (bool_filter_prop _ (fun i => in_size_range min_size max_size i = true))
        by done.
      apply sublist_filter.
    + rewrite !filter_file_by_size_unfold, bool_filter_twice.
      apply List.filter_ext. intros i. rewrite in_size_range_both.
      by rewrite Z.max_r, Z.min_r by lia.
  - intros Hcross. rewrite filter_file_by_size_unfold.
    induction task_files as [|i l IH]; [done|]. cbn.
    destruct (in_size_range min_size max_size i) eqn:Hi; [|done].
    apply in_size_range_spec in Hi. lia.
Qed.

Lemma filter_file_by_size_narrower_witness :
  filter_file_by_size (flatten Sample.season) 500 1000000000
    `sublist_of` filter_file_by_size (flatten Sample.season) 100 1000000000.
Proof.
  apply (filter_file_by_size_narrower (flatten Sample.season) 500 1000000000
           100 1000000000); lia.
Defined.

(** ** More on [helper] *)

Lemma for_each_onto {A B} (f : A -> list B -> Res (list B)) xs acc :
  (forall x s, x ∈ xs -> f x s = onto s (f x [])) ->
  for_each f xs acc = onto acc (for_each f xs []).
Proof.
  revert acc. induction xs as [|x xs IH]; intros acc H; cbn.
  - by rewrite app_nil_r.
  - rewrite (H x acc) by left. destruct (f x []) as [new|e]; cbn; [|done].
    rewrite (IH (acc ++ new)), (IH new) by (intros; apply H; by right).
    destruct (for_each f xs []) as [rest|e]; cbn; [|done].
    by rewrite app_assoc.
Qed.

Lemma helper_fuel_onto {lib : PyLib} fuel resources acc :
  helper_fuel fuel resources acc = onto acc (helper_fuel fuel resources []).
Proof.
  revert resources acc. induction fuel as [|fuel IH]; intros resources acc; [done|].
  cbn [helper_fuel]. destruct (py_iter resources) as [items|e]; cbn; [|done].
  apply for_each_onto. intros x s _. unfold helper_step.
  destruct (py_get x "is_dir") as [is_dir|e]; cbn; [|done].
  destruct (truthy is_dir).
  - destruct (py_get x "dir") as [dir|e]; cbn; [|done].
    destruct (py_get dir "resources") as [sub|e]; cbn; [|done].
    apply IH.
  - destruct (py_get x "file_index") as [fi|e]; cbn; [|done].
    destruct (if negb (truthy fi) then Ok (PInt 0) else Ok fi) as [idx|e]; cbn; [|done].
    destruct (py_get x "file_size") as [sz|e]; cbn; [|done].
    destruct (py_get x "name") as [nm|e]; cbn; [|done].
    by destruct (new_TaskFile idx sz nm).
Qed.

(** X3. [helper] only appends: run on an accumulator, it gives the
    accumulator followed by what it gives on the empty list, and it
    raises exactly when it raises on the empty list, with the same
    exception. *)
Theorem helper_appends {lib : PyLib} (resources : pyval) (task_files : list TaskFile.t) :
  helper resources task_files = onto task_files (helper resources []).
Proof. apply helper_fuel_onto. Qed.

Lemma for_each_app {A S} (f : A -> S -> Res S) xs ys s :
  for_each f (xs ++ ys) s = let? s' := for_each f xs s in for_each f ys s'.
Proof.
  revert s. induction xs as [|x xs IH]; intros s; [done|].
  cbn. destruct (f x s) as [s'|e]; [apply IH|done].
Qed.

(** X4. A directory entry that does not carry its listing stops the
    flattening: without [dir] the run raises [AttributeError], with a
    [dir] that has no [resources] it raises [TypeError], whatever the
    entries before it gave and whatever follows. *)
Theorem helper_directory_without_listing {lib : PyLib} (pre post : list pyval)
    (d : list (string * pyval)) (is_dir : pyval) (acc acc' : list TaskFile.t) :
  helper (PList pre) acc = Ok acc' ->
  dict_get d "is_dir" = Some is_dir -> truthy is_dir = true ->
  (dict_get d "dir" = None ->
     helper (PList (pre ++ PDict d :: post)) acc = Raise AttributeError)
  /\ (forall dir, dict_get d "dir" = Some (PDict dir) ->
        dict_get dir "resources" = None ->
        helper (PList (pre ++ PDict d :: post)) acc = Raise TypeError).
Proof.
  intros Hpre Hd Ht. rewrite helper_unfold in Hpre. cbn [py_iter res_bind] in Hpre.
  split.
  - intros Hdir. rewrite helper_unfold. cbn [py_iter res_bind].
    rewrite for_each_app, Hpre. cbn. unfold helper_step, py_get, py_get_default.
    cbn [res_bind]. by rewrite Hd, Ht, Hdir.
  - intros dir Hdir Hres. rewrite helper_unfold. cbn [py_iter res_bind].
    rewrite for_each_app, Hpre. cbn. unfold helper_step, py_get, py_get_default.
    cbn [res_bind]. rewrite Hd, Ht, Hdir. cbn [res_bind]. by rewrite Hres.
Qed.

Lemma helper_directory_without_listing_witness :
  helper (lib := strict_lib)
    (PList ([resource_json Sample.movie]
            ++ PDict [("name", PStr "empty"); ("is_dir", PBool true)] :: []))
    [] = Raise AttributeError.
Proof.
  eapply (helper_directory_without_listing (lib := strict_lib)
            [resource_json Sample.movie] []
            [("name", PStr "empty"); ("is_dir", PBool true)] (PBool true) []);
    [vm_compute; reflexivity|reflexivity..].
Defined.

(** ** More on the pattern of the token *)

Lemma until_newline_one_line s : has_char line_feed (Uiauth.until_newline s) = false.
Proof.
  induction s as [|c s IH]; [done|]. cbn.
  destruct (Ascii.eqb c (ascii_of_nat 10)) eqn:Hc; [done|]. cbn.
  unfold line_feed. by rewrite Hc.
Qed.

Lemma keep_has_char c n s : has_char c s = false -> has_char c (Uiauth.keep n s) = false.
Proof.
  revert s. induction n as [|n IH]; intros [|c' s]; cbn; try done.
  intros [-> Hs]%orb_false_iff. by rewrite IH.
Qed.

Lemma match_at_one_line s group len :
  Uiauth.match_at s = Some (group, len) -> has_char line_feed group = false.
Proof.
  unfold Uiauth.match_at. destruct (String.prefix _ _); [|done].
  destruct (Uiauth.last_closing _) as [k|]; [|done]. intros [= <- _].
  apply keep_has_char, until_newline_one_line.
Qed.

Lemma scan_one_line s resume group :
  group ∈ Uiauth.scan s resume -> has_char line_feed group = false.
Proof.
  revert resume. induction s as [|c s IH]; intros resume; cbn.
  - by intros ?%elem_of_nil.
  - destruct resume as [|n]; [|apply IH].
    destruct (Uiauth.match_at (String c s)) as [[g len]|] eqn:Hm; [|apply IH].
    intros [->|Hin]%elem_of_cons; [by eapply match_at_one_line|by eapply IH].
Qed.

(** X5. A token that the pattern finds never runs over a line end. *)
Theorem findall_group_on_one_line (text group : string) :
  group ∈ Uiauth.findall text -> has_char line_feed group = false.
Proof. apply scan_one_line. Qed.

Lemma findall_group_on_one_line_witness : has_char line_feed "tok123" = false.
Proof.
  apply (findall_group_on_one_line Sample.page "tok123"). vm_compute.
  apply list_elem_of_here.
Defined.

Lemma prefix_append (a b : string) : String.prefix a (a +:+ b) = true.
Proof.
  induction a as [|c a IH]; simpl; [by destruct b|].
  destruct (ascii_dec c c); [exact IH|congruence].
Qed.

Lemma skip_append (a b : string) : Uiauth.skip (String.length a) (a +:+ b) = b.
Proof. induction a as [|c a IH]; simpl; [by destruct b|done]. Qed.

Lemma keep_append (a b : string) : Uiauth.keep (String.length a) (a +:+ b) = a.
Proof. induction a as [|c a IH]; simpl; [by destruct b|by f_equal]. Qed.

Lemma append_cons c (a b : string) : String c a +:+ b = String c (a +:+ b).
Proof. reflexivity. Qed.

Lemma until_newline_append (a b : string) :
  has_char line_feed a = false ->
  Uiauth.until_newline (a +:+ b) = a +:+ Uiauth.until_newline b.
Proof.
  induction a as [|c a IH]; [done|]. cbn [has_char].
  intros [Hc Ha]%orb_false_iff. rewrite !append_cons. cbn [Uiauth.until_newline].
  unfold line_feed in Hc. rewrite Hc. by rewrite IH.
Qed.

Lemma last_closing_none s : contains Uiauth.closing s = false -> Uiauth.last_closing s = None.
Proof.
  induction s as [|c s IH]; [done|].
  cbn [contains]. intros [Hp Hs]%orb_false_iff.
  cbn [Uiauth.last_closing]. by rewrite (IH Hs), Hp.
Qed.

Lemma last_closing_here r :
  Uiauth.last_closing r = None ->
  Uiauth.last_closing (Uiauth.closing +:+ r) = Some O.
Proof.
  intros Hr. unfold Uiauth.closing, Uiauth.dquote. rewrite !append_cons.
  change (EmptyString +:+ " }") with " }". rewrite !append_cons.
  change (EmptyString +:+ r) with r.
  cbn [Uiauth.last_closing]. rewrite Hr. unfold Uiauth.closing, Uiauth.dquote.
  simpl. by destruct r.
Qed.

Lemma last_closing_after (token r : string) :
  Uiauth.last_closing r = Some O ->
  Uiauth.last_closing (token +:+ r) = Some (String.length token).
Proof.
  intros Hr. induction token as [|c token IH]; [done|].
  rewrite append_cons. cbn [Uiauth.last_closing String.length]. by rewrite IH.
Qed.

Lemma match_at_token (token rest : string) :
  has_char line_feed token = false ->
  contains Uiauth.closing (Uiauth.until_newline rest) = false ->
  exists len,
    Uiauth.match_at (Uiauth.opening +:+ token +:+ Uiauth.closing +:+ rest)
    = Some (token, len).
Proof.
  intros Htok Hrest. unfold Uiauth.match_at.
  rewrite prefix_append, skip_append.
  rewrite until_newline_append by done.
  rewrite (until_newline_append Uiauth.closing) by done.
  rewrite (last_closing_after token)
    by (apply last_closing_here, last_closing_none, Hrest).
  rewrite keep_append. by eexists.
Qed.

Lemma scan_before (pre s : string) :
  (forall k, (k < String.length pre)%nat ->
             String.prefix Uiauth.opening (Uiauth.skip k (pre +:+ s)) = false) ->
  Uiauth.scan (pre +:+ s) O = Uiauth.scan s O.
Proof.
  induction pre as [|c pre IH]; intros H; [done|].
  rewrite append_cons. cbn [Uiauth.scan]. unfold Uiauth.match_at.
  pose proof (H O ltac:(cbn; lia)) as H0. cbn [Uiauth.skip] in H0.
  rewrite append_cons in H0. rewrite H0.
  apply IH. intros k Hk. apply (H (S k)). cbn. lia.
Qed.

Lemma scan_match s group len :
  Uiauth.match_at s = Some (group, len) -> head (Uiauth.scan s O) = Some group.
Proof.
  destruct s as [|c s]; [done|]. intros Hm. cbn [Uiauth.scan]. by rewrite Hm.
Qed.

Lemma findall_token (pre token rest : string) :
  (forall k, (k < String.length pre)%nat ->
     String.prefix Uiauth.opening
       (Uiauth.skip k (pre +:+ Uiauth.opening +:+ token +:+ Uiauth.closing +:+ rest))
     = false) ->
  has_char line_feed token = false ->
  contains Uiauth.closing (Uiauth.until_newline rest) = false ->
  head (Uiauth.findall (pre +:+ Uiauth.opening +:+ token +:+ Uiauth.closing +:+ rest))
  = Some token.
Proof.
  intros Hpre Htok Hrest. unfold Uiauth.findall. rewrite scan_before by done.
  destruct (match_at_token token rest Htok Hrest) as [len Hm].
  by eapply scan_match.
Qed.

(** X6. What the page writes, the client reads.  When no token is
    cached and the entry page, answered with status 200, carries the
    text of the pattern around [token] (not before that place, the
    token on one line, no second closing text after it on the line),
    [get_pan_auth] returns that token and caches it. *)
Theorem get_pan_auth_reads_token (env : Env) (w : World) (resp : Response)
    (pre token rest : string) :
  _token_str (self w) = None ->
  http env (trace w) (index_request (http_endpoint (self w))) = Answer resp ->
  status_code resp = 200 ->
  text resp = pre +:+ Uiauth.opening +:+ token +:+ Uiauth.closing +:+ rest ->
  (forall k, (k < String.length pre)%nat ->
     String.prefix Uiauth.opening (Uiauth.skip k (text resp)) = false) ->
  has_char line_feed token = false ->
  contains Uiauth.closing (Uiauth.until_newline rest) = false ->
  exists w', get_pan_auth env w = (Ok token, w')
    /\ _token_str (self w') = Some token.
Proof.
  intros Hnone Hrep Hstatus Htext Hpre Htok Hrest.
  pose proof (get_pan_auth_fetch env w (or_introl Hnone)) as Hrun. cbv zeta in Hrun.
  unfold after_check in Hrun. rewrite Hnone, Hrep in Hrun.
  unfold extracted in Hrun. rewrite Hstatus in Hrun. cbn [Z.eqb Pos.eqb] in Hrun.
  rewrite Htext in Hpre. rewrite Htext, findall_token in Hrun by done.
  eexists. by split; [exact Hrun|].
Qed.

Lemma get_pan_auth_reads_token_witness :
  exists w', get_pan_auth Sample.fresh Sample.start = (Ok "tok123", w')
    /\ _token_str (self w') = Some "tok123".
Proof.
  eapply (get_pan_auth_reads_token Sample.fresh Sample.start _ "<script>" "tok123"
            "</script>"); try reflexivity.
  intros k Hk. cbn in Hk.
  do 8 (destruct k as [|k]; [reflexivity|]). lia.
Defined.

(** ** Torrent files *)

Lemma first_urls_collected (tiers : list (list string)) (acc : list string) :
  Forall (fun tier => tier <> []) tiers ->
  for_each (fun tr acc => match tr with
                          | first :: _ => Ok (acc ++ [quote first])
                          | [] => Raise IndexError
                          end) tiers acc
  = Ok (acc ++ map (fun tier => quote (hd EmptyString tier)) tiers).
Proof.
  intros Hall. revert acc. induction Hall as [|tier tiers Htier _ IH]; intros acc; cbn.
  - by rewrite app_nil_r.
  - destruct tier as [|first rest]; [done|]. cbn. by rewrite IH, <- app_assoc.
Qed.

Lemma empty_tier_raises (tiers : list (list string)) (acc : list string) :
  [] ∈ tiers ->
  for_each (fun tr acc => match tr with
                          | first :: _ => Ok (acc ++ [quote first])
                          | [] => Raise IndexError
                          end) tiers acc
  = Raise IndexError.
Proof.
  intros Hin. revert acc. induction tiers as [|tier tiers IH]; intros acc.
  - by apply elem_of_nil in Hin.
  - cbn. destruct tier as [|first rest]; [done|]. cbn. apply IH.
    by apply elem_of_cons in Hin as [?|?].
Qed.

(** X7. For a torrent whose announce tiers all hold a URL,
    [_torrent2magnet] gives the magnet link of the torrent, then "&",
    then the percent-quoted first URL of every tier, in the order of
    the tiers and joined by "&"; no other URL of a tier is used. *)
Theorem _torrent2magnet_link (from_file : string -> Res Torrent) (file_path : string)
    (torrent : Torrent) :
  from_file file_path = Ok torrent ->
  Forall (fun tier => tier <> []) (announce_urls torrent) ->
  _torrent2magnet from_file file_path
  = Ok (magnet_link torrent +:+ "&" +:+ join "&" (map quote (first_urls torrent))).
Proof.
  intros Hfile Hall. unfold _torrent2magnet, first_urls. rewrite Hfile. cbn.
  rewrite first_urls_collected by done. cbn. by rewrite map_map.
Qed.

Lemma _torrent2magnet_link_witness :
  _torrent2magnet Sample.from_file "movie.torrent"
  = Ok (Sample.magnet +:+ "&http%3A//t1/announce&udp%3A//t2%3A80").
Proof.
  rewrite (_torrent2magnet_link Sample.from_file "movie.torrent" Sample.torrent).
  - reflexivity.
  - reflexivity.
  - repeat constructor; done.
Defined.

(** X8. A torrent with an announce tier that holds no URL makes
    [_torrent2magnet] raise [IndexError], wherever the tier stands. *)
Theorem _torrent2magnet_empty_tier (from_file : string -> Res Torrent)
    (file_path : string) (torrent : Torrent) :
  from_file file_path = Ok torrent ->
  [] ∈ announce_urls torrent ->
  _torrent2magnet from_file file_path = Raise IndexError.
Proof.
  intros Hfile Hin. unfold _torrent2magnet. rewrite Hfile. cbn.
  by rewrite empty_tier_raises.
Qed.

Lemma _torrent2magnet_empty_tier_witness :
  _torrent2magnet Sample.from_file "broken.torrent" = Raise IndexError.
Proof.
  apply (_torrent2magnet_empty_tier Sample.from_file "broken.torrent" Sample.broken).
  - reflexivity.
  - apply list_elem_of_here.
Defined.

Section Torrents.
Context {lib : PyLib} (env : Env).

(** X9. [download_torrent] raises exactly when the torrent cannot be
    turned into a link, and then with the exception of
    [_torrent2magnet], before any call and with the client as it was;
    otherwise it is [download_magnetic] on the link, result and world,
    and returns. *)
Theorem download_torrent_raises (from_file : string -> Res Torrent)
    (torrent_file_path sub_dir : string) (preprocess_files : callback) (w : World) :
  (forall e,
     (download_torrent env from_file torrent_file_path sub_dir preprocess_files w).1
       = Raise e
     <-> _torrent2magnet from_file torrent_file_path = Raise e
         /\ (download_torrent env from_file torrent_file_path sub_dir preprocess_files w).2
            = w)
  /\ (forall magnet,
        _torrent2magnet from_file torrent_file_path = Ok magnet ->
        download_torrent env from_file torrent_file_path sub_dir preprocess_files w
        = download_magnetic env magnet sub_dir preprocess_files w
        /\ exists v,
             (download_torrent env from_file torrent_file_path sub_dir preprocess_files
                w).1 = Ok v).
Proof.
  unfold download_torrent. rewrite bind_run. unfold lift.
  destruct (_torrent2magnet from_file torrent_file_path) as [magnet|e'].
  - destruct (download_magnetic_returns env magnet sub_dir preprocess_files w)
      as [v Hv].
    split.
    + intros e. split; [congruence|]. by intros [? _].
    + intros ? [= <-]. split; [done|]. by exists v.
  - cbn. split; [|done]. intros e. split; [by intros [= ->]|]. by intros [[= ->] _].
Qed.

End Torrents.

(** ** Steps of a run *)

Lemma bind_ok {A B} (m : M A) (k : A -> M B) w b w' :
  bind m k w = (Ok b, w') -> exists a w1, m w = (Ok a, w1) /\ k a w1 = (Ok b, w').
Proof.
  rewrite bind_run. destruct (m w) as [[a|e] w1]; [|done]. intros H. by exists a, w1.
Qed.

Lemma same_settings_refl c : same_settings c c.
Proof. done. Qed.

Lemma same_settings_trans c1 c2 c3 :
  same_settings c1 c2 -> same_settings c2 c3 -> same_settings c1 c3.
Proof. intros (? & ? & ?) (? & ? & ?). repeat split; congruence. Qed.

(** [get_pan_auth] returns, and changes nothing but the token and its
    time. *)
Lemma get_pan_auth_run env w :
  exists token w',
    get_pan_auth env w = (Ok token, w') /\ same_settings (self w) (self w').
Proof.
  assert (Hfetch : _token_str (self w) = None
                   \/ _token_time (self w) + 600 <= clock env (trace w) ->
                   exists token w', get_pan_auth env w = (Ok token, w')
                                    /\ same_settings (self w) (self w')).
  { intros Hold. pose proof (get_pan_auth_fetch env w Hold) as Hrun. cbv zeta in Hrun.
    destruct (extracted _); eexists _, _; (split; [exact Hrun|done]). }
  destruct (_token_str (self w)) as [token|] eqn:Htok; [|by apply Hfetch; left].
  destruct (Z.lt_ge_cases (clock env (trace w)) (_token_time (self w) + 600)) as [Ht|Ht];
    [|by apply Hfetch; right].
  exists token, (after_check env w). split; [by apply get_pan_auth_cached|].
  unfold after_check. by rewrite Htok.
Qed.

Lemma headers_run env w :
  exists hs w', headers env w = (Ok hs, w') /\ same_settings (self w) (self w').
Proof.
  destruct (get_pan_auth_run env w) as (token & w' & Hrun & Hsame).
  unfold headers. rewrite bind_run, Hrun. by eexists _, _.
Qed.

(** ** The device *)

Section Device.
Context (env : Env).

(** A run of [get_device_id]: the endpoint and the download folder are
    left alone, and the result is as follows. *)
Lemma get_device_id_run (w : World) :
  http_endpoint (self (get_device_id env w).2) = http_endpoint (self w)
  /\ _parent_folder_id (self (get_device_id env w).2) = _parent_folder_id (self w)
  /\ match (get_device_id env w).1 with
     | Ok id =>
         _device_id (self (get_device_id env w).2) = id
         /\ id <> PNone
         /\ (_device_id (self w) = PNone -> truthy id = true)
     | Raise e =>
         _device_id (self w) = PNone
         /\ (e = ValueError \/ is_request_exception e = true)
     end.
Proof.
  unfold get_device_id. rewrite bind_run. cbn [get_self].
  destruct (_device_id (self w)) eqn:Hid; try (cbn; rewrite Hid; by repeat split).
  unfold try_except. rewrite bind_run.
  destruct (get_pan_auth_run env w) as (token & w1 & -> & Hep & _ & Hfolder).
  destruct (String.eqb token EmptyString); [cbn; auto|].
  rewrite bind_run. unfold session_request.
  destruct (http env (trace w1) _) as [|req]; [cbn; auto|].
  rewrite bind_run.
  assert (Hstatus : forall w0, exists r,
            (if negb (Z.eqb (status_code req) 200) then raise_for_status req else ret tt) w0
            = (r, w0) /\ (r = Ok tt \/ r = Raise HTTPError)).
  { intros w0. unfold raise_for_status. repeat case_match; eexists; split; eauto. }
  destruct (Hstatus {| self := self w1; trace := EHttp
     {| req_method := "POST"; req_url := http_endpoint (self w) +:+ path_info_watch;
        req_params := []; req_headers := [("pan-auth", token)]; req_body := NoBody;
        req_timeout := Some 30 |} (Answer req) :: trace w1 |})
    as (r & -> & [->| ->]); [|cbn; auto].
  rewrite bind_run. unfold response_json.
  destruct (json req) as [data|]; [|cbn; auto].
  cbn [ret]. rewrite bind_run. unfold lift.
  destruct (py_get data "target") as [target|e] eqn:Htarget.
  2:{ destruct data; cbn in Htarget; try done; injection Htarget as <-; cbn; auto. }
  rewrite bind_run. cbn [set_device_id bind get_self set_self].
  destruct (truthy target) eqn:Htruthy; cbn; [|auto].
  repeat (split; [done|]). split; [|done]. by intros ->.
Qed.

(** X10. What a call of [get_device_id] can give.  A value it returns
    is the device id the client holds afterwards, and is not [None];
    when it was not cached it is truthy.  An exception is raised only
    when no id was cached, and is [ValueError] or an exception of the
    request (the call, the status or the decoding of the answer). *)
Theorem get_device_id_outcomes (w : World) :
  match (get_device_id env w).1 with
  | Ok id =>
      _device_id (self (get_device_id env w).2) = id
      /\ id <> PNone
      /\ (_device_id (self w) = PNone -> truthy id = true)
  | Raise e =>
      _device_id (self w) = PNone
      /\ (e = ValueError \/ is_request_exception e = true)
  end.
Proof. apply get_device_id_run. Qed.

(** X11. [get_device_id] stores the [target] of the answer before it
    looks at it (line 149, then line 151).  When the answer's target is
    falsy but not [None], say an empty string, the call raises
    [ValueError] and leaves that target in the client; the next call
    then finds a cached id and returns the falsy target, with no call
    and no exception. *)
Theorem get_device_id_keeps_refused_target (w w1 : World) (token : string)
    (resp : Response) (data target : pyval) :
  _device_id (self w) = PNone ->
  get_pan_auth env w = (Ok token, w1) ->
  token <> EmptyString ->
  http env (trace w1) (device_request (http_endpoint (self w)) token) = Answer resp ->
  ~ (400 <= status_code resp < 600) ->
  json resp = Some data ->
  py_get data "target" = Ok target ->
  truthy target = false ->
  target <> PNone ->
  exists w2,
    get_device_id env w = (Raise ValueError, w2)
    /\ _device_id (self w2) = target
    /\ get_device_id env w2 = (Ok target, w2).
Proof.
  intros Hid Htoken Hne Hrep Hstatus Hjson Htarget Hfalsy Hnone.
  unfold device_request in Hrep.
  assert (Hfirst : exists w2,
            get_device_id env w = (Raise ValueError, w2) /\ _device_id (self w2) = target).
  { unfold get_device_id. rewrite bind_run. cbn [get_self]. rewrite Hid.
    unfold try_except. rewrite bind_run, Htoken.
    apply String.eqb_neq in Hne. rewrite Hne.
    rewrite bind_run. unfold session_request. rewrite Hrep.
    rewrite bind_run. unfold raise_for_status.
    replace (Z.leb 400 (status_code resp) && Z.ltb (status_code resp) 600) with false
      by (symmetry; apply andb_false_iff; lia).
    replace ((if negb (Z.eqb (status_code resp) 200) then ret tt else ret tt) : M unit)
      with (ret tt : M unit) by (by destruct (negb _)).
    cbn [ret]. rewrite bind_run. unfold response_json. rewrite Hjson. cbn [ret].
    rewrite bind_run. unfold lift. rewrite Htarget.
    rewrite bind_run. cbn [set_device_id bind get_self set_self].
    rewrite Hfalsy. cbn. by eexists. }
  destruct Hfirst as (w2 & Hrun & Hstored). exists w2.
  split; [done|]. split; [done|].
  unfold get_device_id. rewrite bind_run. cbn [get_self]. rewrite Hstored.
  by destruct target.
Qed.

(** X12. The calls of [get_device_id].  Whatever the service answers, a
    run reads the clock, sends GET requests (for the token) and, as its
    only other call, POSTs the request for the device with a token that
    is not empty in the [pan-auth] header: without a token the device
    is never asked. *)
Theorem get_device_id_calls (w : World) :
  Forall (device_events (http_endpoint (self w))) (new_events w (get_device_id env w).2).
Proof.
  set (endpoint := http_endpoint (self w)).
  assert (Hreads : allows_reads (device_events endpoint)).
  { split; [done|]. intros req rep Hget. by left. }
  assert (H : follows endpoint (get_device_id env) (device_events endpoint)
                (fun _ => True)).
  { unfold get_device_id.
    eapply follows_bind; [apply follows_get_self|]. intros me Hme.
    destruct (_device_id me); try by apply follows_ret.
    apply follows_try_except.
    2:{ intros e. case_match; apply follows_raise. }
    eapply follows_bind; [by apply follows_get_pan_auth|]. intros token _.
    destruct (String.eqb_spec token EmptyString) as [Htoken|Htoken];
      [apply follows_raise|].
    eapply follows_bind.
    { apply follows_session_request. intros rep. right. exists token.
      split; [done|]. unfold device_request. by rewrite Hme. }
    intros req _.
    eapply follows_bind with (Q1 := fun _ => True).
    { case_match; [apply follows_raise_for_status|by apply follows_ret]. }
    intros _ _.
    eapply follows_bind; [apply follows_response_json|]. intros data _.
    eapply follows_bind; [apply follows_lift|]. intros target _.
    eapply follows_bind; [apply follows_set_device_id|]. intros _ _.
    case_match; [apply follows_raise|by apply follows_ret]. }
  destruct (H w eq_refl) as (_ & (new & Hnew & Hall) & _).
  by rewrite (new_events_app _ _ _ Hnew).
Qed.

End Device.

Lemma get_device_id_keeps_refused_target_witness :
  exists w2,
    get_device_id Sample.unnamed Sample.blank = (Raise ValueError, w2)
    /\ _device_id (self w2) = PStr EmptyString
    /\ get_device_id Sample.unnamed w2 = (Ok (PStr EmptyString), w2).
Proof.
  eapply (get_device_id_keeps_refused_target Sample.unnamed Sample.blank _ "tok123");
    try (vm_compute; reflexivity); try done.
  cbn. lia.
Defined.

(** ** What a run leaves of the client *)

Lemma keeps_ret {A} (a : A) : keeps_settings (ret a).
Proof. done. Qed.

Lemma keeps_raise {A} e : keeps_settings (raise e : M A).
Proof. done. Qed.

Lemma keeps_lift {A} (r : Res A) : keeps_settings (lift r).
Proof. done. Qed.

Lemma keeps_get_self : keeps_settings get_self.
Proof. done. Qed.

Lemma keeps_bind {A B} (m : M A) (k : A -> M B) :
  keeps_settings m -> (forall a, keeps_settings (k a)) -> keeps_settings (bind m k).
Proof.
  intros Hm Hk w. rewrite bind_run. specialize (Hm w).
  destruct (m w) as [[a|e] w1]; [|done].
  eapply same_settings_trans; [exact Hm|apply Hk].
Qed.

Lemma keeps_try_except {A} (body : M A) (handler : exn -> M A) :
  keeps_settings body -> (forall e, keeps_settings (handler e)) ->
  keeps_settings (try_except body handler).
Proof.
  intros Hb Hh w. unfold try_except. specialize (Hb w).
  destruct (body w) as [[a|e] w1]; [done|].
  eapply same_settings_trans; [exact Hb|apply Hh].
Qed.

Lemma keeps_session_request env req : keeps_settings (session_request env req).
Proof. intros w. unfold session_request. by destruct (http env (trace w) req). Qed.

Lemma keeps_response_json r : keeps_settings (response_json r).
Proof. unfold response_json. by destruct (json r). Qed.

Lemma keeps_raise_for_status r : keeps_settings (raise_for_status r).
Proof. unfold raise_for_status. by case_match. Qed.

Lemma keeps_get_pan_auth env : keeps_settings (get_pan_auth env).
Proof. intros w. by destruct (get_pan_auth_run env w) as (token & w' & -> & H). Qed.

Lemma keeps_headers env : keeps_settings (headers env).
Proof. intros w. by destruct (headers_run env w) as (hs & w' & -> & H). Qed.

Create HintDb keeps.

#[local] Hint Resolve keeps_ret keeps_raise keeps_lift keeps_get_self
  keeps_session_request keeps_response_json keeps_raise_for_status
  keeps_get_pan_auth keeps_headers : keeps.

Ltac keeps_step :=
  first [ solve [eauto with keeps]
        | apply keeps_bind; [|intros ?]
        | apply keeps_try_except; [|intros ?]
        | case_match ].

Section Kept.
Context {lib : PyLib} (env : Env).

Lemma keeps_fetch_tasks filters build : keeps_settings (fetch_tasks env filters build).
Proof. unfold fetch_tasks. repeat keeps_step. Qed.

Lemma keeps_list_resources magnetic_link : keeps_settings (list_resources env magnetic_link).
Proof. unfold list_resources. repeat keeps_step. Qed.

Lemma keeps_submit_task task_name magnetic_link task_file_count task_files
    sub_file_index target_parent_id :
  keeps_settings (submit_task env task_name magnetic_link task_file_count task_files
                    sub_file_index target_parent_id).
Proof. unfold submit_task. repeat keeps_step. Qed.

Lemma keeps_download_resources data magnetic_link sub_dir preprocess_files :
  keeps_settings (download_resources env data magnetic_link sub_dir preprocess_files).
Proof.
  pose proof keeps_submit_task. pose proof keeps_fetch_tasks.
  unfold download_resources, completed_tasks, uncompleted_tasks. repeat keeps_step.
Qed.

(** X13. [download_magnetic] and the two listings change nothing of
    the client but the cached token and its time: the endpoint, the
    device id and the id of the download folder are after the run what
    they were before it, whatever the service answers. *)
Theorem download_magnetic_keeps_settings (magnetic_link sub_dir : string)
    (preprocess_files : callback) :
  keeps_settings (download_magnetic env magnetic_link sub_dir preprocess_files)
  /\ keeps_settings (completed_tasks env)
  /\ keeps_settings (uncompleted_tasks env).
Proof.
  split; [|split; apply keeps_fetch_tasks].
  pose proof keeps_download_resources. pose proof keeps_list_resources.
  unfold download_magnetic. repeat keeps_step.
Qed.

End Kept.

(** ** More on the listings *)

Section Listed.
Context {lib : PyLib} (env : Env).

Lemma new_TaskInfo_origin name file_name file_size updated_time progress real_path
    speed created_time origin info :
  new_TaskInfo name file_name file_size updated_time progress real_path speed
    created_time origin = Ok info ->
  TaskInfo.origin info = origin.
Proof. unfold new_TaskInfo. repeat case_match; try done. by intros [= <-]. Qed.

Lemma completed_task_info_origin task info :
  completed_task_info task = Ok info -> TaskInfo.origin info = task.
Proof.
  unfold completed_task_info. intros H.
  repeat (apply res_bind_ok in H as (? & ? & H)).
  by apply new_TaskInfo_origin in H.
Qed.

Lemma uncompleted_task_info_origin task info :
  uncompleted_task_info task = Ok info -> TaskInfo.origin info = task.
Proof.
  unfold uncompleted_task_info. intros H.
  repeat (apply res_bind_ok in H as (? & ? & H)).
  by apply new_TaskInfo_origin in H.
Qed.

Lemma for_each_origins (build : pyval -> Res TaskInfo.t) items acc out :
  (forall task info, build task = Ok info -> TaskInfo.origin info = task) ->
  for_each (fun task res => let? info := build task in Ok (res ++ [info])) items acc
    = Ok out ->
  map TaskInfo.origin out = map TaskInfo.origin acc ++ items.
Proof.
  intros Hb. revert acc. induction items as [|task items IH]; intros acc; cbn.
  - intros [= <-]. by rewrite app_nil_r.
  - intros (acc' & (info & Hinfo & [= <-])%res_bind_ok & Hrest)%res_bind_ok.
    rewrite (IH _ Hrest), map_app, <- app_assoc. cbn. by rewrite (Hb _ _ Hinfo).
Qed.

Lemma fetch_tasks_origins filters build w infos w' :
  (forall task info, build task = Ok info -> TaskInfo.origin info = task) ->
  fetch_tasks env filters build w = (Ok infos, w') ->
  exists req resp data tasks,
    head (trace w') = Some (EHttp req (Answer resp))
    /\ req_method req = "GET"
    /\ json resp = Some data
    /\ py_get data "tasks" = Ok tasks
    /\ if truthy tasks then py_iter tasks = Ok (map TaskInfo.origin infos)
       else infos = [].
Proof.
  intros Hb H. unfold fetch_tasks in H.
  apply bind_ok in H as (me & w0 & [= <- <-] & H).
  apply bind_ok in H as (space & w0 & [= _ <-] & H).
  apply bind_ok in H as (hs & w1 & _ & H).
  apply bind_ok in H as (resp & w2 & Hcall & H).
  unfold session_request in Hcall.
  destruct (http env (trace w1) _) as [|resp'] eqn:Hrep; [done|].
  injection Hcall as -> <-.
  apply bind_ok in H as (data & w3 & Hjson & H).
  unfold response_json in Hjson.
  destruct (json resp) as [data'|] eqn:Hdata; [|done]. injection Hjson as -> <-.
  apply bind_ok in H as (tasks & w3 & [= Htasks <-] & H).
  destruct (truthy tasks) eqn:Htruthy; cbn [negb] in H.
  - apply bind_ok in H as (items & w3 & [= Hitems <-] & [= Hout <-]).
    eexists _, resp, data, tasks. rewrite Htruthy.
    repeat (split; [done|]).
    rewrite Hitems. f_equal. by rewrite (for_each_origins _ _ _ _ Hb Hout).
  - injection H as <- <-. eexists _, resp, data, tasks. by rewrite Htruthy.
Qed.

(** X14. A listing returns one [TaskInfo] for each record of the
    answer's [tasks], in the order of the answer, with the record
    itself as its [origin]; when [tasks] is absent or empty it returns
    the empty list.  No record is dropped or skipped: one that cannot be
    read makes the whole listing raise.  The answer is that of a GET,
    the last call of the run. *)
Theorem listed_tasks_origins (w : World) (infos : list TaskInfo.t) (w' : World) :
  completed_tasks env w = (Ok infos, w') \/ uncompleted_tasks env w = (Ok infos, w') ->
  exists req resp data tasks,
    head (trace w') = Some (EHttp req (Answer resp))
    /\ req_method req = "GET"
    /\ json resp = Some data
    /\ py_get data "tasks" = Ok tasks
    /\ if truthy tasks then py_iter tasks = Ok (map TaskInfo.origin infos)
       else infos = [].
Proof.
  intros [H|H]; eapply fetch_tasks_origins; try exact H.
  - apply completed_task_info_origin.
  - apply uncompleted_task_info_origin.
Qed.

Lemma fetch_tasks_needs_device filters build w :
  (forall s, _device_id (self w) <> PStr s) ->
  fetch_tasks env filters build w = (Raise TypeError, w).
Proof.
  intros Hid. unfold fetch_tasks. rewrite bind_run. cbn [get_self].
  rewrite bind_run. unfold lift, py_quote.
  destruct (_device_id (self w)) as [| | |s| |]; try done. by destruct (Hid s).
Qed.

(** X15. The listings put the device id into the URL with [quote],
    which takes a string only.  With a device id that is not a string
    ([None] before the device is known, or a number the service gave as
    [target]) both listings raise [TypeError] before any call, and leave
    the client and the trace as they were. *)
Theorem listed_tasks_need_device (w : World) :
  (forall s, _device_id (self w) <> PStr s) ->
  completed_tasks env w = (Raise TypeError, w)
  /\ uncompleted_tasks env w = (Raise TypeError, w).
Proof. intros Hid. split; by apply fetch_tasks_needs_device. Qed.

(** X16. With a device id that is not a string [download_magnetic]
    never creates anything: the duplicate check cannot read the tasks,
    so every run returns 0 after the resource listing, and sends neither
    the folder creation nor the task creation. *)
Theorem download_magnetic_needs_device (magnetic_link sub_dir : string)
    (preprocess_files : callback) (w : World) :
  (forall s, _device_id (self w) <> PStr s) ->
  exists w',
    download_magnetic env magnetic_link sub_dir preprocess_files w = (Ok (PInt 0), w')
    /\ Forall (fun e => creates_nothing (http_endpoint (self w)) e = true)
         (new_events w w').
Proof.
  intros Hid.
  destruct (follows_list_resources env (http_endpoint (self w)) magnetic_link
              (fun e => creates_nothing (http_endpoint (self w)) e = true)
              (creates_nothing_reads _)
              (fun req rep => listing_creates_nothing _ req rep) w eq_refl)
    as (_ & (new & Hnew & Hall) & _).
  pose proof (keeps_list_resources env magnetic_link w) as (_ & Hdev & _).
  unfold download_magnetic, try_except. rewrite bind_run.
  destruct (list_resources env magnetic_link w) as [[[data|]|e] w1]; cbn [fst snd] in *.
  - assert (Hrun : exists e,
              download_resources env data magnetic_link sub_dir preprocess_files w1
              = (Raise e, w1)).
    { unfold download_resources. rewrite bind_run. unfold lift.
      destruct (first_resource data) as [first|e]; [|by eexists].
      rewrite bind_run. destruct (py_get first "name") as [task_name|e]; [|by eexists].
      rewrite bind_run. unfold completed_tasks.
      rewrite fetch_tasks_needs_device; [by eexists|].
      intros s. rewrite Hdev. apply Hid. }
    destruct Hrun as [e ->]. exists w1. split; [done|].
    by rewrite (new_events_app _ _ _ Hnew).
  - exists w1. split; [done|]. by rewrite (new_events_app _ _ _ Hnew).
  - exists w1. split; [done|]. by rewrite (new_events_app _ _ _ Hnew).
Qed.

End Listed.

Lemma listed_tasks_origins_witness :
  exists infos w',
    uncompleted_tasks (lib := strict_lib) Sample.running Sample.start = (Ok infos, w')
    /\ infos <> []
    /\ exists req resp data tasks,
         head (trace w') = Some (EHttp req (Answer resp))
         /\ req_method req = "GET"
         /\ json resp = Some data
         /\ py_get data "tasks" = Ok tasks
         /\ if truthy tasks then py_iter tasks = Ok (map TaskInfo.origin infos)
            else infos = [].
Proof.
  eexists _, _. split; [vm_compute; reflexivity|]. split; [done|].
  apply (listed_tasks_origins (lib := strict_lib) Sample.running Sample.start _ _
           (or_intror eq_refl)).
Defined.

Lemma listed_tasks_need_device_witness :
  completed_tasks (lib := strict_lib) Sample.fresh Sample.blank
    = (Raise TypeError, Sample.blank)
  /\ uncompleted_tasks (lib := strict_lib) Sample.fresh Sample.blank
    = (Raise TypeError, Sample.blank).
Proof. by apply (listed_tasks_need_device (lib := strict_lib) Sample.fresh Sample.blank). Defined.

Lemma download_magnetic_needs_device_witness :
  exists w',
    download_magnetic (lib := strict_lib) Sample.fresh Sample.magnet EmptyString None
      Sample.blank = (Ok (PInt 0), w')
    /\ Forall (fun e => creates_nothing Sample.endpoint e = true)
         (new_events Sample.blank w').
Proof.
  by apply (download_magnetic_needs_device (lib := strict_lib) Sample.fresh Sample.magnet
              EmptyString None Sample.blank).
Defined.

(** ** [_make_request] *)

Lemma py_eq_int_403 code : py_eq_int code 403 = true <-> code = PInt 403.
Proof.
  destruct code as [|[]|z| | |]; cbn; try (split; done).
  rewrite Z.eqb_eq. split; [by intros ->|by intros [= ->]].
Qed.

Section Requesting.
Context (env : Env).

(** X17. What a call of [_make_request] can give.  The run ends with
    one call of the given method to the URL made from the endpoint, and
    each outcome has one cause: [RequestException] when the call fails,
    [HTTPError] for a status from 400 to 599, [JSONDecodeError] when the
    body is not JSON, [AttributeError] when the JSON is not an object,
    [PanAuthInvalid] when the object's [error_code] is 403 (a status 403
    gives [HTTPError] instead), and otherwise the object is returned. *)
Theorem _make_request_outcomes (method endpoint : string) (kw : kwargs) (w : World) :
  exists req rep,
    head (trace (_make_request env method endpoint kw w).2) = Some (EHttp req rep)
    /\ req_method req = method
    /\ req_url req = request_url (http_endpoint (self w)) endpoint
    /\ match (_make_request env method endpoint kw w).1 with
       | Ok result =>
           exists resp d,
             rep = Answer resp /\ ~ (400 <= status_code resp < 600)
             /\ json resp = Some result /\ result = PDict d
             /\ dict_get d "error_code" <> Some (PInt 403)
       | Raise RequestException => rep = NoReply
       | Raise HTTPError => exists resp, rep = Answer resp /\ 400 <= status_code resp < 600
       | Raise JSONDecodeError => exists resp, rep = Answer resp /\ json resp = None
       | Raise AttributeError =>
           exists resp result,
             rep = Answer resp /\ json resp = Some result /\ forall d, result <> PDict d
       | Raise PanAuthInvalid =>
           exists resp d,
             rep = Answer resp /\ ~ (400 <= status_code resp < 600)
             /\ json resp = Some (PDict d)
             /\ dict_get d "error_code" = Some (PInt 403)
       | Raise _ => False
       end.
Proof.
  unfold _make_request, try_except. rewrite bind_run. cbn [get_self].
  rewrite bind_run. destruct (headers_run env w) as (own & w1 & -> & _).
  rewrite bind_run. unfold session_request.
  destruct (http env (trace w1) _) as [|resp] eqn:Hrep; cbn [fst snd trace].
  { eexists _, _. by repeat split. }
  rewrite bind_run. unfold raise_for_status.
  destruct (Z.leb 400 (status_code resp) && Z.ltb (status_code resp) 600) eqn:Hst;
    cbn [raise ret].
  { apply andb_true_iff in Hst as [Hlo%Z.leb_le Hhi%Z.ltb_lt].
    eexists _, _. repeat split. cbn. exists resp. split; [done|lia]. }
  assert (Hok : ~ (400 <= status_code resp < 600)).
  { intros [Hlo%Z.leb_le Hhi%Z.ltb_lt]. by rewrite Hlo, Hhi in Hst. }
  rewrite bind_run. unfold response_json.
  destruct (json resp) as [result|] eqn:Hjson; cbn [raise ret].
  2:{ eexists _, _. repeat split. cbn. by exists resp. }
  rewrite bind_run. unfold lift.
  destruct (py_get result "error_code") as [code|e] eqn:Hget.
  2:{ destruct result; cbn in Hget; try done; injection Hget as <-;
        eexists _, _; repeat split; cbn; by eexists resp, _. }
  destruct result as [| | | | |d]; try done. cbn in Hget. injection Hget as <-.
  destruct (py_eq_int _ 403) eqn:Hcode; cbn [raise ret fst snd trace];
    eexists _, _; repeat split; cbn; exists resp, d; repeat (split; [done|]).
  - apply py_eq_int_403 in Hcode. by destruct (dict_get d "error_code"); subst.
  - intros Heq. by rewrite Heq in Hcode.
Qed.

(** X18. A relative endpoint is sent to the same URL with or without
    its leading "/": [_make_request] puts one separator between the
    client's endpoint and the path, so both calls are the same run. *)
Theorem _make_request_leading_slash (method path : string) (kw : kwargs) (w : World) :
  String.prefix "http" path = false ->
  String.prefix "/" path = false ->
  _make_request env method ("/" +:+ path) kw w = _make_request env method path kw w.
Proof.
  intros Hhttp Hslash. unfold _make_request.
  change ("/" +:+ path) with (String "/" path).
  replace (String.prefix "http" (String "/" path)) with false by done.
  replace (String.prefix "/" (String "/" path)) with true by (by destruct path).
  by rewrite Hhttp, Hslash.
Qed.

End Requesting.

Lemma _make_request_leading_slash_witness :
  _make_request Sample.fresh "GET" "/drive/v1/files"
    {| kw_headers := None; kw_params := []; kw_body := NoBody; kw_timeout := None |}
    Sample.start
  = _make_request Sample.fresh "GET" "drive/v1/files"
      {| kw_headers := None; kw_params := []; kw_body := NoBody; kw_timeout := None |}
      Sample.start.
Proof.
  by apply (_make_request_leading_slash Sample.fresh "GET" "drive/v1/files").
Defined.

(** ** The download folder *)

Lemma try_except_ok {A} (body : M A) (handler : exn -> M A) w a w' :
  (forall e w0, exists e', handler e w0 = (Raise e', w0)) ->
  try_except body handler w = (Ok a, w') -> body w = (Ok a, w').
Proof.
  intros Hh. unfold try_except. destruct (body w) as [[a'|e] w1]; [done|].
  destruct (Hh e w1) as [e' ->]. done.
Qed.

Lemma matching_folders_filter files download_root_dir acc out :
  for_each (fun f acc =>
              let? name := py_get f "name" in
              Ok (if py_eq_str name download_root_dir then acc ++ [f] else acc))
    files acc = Ok out ->
  out = acc ++ List.filter (named download_root_dir) files.
Proof.
  revert acc. induction files as [|f files IH]; intros acc; cbn.
  - intros [= <-]. by rewrite app_nil_r.
  - intros (acc' & (name & Hname & [= <-])%res_bind_ok & Hrest)%res_bind_ok.
    rewrite (IH _ Hrest). unfold named at 2. rewrite Hname.
    destruct (py_eq_str name download_root_dir); [|done]. by rewrite <- app_assoc.
Qed.

Lemma names_of_dicts (items : list pyval) acc out :
  for_each (fun f acc => let? name := py_get f "name" in Ok (acc ++ [name])) items acc
    = Ok out ->
  Forall (fun f => exists d, f = PDict d) items.
Proof.
  revert acc. induction items as [|f items IH]; intros acc; cbn; [done|].
  intros (acc' & (name & Hname & [= <-])%res_bind_ok & Hrest)%res_bind_ok.
  constructor; [|by eapply IH].
  destruct f; try done. by eexists.
Qed.

Section Folder.
Context {lib : PyLib} (env : Env) (query_values : pyval -> list string).

Lemma keeps__make_request method endpoint kw :
  keeps_settings (_make_request env method endpoint kw).
Proof. unfold _make_request. repeat keeps_step. Qed.

Lemma _make_request_ok method endpoint kw w result w' :
  _make_request env method endpoint kw w = (Ok result, w') ->
  exists own w1 resp,
    headers env w = (Ok own, w1)
    /\ trace w'
       = EHttp {| req_method := method;
                  req_url := request_url (http_endpoint (self w)) endpoint;
                  req_params := kw_params kw;
                  req_headers := match kw_headers kw with
                                 | Some given => given
                                 | None => own
                                 end;
                  req_body := kw_body kw; req_timeout := kw_timeout kw |}
           (Answer resp) :: trace w1
    /\ json resp = Some result.
Proof.
  intros H. unfold _make_request in H.
  apply try_except_ok in H; [|intros; by eexists].
  apply bind_ok in H as (me & w0 & [= <- <-] & H).
  apply bind_ok in H as (own & w1 & Hown & H).
  apply bind_ok in H as (response & w2 & Hcall & H).
  unfold session_request in Hcall.
  destruct (http env (trace w1) _) as [|resp]; [done|]. injection Hcall as -> <-.
  apply bind_ok in H as ([] & w3 & Hstatus & H).
  unfold raise_for_status in Hstatus.
  destruct (_ && _); [done|]. injection Hstatus as <-.
  apply bind_ok in H as (result' & w4 & Hjson & H).
  unfold response_json in Hjson.
  destruct (json response) as [v|] eqn:Hv; [|done]. injection Hjson as -> <-.
  apply bind_ok in H as (code & w5 & [= Hcode <-] & H).
  destruct (py_eq_int code 403); [done|]. injection H as -> <-.
  by exists own, w1, response.
Qed.

(** Lines 219-220, which the task operations have as well: a device id
    that is not truthy is asked for. *)
Lemma ensure_device_ok w w1 :
  (if negb (truthy (_device_id (self w)))
   then let* id := get_device_id env in set_device_id id
   else ret tt) w = (Ok tt, w1) ->
  http_endpoint (self w1) = http_endpoint (self w)
  /\ _parent_folder_id (self w1) = _parent_folder_id (self w)
  /\ (_device_id (self w) = PNone \/ truthy (_device_id (self w)) = true ->
      truthy (_device_id (self w1)) = true).
Proof.
  destruct (truthy (_device_id (self w))) eqn:Htruthy; cbn [negb].
  - intros [= <-]. by repeat split.
  - intros (id & wa & Hrun & [= <-])%bind_ok.
    pose proof (get_device_id_run env w) as (Hep & Hfolder & Hid).
    rewrite Hrun in Hep, Hfolder, Hid. cbn in Hep, Hfolder, Hid. cbn.
    repeat (split; [done|]). intros [Hnone|?]; [|done]. by apply Hid.
Qed.

Lemma ensure_device_known w w1 :
  (if negb (truthy (_device_id (self w)))
   then let* id := get_device_id env in set_device_id id
   else ret tt) w = (Ok tt, w1) ->
  _device_id (self w1) <> PNone.
Proof.
  destruct (truthy (_device_id (self w))) eqn:Htruthy; cbn [negb].
  - intros [= <-]. by destruct (_device_id (self w)).
  - intros (id & wa & Hrun & [= <-])%bind_ok.
    pose proof (get_device_id_run env w) as (_ & _ & Hid).
    rewrite Hrun in Hid. cbn in Hid. cbn. apply Hid.
Qed.

Lemma _init_download_directory_device download_root_dir w w' :
  _init_download_directory env query_values download_root_dir w = (Ok tt, w') ->
  _device_id (self w') <> PNone.
Proof.
  intros H. unfold _init_download_directory in H.
  apply try_except_ok in H; [|intros e w0; destruct (is_request_exception e); by eexists].
  apply bind_ok in H as (me & w0 & [= <- <-] & H).
  apply bind_ok in H as ([] & w1 & Hknown%ensure_device_known & H).
  apply bind_ok in H as (me & w0 & [= <- <-] & H).
  apply bind_ok in H as (data & w2 & Hreq & H).
  epose proof (keeps__make_request _ _ _ w1) as (_ & Hdev2 & _).
  erewrite Hreq in Hdev2. cbn in Hdev2.
  apply bind_ok in H as (files & w0 & [= _ <-] & H).
  destruct (negb (truthy files)); [done|].
  apply bind_ok in H as (count & w0 & [= _ <-] & H).
  apply bind_ok in H as (items & w0 & [= _ <-] & H).
  apply bind_ok in H as (names & w0 & [= _ <-] & H).
  apply bind_ok in H as (folder & w3 & Hchoice & H).
  assert (w3 = w2) as ->.
  { destruct (String.eqb download_root_dir EmptyString).
    - unfold lift in Hchoice. by injection Hchoice as _ <-.
    - apply bind_ok in Hchoice as (items' & w0 & [= _ <-] & Hchoice).
      apply bind_ok in Hchoice as (matching & w0 & [= _ <-] & Hchoice).
      destruct matching as [|first more]; [|by injection Hchoice as _ <-].
      apply bind_ok in Hchoice as (? & w0 & _ & Hchoice).
      apply bind_ok in Hchoice as (? & ? & _ & Hchoice).
      by apply bind_ok in Hchoice as (? & ? & _ & Hchoice). }
  apply bind_ok in H as (id & w0 & [= _ <-] & H).
  apply bind_ok in H as ([] & w3 & [= <-] & H).
  apply bind_ok in H as (name & w0 & [= _ <-] & H).
  apply bind_ok in H as (me & w0 & [= <- <-] & H).
  cbn in H. destruct (truthy id); [|done]. injection H as <-. cbn. congruence.
Qed.

(** A run of [_init_download_directory] that returns. *)
Lemma _init_download_directory_ok download_root_dir w w' :
  _init_download_directory env query_values download_root_dir w = (Ok tt, w') ->
  http_endpoint (self w') = http_endpoint (self w)
  /\ (_device_id (self w) = PNone \/ truthy (_device_id (self w)) = true ->
      truthy (_device_id (self w')) = true)
  /\ truthy (_parent_folder_id (self w')) = true
  /\ exists hs resp data folders folder rest,
       trace w'
       = EHttp (folders_request (http_endpoint (self w)) (folder_params query_values (self w'))
                  hs) (Answer resp) :: rest
       /\ json resp = Some data
       /\ py_get data "files" = Ok (PList folders)
       /\ head (candidates download_root_dir folders) = Some folder
       /\ py_get folder "id" = Ok (_parent_folder_id (self w')).
Proof.
  intros H. unfold _init_download_directory in H.
  apply try_except_ok in H; [|intros e w0; destruct (is_request_exception e); by eexists].
  apply bind_ok in H as (me & w0 & [= <- <-] & H).
  apply bind_ok in H as ([] & w1 & (Hep1 & Hfolder1 & Hdev1)%ensure_device_ok & H).
  apply bind_ok in H as (me & w0 & [= <- <-] & H).
  apply bind_ok in H as (data & w2 & Hreq & H).
  epose proof (keeps__make_request _ _ _ w1) as Hkeep. erewrite Hreq in Hkeep.
  destruct Hkeep as (Hep2 & Hdev2 & Hfolder2). cbn in Hep2, Hdev2, Hfolder2.
  apply _make_request_ok in Hreq as (own & wh & resp & _ & Htrace & Hjson).
  cbn in Htrace.
  apply bind_ok in H as (files & w0 & [= Hfiles <-] & H).
  destruct (truthy files) eqn:Htruthy; [|done]. cbn [negb] in H.
  apply bind_ok in H as (count & w0 & [= _ <-] & H).
  apply bind_ok in H as (items & w0 & [= Hitems <-] & H).
  apply bind_ok in H as (names & w0 & [= Hnames <-] & H).
  apply names_of_dicts in Hnames.
  assert (Hlist : files = PList items).
  { destruct files as [| | |s|l|d]; try done.
    - cbn in Hitems. injection Hitems as <-. destruct s as [|c s]; [done|].
      apply Forall_cons in Hnames as [[d [=]] _].
    - cbn in Hitems. by injection Hitems as <-.
    - cbn in Hitems. injection Hitems as <-. destruct d as [|kv d]; [done|].
      apply Forall_cons in Hnames as [[d' [=]] _]. }
  subst files.
  apply bind_ok in H as (folder & w3 & Hchoice & H).
  assert (Hfolder : w3 = w2 /\ head (candidates download_root_dir items) = Some folder).
  { unfold candidates. destruct (String.eqb download_root_dir EmptyString).
    - unfold lift in Hchoice. destruct items as [|first more]; [done|].
      cbn in Hchoice. by injection Hchoice as <- <-.
    - apply bind_ok in Hchoice as (items' & w0 & [= <- <-] & Hchoice).
      apply bind_ok in Hchoice as (matching & w0 & [= Hmatch <-] & Hchoice).
      apply matching_folders_filter in Hmatch. cbn in Hmatch. subst matching.
      destruct (List.filter _ items) as [|first more].
      + apply bind_ok in Hchoice as (? & w0 & _ & Hchoice).
        apply bind_ok in Hchoice as (? & ? & _ & Hchoice).
        by apply bind_ok in Hchoice as (? & ? & _ & Hchoice).
      + by injection Hchoice as <- <-. }
  destruct Hfolder as [-> Hfolder].
  apply bind_ok in H as (id & w0 & [= Hid <-] & H).
  apply bind_ok in H as ([] & w3 & [= <-] & H).
  apply bind_ok in H as (name & w0 & [= _ <-] & H).
  apply bind_ok in H as (me & w0 & [= <- <-] & H).
  cbn in H. destruct (truthy id) eqn:Hidt; [|done]. injection H as <-. cbn.
  split; [congruence|]. split; [rewrite Hdev2; exact Hdev1|]. split; [done|].
  exists (match kw_headers {| kw_headers := None; kw_params := folder_params query_values (self w1);
                              kw_body := NoBody; kw_timeout := None |} with
          | Some given => given | None => own end), resp, data, items, folder, (trace wh).
  split.
  { rewrite Htrace. unfold folders_request, folder_params.
    cbn [_device_id kw_headers kw_params kw_body kw_timeout].
    rewrite Hdev2, Hep1. reflexivity. }
  split; [done|]. split; [|done].
  destruct data; try done. cbn in Hfiles |- *. injection Hfiles as Hfiles.
  destruct (dict_get _ "files"); [by f_equal|]. by injection Hfiles as <-.
Qed.

Lemma _init_download_directory_raises download_root_dir w e :
  (_init_download_directory env query_values download_root_dir w).1 = Raise e ->
  e = ValueError \/ is_request_exception e = true.
Proof.
  unfold _init_download_directory, try_except.
  destruct (bind _ _ w) as [[[]|e0] w1]; [done|].
  destruct (is_request_exception e0) eqn:He0; cbn; intros [= <-]; auto.
Qed.

(** X19. What [_init_download_directory] can give.  When it returns,
    the client holds a truthy folder id; when it raises, the exception
    is [ValueError] or an exception of a request, as its documentation
    has it: every other exception, [PanAuthInvalid] among them, is
    turned into [ValueError]. *)
Theorem _init_download_directory_outcomes (download_root_dir : string) (w : World) :
  match (_init_download_directory env query_values download_root_dir w).1 with
  | Ok _ =>
      truthy (_parent_folder_id
                (self (_init_download_directory env query_values download_root_dir w).2))
      = true
  | Raise e => e = ValueError \/ is_request_exception e = true
  end.
Proof.
  destruct (_init_download_directory env query_values download_root_dir w)
    as [[[]|e] w'] eqn:Hrun; cbn.
  - by apply _init_download_directory_ok in Hrun as (_ & _ & ? & _).
  - apply (_init_download_directory_raises download_root_dir w). by rewrite Hrun.
Qed.

(** X20. The folder [_init_download_directory] settles on.  A run that
    returns has ended with the GET of the device's folders, and the id
    it stores is the [id] of the first folder of the answer's [files]
    when no name is given, and of the first folder of that name
    otherwise. *)
Theorem _init_download_directory_choice (download_root_dir : string) (w w' : World) :
  _init_download_directory env query_values download_root_dir w = (Ok tt, w') ->
  exists hs resp data folders folder rest,
    trace w'
    = EHttp (folders_request (http_endpoint (self w)) (folder_params query_values (self w'))
               hs) (Answer resp) :: rest
    /\ json resp = Some data
    /\ py_get data "files" = Ok (PList folders)
    /\ head (candidates download_root_dir folders) = Some folder
    /\ py_get folder "id" = Ok (_parent_folder_id (self w')).
Proof. intros Hrun. by apply _init_download_directory_ok in Hrun as (_ & _ & _ & ?). Qed.

(** X21. What constructing a client gives.  The run is the request
    for the session's cookie followed by [get_device_id] and
    [_init_download_directory], whatever the cookie request is answered
    or whether it fails: it never makes [__init__] fail.  When [__init__]
    returns, the endpoint is the scheme, the host and the port put
    together, and the client holds a truthy device id and a truthy
    folder id; when it raises, the exception is [ValueError] or an
    exception of a request of the two later steps. *)
Theorem __init___outcomes (host : string) (port : Z) (ssl : bool)
    (device_name download_root_dir : string) (w : World) :
  let run := __init__ env query_values host port ssl device_name download_root_dir w in
  let endpoint :=
    (if ssl then "https" else "http") +:+ "://" +:+ host +:+ ":" +:+ str_of_int port in
  let cookie :=
    {| req_method := "GET"; req_url := endpoint +:+ path_index; req_params := [];
       req_headers := []; req_body := NoBody; req_timeout := None |} in
  run
  = (let* id := get_device_id env in
     _init_download_directory env query_values download_root_dir)
      {| self := {| http_endpoint := endpoint; _device_id := PNone; _token_str := None;
                    _token_time := 0; _parent_folder_id := PNone |};
         trace := EHttp cookie (http env (trace w) cookie) :: trace w |}
  /\ match run.1 with
     | Ok _ =>
         http_endpoint (self run.2) = endpoint
         /\ truthy (_device_id (self run.2)) = true
         /\ truthy (_parent_folder_id (self run.2)) = true
     | Raise e => e = ValueError \/ is_request_exception e = true
     end.
Proof.
  cbv zeta. unfold __init__. rewrite bind_run. cbn [set_self].
  rewrite bind_run.
  match goal with |- context [_create_session env ?w0] =>
    assert (Hcookie : _create_session env w0
              = (Ok tt, {| self := self w0;
                           trace := EHttp {| req_method := "GET";
                                             req_url := http_endpoint (self w0) +:+ path_index;
                                             req_params := []; req_headers := [];
                                             req_body := NoBody; req_timeout := None |}
                                      (http env (trace w0)
                                         {| req_method := "GET";
                                            req_url := http_endpoint (self w0) +:+ path_index;
                                            req_params := []; req_headers := [];
                                            req_body := NoBody; req_timeout := None |})
                                    :: trace w0 |}))
      by (unfold _create_session; rewrite bind_run; cbn [get_self];
          unfold try_except; rewrite bind_run; unfold session_request;
          by destruct (http env (trace w0) _));
    rewrite Hcookie; cbn [self trace http_endpoint];
    set (w1 := {| self := _; trace := _ |})
  end.
  split; [done|]. rewrite bind_run.
  pose proof (get_device_id_run env w1) as (Hep & _ & Hid).
  destruct (get_device_id env w1) as [[id|e] w2]; cbn [fst snd] in *; [|apply Hid].
  destruct Hid as (Hstored & _ & Htruthy). specialize (Htruthy eq_refl).
  destruct (_init_download_directory env query_values download_root_dir w2)
    as [[[]|e] w3] eqn:Hrun; cbn [fst snd].
  - apply _init_download_directory_ok in Hrun as (Hep' & Hdev & Hfolder & _).
    split; [by rewrite Hep', Hep|]. split; [|done].
    apply Hdev. right. by rewrite Hstored.
  - apply (_init_download_directory_raises download_root_dir w2). by rewrite Hrun.
Qed.

(** X22. Once the client holds a device id and a folder,
    [is_connected] returns [True] without any call: the cached id is
    returned and written back, and nothing is asked of the service. *)
Theorem is_connected_cached (w : World) :
  _device_id (self w) <> PNone ->
  is_connected env query_values true w = (Ok true, w).
Proof.
  intros Hid. unfold is_connected, try_except, get_device_id.
  rewrite !bind_run. cbn [get_self].
  destruct w as [[ep id tok t folder] tr]. cbn in *. by destruct id.
Qed.

(** X23. [is_connected] never raises.  When it answers [True] the
    client holds a device id, and a truthy folder id if it had no
    folder before; it answers [False] for any exception on the way. *)
Theorem is_connected_result (has_parent_folder_id : bool) (w : World) :
  exists b w',
    is_connected env query_values has_parent_folder_id w = (Ok b, w')
    /\ (b = true ->
        _device_id (self w') <> PNone
        /\ (has_parent_folder_id = false -> truthy (_parent_folder_id (self w')) = true)).
Proof.
  unfold is_connected, try_except. rewrite bind_run.
  pose proof (get_device_id_run env w) as (_ & _ & Hid).
  destruct (get_device_id env w) as [[id|e] w1]; cbn [fst snd] in *;
    [|by eexists _, _].
  destruct Hid as (_ & Hnone & _).
  rewrite bind_run. cbn [set_device_id bind get_self set_self].
  rewrite bind_run. destruct has_parent_folder_id; cbn [negb].
  - eexists _, _. split; [done|]. by intros _.
  - destruct (_init_download_directory env query_values EmptyString _)
      as [[[]|e] w2] eqn:Hrun; [|by eexists _, _].
    eexists _, _. split; [done|]. intros _.
    split; [by apply _init_download_directory_device in Hrun|].
    by apply _init_download_directory_ok in Hrun as (_ & _ & Hfolder & _).
Qed.

End Folder.

Lemma _init_download_directory_choice_witness :
  exists w',
    _init_download_directory Sample.nas Sample.query_values "movies" Sample.blank
    = (Ok tt, w')
    /\ _parent_folder_id (self w') = PStr "folder2"
    /\ exists hs resp data folders folder rest,
         trace w'
         = EHttp (folders_request (http_endpoint (self Sample.blank))
                    (folder_params Sample.query_values (self w')) hs) (Answer resp) :: rest
         /\ json resp = Some data
         /\ py_get data "files" = Ok (PList folders)
         /\ head (candidates "movies" folders) = Some folder
         /\ py_get folder "id" = Ok (_parent_folder_id (self w')).
Proof.
  eexists. split; [vm_compute; reflexivity|]. split; [reflexivity|].
  apply (_init_download_directory_choice Sample.nas Sample.query_values "movies"
           Sample.blank).
  vm_compute. reflexivity.
Defined.

Lemma is_connected_cached_witness :
  is_connected Sample.nothing Sample.query_values true Sample.start
  = (Ok true, Sample.start).
Proof. by apply (is_connected_cached Sample.nothing Sample.query_values Sample.start). Defined.

(** ** The story of [download_magnetic] *)

Lemma bind_lift {A B} (r : Res A) (k : A -> M B) w :
  bind (lift r) k w = match r with
                      | Ok a => k a w
                      | Raise e => (Raise e, w)
                      end.
Proof. rewrite bind_run. unfold lift. by destruct r. Qed.

Lemma reads_allowed : allows_reads reads.
Proof. by split. Qed.

Lemma reads_quiet endpoint add new :
  Forall reads add -> quiet endpoint new -> quiet endpoint (add ++ new).
Proof.
  intros Hadd Hnew. apply Forall_app. split; [|done].
  eapply Forall_impl; [exact Hadd|]. intros [req rep|t] He; [|done].
  by apply get_creates_nothing.
Qed.

Lemma headers_reads env w :
  exists hs w1 add,
    headers env w = (Ok hs, w1) /\ same_settings (self w) (self w1)
    /\ trace w1 = add ++ trace w /\ Forall reads add.
Proof.
  destruct (headers_run env w) as (hs & w1 & Hrun & Hsame).
  destruct (follows_headers env (http_endpoint (self w)) reads reads_allowed w eq_refl)
    as (_ & (add & Htr & Hall) & _).
  rewrite Hrun in Htr. by exists hs, w1, add.
Qed.

Lemma task_request_settings {lib : PyLib} endpoint c me hs task_name magnetic_link
    task_file_count target kept :
  same_settings c me ->
  task_request endpoint me hs task_name magnetic_link task_file_count target kept
  = task_request endpoint c hs task_name magnetic_link task_file_count target kept.
Proof. intros (_ & Hdev & _). unfold task_request, task_body. by rewrite Hdev. Qed.

Lemma folder_request_settings endpoint c me hs sub_dir :
  same_settings c me ->
  folder_request endpoint me hs sub_dir = folder_request endpoint c hs sub_dir.
Proof. intros (_ & Hdev & Hfolder). unfold folder_request. by rewrite Hdev, Hfolder. Qed.

Section Story.
Context {lib : PyLib} (env : Env).

Lemma fetch_tasks_reads filters build w :
  exists add,
    trace (fetch_tasks env filters build w).2 = add ++ trace w
    /\ Forall reads add
    /\ same_settings (self w) (self (fetch_tasks env filters build w).2).
Proof.
  destruct (follows_fetch_tasks env (http_endpoint (self w)) filters build reads
              (fun _ => True) reads_allowed (fun _ _ _ => I) w eq_refl)
    as (_ & (add & Htr & Hall) & _).
  exists add. split; [done|]. split; [done|]. apply keeps_fetch_tasks.
Qed.

Lemma submit_task_story c task_name magnetic_link task_file_count kept target w :
  same_settings c (self w) ->
  let run := submit_task env task_name magnetic_link task_file_count kept
               (map (fun i => str_of_int (TaskFile.index i)) kept) target w in
  exists hs rep add,
    trace run.2
    = EHttp (task_request (http_endpoint c) c hs task_name magnetic_link task_file_count
               target kept) rep :: add ++ trace w
    /\ same_settings c (self run.2)
    /\ Forall reads add
    /\ (task_accepted rep /\ settle run.1 = PInt 1
        \/ ~ task_accepted rep /\ settle run.1 = PInt 0).
Proof.
  intros Hsame. cbv zeta. unfold submit_task. rewrite bind_run. cbn [get_self].
  rewrite bind_run.
  destruct (headers_reads env w) as (hs & w1 & add & -> & Hsame1 & Htr & Hadd).
  rewrite bind_run. unfold session_request.
  assert (Hsame' : same_settings c (self w1)).
  { eapply same_settings_trans; [exact Hsame|exact Hsame1]. }
  assert (Hreq : {| req_method := "POST"; req_url := http_endpoint (self w) +:+ path_task;
                    req_params := []; req_headers := hs;
                    req_body := Data (task_body (self w) task_name magnetic_link
                                        task_file_count target kept
                                        (map (fun i => str_of_int (TaskFile.index i)) kept));
                    req_timeout := None |}
                 = task_request (http_endpoint c) c hs task_name magnetic_link
                     task_file_count target kept).
  { rewrite <- (task_request_settings (http_endpoint c) c (self w)) by done.
    destruct Hsame as (Hep & _). by rewrite <- Hep. }
  rewrite Hreq. set (req := task_request _ _ _ _ _ _ _ _).
  exists hs, (http env (trace w1) req), add.
  destruct (http env (trace w1) req) as [|resp] eqn:Hrep; cbn [fst snd trace self].
  { rewrite Htr. repeat (split; [done|]). right. split; [|done].
    by intros (? & ? & ? & [=] & _). }
  rewrite bind_run. unfold response_json.
  destruct (json resp) as [result|] eqn:Hjson; cbn [ret raise fst snd trace self].
  2:{ rewrite Htr. repeat (split; [done|]). right. split; [|done].
      intros (? & ? & ? & [= <-] & ? & _). congruence. }
  rewrite bind_lift.
  destruct (py_get result "HttpStatus") as [status|e] eqn:Hstatus;
    cbn [ret raise fst snd trace self].
  2:{ rewrite Htr. repeat (split; [done|]). right. split; [|done].
      intros (? & ? & ? & [= <-] & ? & ? & _). congruence. }
  destruct (py_eq_int status 0) eqn:Hzero; cbn [ret raise fst snd trace self];
    rewrite Htr; repeat (split; [done|]).
  - left. split; [|done]. by exists resp, result, status.
  - right. split; [|done].
    intros (? & ? & ? & [= <-] & ? & ? & ?). congruence.
Qed.

Lemma download_resources_story c data magnetic_link sub_dir preprocess_files w tr0 pre :
  same_settings c (self w) ->
  trace w = pre ++ tr0 ->
  quiet (http_endpoint c) pre ->
  let run := download_resources env data magnetic_link sub_dir preprocess_files w in
  exists new,
    trace run.2 = new ++ tr0
    /\ story (http_endpoint c) c magnetic_link sub_dir (settle run.1) new.
Proof.
  intros Hsame Htr Hpre. cbv zeta. unfold download_resources.
  assert (Hend : forall w' pre' (v : pyval),
            trace w' = pre' ++ tr0 -> quiet (http_endpoint c) pre' -> v <> PInt 1 ->
            exists new, trace w' = new ++ tr0
                        /\ story (http_endpoint c) c magnetic_link sub_dir v new).
  { intros w' pre' v Htr' Hpre' Hv. exists pre'. split; [done|]. left. by split; [|left]. }
  rewrite bind_lift.
  destruct (first_resource data) as [first|e]; [|by eapply Hend].
  rewrite bind_lift.
  destruct (py_get first "name") as [task_name|e]; [|by eapply Hend].
  rewrite bind_run. unfold completed_tasks.
  destruct (fetch_tasks_reads filters_completed completed_task_info w)
    as (add1 & Htr1 & Hadd1 & Hsame1).
  destruct (fetch_tasks env filters_completed completed_task_info w)
    as [[completed|e] w1]; cbn [fst snd] in *.
  2:{ eapply Hend; [|by apply reads_quiet|done]. by rewrite Htr1, Htr, app_assoc. }
  rewrite bind_run. unfold uncompleted_tasks.
  destruct (fetch_tasks_reads filters_uncompleted uncompleted_task_info w1)
    as (add2 & Htr2 & Hadd2 & Hsame2).
  destruct (fetch_tasks env filters_uncompleted uncompleted_task_info w1)
    as [[uncompleted|e] w2]; cbn [fst snd] in *.
  all: assert (Htr2' : trace w2 = (add2 ++ add1 ++ pre) ++ tr0)
         by (by rewrite Htr2, Htr1, Htr, !app_assoc).
  all: assert (Hpre2 : quiet (http_endpoint c) (add2 ++ add1 ++ pre))
         by (by repeat apply reads_quiet).
  2:{ by eapply Hend. }
  assert (Hsame2' : same_settings c (self w2)).
  { eapply same_settings_trans; [|exact Hsame2].
    eapply same_settings_trans; [exact Hsame|exact Hsame1]. }
  rewrite bind_lift. destruct (py_in_set _ _) as [[]|e];
    [cbn [ret fst snd settle]; by eapply Hend| |by eapply Hend].
  rewrite bind_lift. cbv beta iota.
  rewrite bind_lift.
  destruct (py_get first "file_count") as [task_file_count|e]; [|by eapply Hend].
  rewrite bind_lift. destruct (py_get data "list") as [lst|e]; [|by eapply Hend].
  rewrite bind_lift.
  destruct (py_get lst "resources") as [root_resources|e]; [|by eapply Hend].
  rewrite bind_lift. destruct (helper root_resources []) as [task_files|e];
    [|by eapply Hend].
  rewrite bind_lift.
  destruct (preprocess preprocess_files task_files) as [kept|e]; [|by eapply Hend].
  rewrite bind_run. cbn [get_self].
  destruct (String.eqb_spec sub_dir EmptyString) as [Hsub|Hsub]; cbn [negb].
  - destruct (submit_task_story c task_name magnetic_link task_file_count kept
                (_parent_folder_id (self w2)) w2 Hsame2')
      as (hs & rep & add & Hrun & _ & Hadd & Hres).
    eexists. split; [rewrite Hrun, Htr2'; by rewrite app_comm_cons, app_assoc|].
    right. exists hs, task_name, task_file_count, (_parent_folder_id (self w2)), kept, rep.
    eexists. split; [done|]. split; [|done]. left. split; [done|].
    split; [by destruct Hsame2' as (_ & _ & ?)|]. by apply reads_quiet.
  - destruct (contains "/" sub_dir); [cbn [ret fst snd settle]; by eapply Hend|].
    rewrite bind_run.
    destruct (headers_reads env w2) as (hs & w3 & add3 & -> & Hsame3 & Htr3 & Hadd3).
    rewrite bind_run. unfold session_request.
    assert (Hsame3' : same_settings c (self w3)).
    { eapply same_settings_trans; [exact Hsame2'|exact Hsame3]. }
    assert (Hreq : {| req_method := "POST";
                      req_url := http_endpoint (self w2) +:+ path_files;
                      req_params := []; req_headers := hs;
                      req_body := Data (PDict [("parent_id", _parent_folder_id (self w2));
                                               ("name", PStr sub_dir);
                                               ("space", _device_id (self w2));
                                               ("kind", PStr "drive#folder")]);
                      req_timeout := None |}
                   = folder_request (http_endpoint c) c hs sub_dir).
    { rewrite <- (folder_request_settings (http_endpoint c) c (self w2)) by done.
      destruct Hsame2' as (Hep & _). by rewrite <- Hep. }
    rewrite Hreq. set (req := folder_request _ _ _ _).
    assert (Hfolder : forall rep,
              with_folder (http_endpoint c) c sub_dir rep
                (EHttp req rep :: add3 ++ add2 ++ add1 ++ pre)).
    { intros rep. exists hs, [], (add3 ++ add2 ++ add1 ++ pre).
      split; [done|]. split; [constructor|]. by apply reads_quiet. }
    assert (Hhalf : forall w' rep (v : pyval),
              trace w' = EHttp req rep :: trace w3 -> v <> PInt 1 ->
              exists new, trace w' = new ++ tr0
                          /\ story (http_endpoint c) c magnetic_link sub_dir v new).
    { intros w' rep v Htr' Hv. exists (EHttp req rep :: add3 ++ add2 ++ add1 ++ pre).
      split; [rewrite Htr', Htr3, Htr2'; by rewrite !app_comm_cons, !app_assoc|].
      left. split; [done|]. right. split; [done|]. by exists rep. }
    destruct (http env (trace w3) req) as [|response] eqn:Hrep;
      [by eapply Hhalf|].
    rewrite bind_run. unfold response_json.
    destruct (json response) as [created|] eqn:Hjson; [|by eapply Hhalf].
    cbn [ret]. rewrite bind_lift.
    destruct (py_get created "file") as [file|e] eqn:Hfile; [|by eapply Hhalf].
    rewrite bind_lift.
    destruct (py_get file "id") as [target|e] eqn:Hid; [|by eapply Hhalf].
    match goal with |- context [submit_task _ _ _ _ _ _ _ ?w4] =>
      destruct (submit_task_story c task_name magnetic_link task_file_count kept
                  target w4 Hsame3')
        as (hs' & rep & add & Hrun & _ & Hadd & Hres)
    end.
    cbn [trace] in Hrun.
    exists (EHttp (task_request (http_endpoint c) c hs' task_name magnetic_link
                     task_file_count target kept) rep
            :: add ++ EHttp req (Answer response) :: add3 ++ add2 ++ add1 ++ pre).
    split.
    { rewrite Hrun, Htr3, Htr2'. cbn. f_equal.
      rewrite <- !app_assoc. cbn. by rewrite <- !app_assoc. }
    right. exists hs', task_name, task_file_count, target, kept, rep.
    eexists. split; [done|]. split; [|done].
    right. split; [done|]. exists (Answer response). split.
    + exists hs, add, (add3 ++ add2 ++ add1 ++ pre).
      split; [done|]. split; [|by apply reads_quiet].
      eapply Forall_impl; [exact Hadd|]. intros [r ?|?] He; [|done].
      by apply get_creates_nothing.
    + by exists response, created, file.
Qed.

Lemma download_magnetic_story magnetic_link sub_dir preprocess_files w :
  exists v w' new,
    download_magnetic env magnetic_link sub_dir preprocess_files w = (Ok v, w')
    /\ trace w' = new ++ trace w
    /\ story (http_endpoint (self w)) (self w) magnetic_link sub_dir v new.
Proof.
  destruct (follows_list_resources env (http_endpoint (self w)) magnetic_link
              (fun e => creates_nothing (http_endpoint (self w)) e = true)
              (creates_nothing_reads _)
              (fun req rep => listing_creates_nothing _ req rep) w eq_refl)
    as (_ & (new1 & Hnew1 & Hall1) & _).
  pose proof (keeps_list_resources env magnetic_link w) as Hsame.
  unfold download_magnetic, try_except. rewrite bind_run.
  destruct (list_resources env magnetic_link w) as [[[data|]|e] w1]; cbn [fst snd] in *.
  - destruct (download_resources_story (self w) data magnetic_link sub_dir
                preprocess_files w1 (trace w) new1 Hsame Hnew1 Hall1)
      as (new & Htr & Hstory).
    destruct (download_resources env data magnetic_link sub_dir preprocess_files w1)
      as [[v|e] w2]; cbn [fst snd settle] in *; by eexists _, _, new.
  - exists (PInt 0), w1, new1. split; [done|]. split; [done|]. left. by split; [|left].
  - exists (PInt 0), w1, new1. split; [done|]. split; [done|]. left. by split; [|left].
Qed.

End Story.

Lemma task_request_event {lib : PyLib} endpoint c hs task_name magnetic_link
    task_file_count target kept rep :
  let e := EHttp (task_request endpoint c hs task_name magnetic_link task_file_count
                    target kept) rep in
  is_task_event endpoint e = true /\ is_folder_event endpoint e = false.
Proof.
  cbn. unfold is_task_creation, is_folder_creation. cbn.
  rewrite String.eqb_refl. split; [done|]. by apply url_eqb_false.
Qed.

Lemma folder_request_event endpoint c hs sub_dir rep :
  let e := EHttp (folder_request endpoint c hs sub_dir) rep in
  is_task_event endpoint e = false /\ is_folder_event endpoint e = true.
Proof.
  cbn. unfold is_task_creation, is_folder_creation. cbn.
  rewrite String.eqb_refl. split; [|done]. by apply url_eqb_false.
Qed.

Lemma quiet_event endpoint e :
  creates_nothing endpoint e = true ->
  is_task_event endpoint e = false /\ is_folder_event endpoint e = false.
Proof.
  destruct e as [req rep|t]; [|done]. cbn.
  intros [H1 H2]%andb_true_iff. by split; apply negb_true_iff.
Qed.

Lemma quiet_filter endpoint new :
  quiet endpoint new ->
  List.filter (is_task_event endpoint) new = []
  /\ List.filter (is_folder_event endpoint) new = [].
Proof.
  induction 1 as [|e new He _ [IH1 IH2]]; [done|]. cbn.
  apply quiet_event in He as [-> ->]. done.
Qed.

Lemma with_folder_filter endpoint c sub_dir rep new :
  with_folder endpoint c sub_dir rep new ->
  List.filter (is_task_event endpoint) new = []
  /\ length (List.filter (is_folder_event endpoint) new) = 1%nat.
Proof.
  intros (hs & after & before & -> & [Ha1 Ha2]%quiet_filter & [Hb1 Hb2]%quiet_filter).
  rewrite !List.filter_app. cbn.
  destruct (folder_request_event endpoint c hs sub_dir rep) as [Ht Hf].
  cbn in Ht, Hf. rewrite Ht, Hf, Ha1, Ha2, Hb1, Hb2. done.
Qed.

Lemma with_folder_head endpoint c sub_dir rep new e :
  with_folder endpoint c sub_dir rep new ->
  head new = Some e -> is_task_event endpoint e = false.
Proof.
  intros (hs & after & before & -> & Ha & _). destruct after as [|a after]; cbn.
  - intros [= <-]. apply folder_request_event.
  - intros [= <-]. apply Forall_cons in Ha as [Ha _]. by apply quiet_event in Ha as [? _].
Qed.

Lemma ready_filter endpoint c sub_dir target new :
  ready endpoint c sub_dir target new ->
  List.filter (is_task_event endpoint) new = []
  /\ (length (List.filter (is_folder_event endpoint) new) <= 1)%nat.
Proof.
  intros [(_ & _ & [H1 H2]%quiet_filter)|(_ & rep & [H1 H2]%with_folder_filter & _)].
  - rewrite H1, H2. split; [done|]. cbn. lia.
  - rewrite H1, H2. split; [done|]. lia.
Qed.

Lemma filter_nil_elem {A} (f : A -> bool) (l : list A) x :
  List.filter f l = [] -> x ∈ l -> f x = false.
Proof.
  intros Hnil Hin. destruct (f x) eqn:Hfx; [|done].
  assert (Hx : In x (List.filter f l)).
  { apply List.filter_In. split; [by apply list_elem_of_In|done]. }
  by rewrite Hnil in Hx.
Qed.

Section Submitted.
Context {lib : PyLib} (env : Env).

(** X24. A run of [download_magnetic] submits at most once.  Among the
    calls of a run there is at most one task creation and at most one
    folder creation, and the task creation, when there is one, is the
    last call of the run: nothing is sent after it, and a folder is
    created only before it. *)
Theorem download_magnetic_one_submission (magnetic_link sub_dir : string)
    (preprocess_files : callback) (w : World) :
  let endpoint := http_endpoint (self w) in
  let new := new_events w
               (download_magnetic env magnetic_link sub_dir preprocess_files w).2 in
  (length (List.filter (is_task_event endpoint) new) <= 1)%nat
  /\ (length (List.filter (is_folder_event endpoint) new) <= 1)%nat
  /\ (forall e, e ∈ new -> is_task_event endpoint e = true -> head new = Some e).
Proof.
  cbv zeta.
  destruct (download_magnetic_story env magnetic_link sub_dir preprocess_files w)
    as (v & w' & new & -> & Htr & Hstory). cbn [snd].
  rewrite (new_events_app _ _ _ Htr).
  destruct Hstory as [(_ & [Hq|(_ & rep & Hf)])
                     |(hs & name & count & target & kept & rep & rest & -> & Hready & _)].
  - apply quiet_filter in Hq as [H1 H2]. rewrite H1, H2. cbn.
    split; [lia|]. split; [lia|]. intros e He Htask.
    by rewrite (filter_nil_elem _ _ _ H1 He) in Htask.
  - apply with_folder_filter in Hf as [H1 H2]. rewrite H1, H2. cbn.
    split; [lia|]. split; [lia|]. intros e He Htask.
    by rewrite (filter_nil_elem _ _ _ H1 He) in Htask.
  - apply ready_filter in Hready as [H1 H2]. cbn [List.filter].
    destruct (task_request_event (http_endpoint (self w)) (self w) hs name magnetic_link
                count target kept rep) as [Ht Hf].
    cbn zeta in Ht, Hf. rewrite Ht, Hf, H1. cbn [length].
    split; [lia|]. split; [lia|]. intros e He Htask.
    apply elem_of_cons in He as [->|He]; [done|].
    by rewrite (filter_nil_elem _ _ _ H1 He) in Htask.
Qed.

(** X25. [download_magnetic] answers 1 exactly when the last call of
    the run is the task creation and its answer is JSON with
    [HttpStatus == 0]: a run never reports a task it did not submit,
    and never hides one the service accepted. *)
Theorem download_magnetic_created (magnetic_link sub_dir : string)
    (preprocess_files : callback) (w : World) :
  let run := download_magnetic env magnetic_link sub_dir preprocess_files w in
  (exists v, run.1 = Ok v /\ outcome_of v = Some Created)
  <-> exists req rep,
        head (new_events w run.2) = Some (EHttp req rep)
        /\ is_task_creation (http_endpoint (self w)) req = true
        /\ task_accepted rep.
Proof.
  cbv zeta.
  pose proof (download_magnetic_values env magnetic_link sub_dir preprocess_files w)
    as Hvalues.
  destruct (download_magnetic_story env magnetic_link sub_dir preprocess_files w)
    as (v & w' & new & Hrun & Htr & Hstory).
  rewrite Hrun in Hvalues |- *. cbn [fst snd] in *.
  rewrite (new_events_app _ _ _ Htr). specialize (Hvalues v eq_refl).
  destruct Hstory as [(Hv & Hshape)
                     |(hs & name & count & target & kept & rep & rest & -> & Hready & Hres)].
  - split.
    + intros (v' & [= <-] & Hout).
      destruct Hvalues as [->|[->|[->| ->]]]; done.
    + intros (req & rep & Hhead & Htask & _). exfalso.
      assert (Hno : is_task_event (http_endpoint (self w)) (EHttp req rep) = false).
      { destruct Hshape as [Hq|(_ & rep' & Hf)].
        - destruct new as [|e new]; [done|]. injection Hhead as ->.
          apply Forall_cons in Hq as [Hq _]. by apply quiet_event in Hq as [? _].
        - by eapply with_folder_head. }
      cbn in Hno. congruence.
  - destruct (task_request_event (http_endpoint (self w)) (self w) hs name magnetic_link
                count target kept rep) as [Ht _]. cbn in Ht.
    split.
    + intros (v' & [= <-] & Hout). eexists _, rep. split; [done|]. split; [done|].
      destruct Hres as [[? _]|[_ ->]]; done.
    + intros (req & rep' & [= <- <-] & _ & Hacc).
      destruct Hres as [[_ ->]|[Hno _]]; [by exists (PInt 1)|done].
Qed.

(** X26. Where the task goes.  Every task creation of a run is sent
    for the client's device, and its [parent_folder_id] is the client's
    download folder when no [sub_dir] is given, in which case the run
    creates no folder; with a [sub_dir] it is the id that the answer to
    the creation of the folder [sub_dir], sent before under the
    client's download folder, carries. *)
Theorem download_magnetic_destination (magnetic_link sub_dir : string)
    (preprocess_files : callback) (w : World) (req : Request) (rep : Reply) :
  let endpoint := http_endpoint (self w) in
  let new := new_events w
               (download_magnetic env magnetic_link sub_dir preprocess_files w).2 in
  EHttp req rep ∈ new ->
  is_task_creation endpoint req = true ->
  body_field req "space" = Some (_device_id (self w))
  /\ exists target,
       params_field req "parent_folder_id" = Some target
       /\ if String.eqb sub_dir EmptyString
          then target = _parent_folder_id (self w)
               /\ List.filter (is_folder_event endpoint) new = []
          else exists hs answer,
                 EHttp (folder_request endpoint (self w) hs sub_dir) answer ∈ new
                 /\ folder_created answer target.
Proof.
  cbv zeta.
  destruct (download_magnetic_story env magnetic_link sub_dir preprocess_files w)
    as (v & w' & new & -> & Htr & Hstory). cbn [snd].
  rewrite (new_events_app _ _ _ Htr). intros Hin Htask.
  assert (Hevent : is_task_event (http_endpoint (self w)) (EHttp req rep) = true) by done.
  destruct Hstory as [(_ & [Hq|(_ & rep' & Hf)])
                     |(hs & name & count & target & kept & rep' & rest & -> & Hready & _)].
  - apply quiet_filter in Hq as [H1 _].
    by rewrite (filter_nil_elem _ _ _ H1 Hin) in Hevent.
  - apply with_folder_filter in Hf as [H1 _].
    by rewrite (filter_nil_elem _ _ _ H1 Hin) in Hevent.
  - pose proof (ready_filter _ _ _ _ _ Hready) as [H1 _].
    apply elem_of_cons in Hin as [[= -> ->]|Hin];
      [|by rewrite (filter_nil_elem _ _ _ H1 Hin) in Hevent].
    split; [done|]. exists target. split; [done|].
    destruct (task_request_event (http_endpoint (self w)) (self w) hs name magnetic_link
                count target kept rep') as [_ Hnof]. cbn zeta in Hnof.
    destruct Hready as [(-> & -> & Hq)|(Hsub & answer & Hf & Hcreated)].
    + cbn [String.eqb]. split; [done|]. cbn [List.filter]. rewrite Hnof.
      by apply quiet_filter in Hq as [_ ->].
    + apply String.eqb_neq in Hsub. rewrite Hsub.
      destruct Hf as (hs' & after & before & -> & _).
      exists hs', answer. split; [|done].
      apply elem_of_cons. right. apply elem_of_app. right. apply list_elem_of_here.
Qed.

End Submitted.

Lemma download_magnetic_destination_witness :
  exists req rep,
    EHttp req rep
      ∈ new_events Sample.start
          (download_magnetic (lib := strict_lib) Sample.fresh Sample.magnet "Films" None
             Sample.start).2
    /\ body_field req "space" = Some (PStr "dev#1")
    /\ exists target,
         params_field req "parent_folder_id" = Some target
         /\ exists hs answer,
              EHttp (folder_request Sample.endpoint Sample.client hs "Films") answer
                ∈ new_events Sample.start
                    (download_magnetic (lib := strict_lib) Sample.fresh Sample.magnet
                       "Films" None Sample.start).2
              /\ folder_created answer target.
Proof.
  eexists _, _.
  assert (Hin : forall new e,
            new = new_events Sample.start
                    (download_magnetic (lib := strict_lib) Sample.fresh Sample.magnet
                       "Films" None Sample.start).2 ->
            head new = Some e -> e ∈ new).
  { intros [|e' new] e _ [= <-]. apply list_elem_of_here. }
  split; [eapply Hin; [reflexivity|vm_compute; reflexivity]|].
  eapply (download_magnetic_destination (lib := strict_lib) Sample.fresh Sample.magnet
            "Films" None Sample.start).
  - eapply Hin; [reflexivity|vm_compute; reflexivity].
  - reflexivity.
Defined.

(** ** The request of the task operations *)

Section Patching.
Context (env : Env).

Lemma get_pan_auth_reads w :
  exists token w1 add,
    get_pan_auth env w = (Ok token, w1) /\ same_settings (self w) (self w1)
    /\ trace w1 = add ++ trace w /\ Forall reads add.
Proof.
  destruct (get_pan_auth_run env w) as (token & w1 & Hrun & Hsame).
  destruct (follows_get_pan_auth env (http_endpoint (self w)) reads reads_allowed w eq_refl)
    as (_ & (add & Htr & Hall) & _).
  rewrite Hrun in Htr. by exists token, w1, add.
Qed.

Lemma patch_task_story phase task_id w :
  truthy (_device_id (self w)) = true ->
  patches env phase task_id w (patch_task env (spec_of phase) task_id w).2.
Proof.
  intros Hdev. unfold patch_task. rewrite bind_run. cbn [get_self]. rewrite Hdev.
  cbn [negb]. rewrite bind_run. cbn [ret]. rewrite bind_run. cbn [get_self].
  rewrite bind_run.
  destruct (get_pan_auth_reads w) as (token & w1 & add1 & -> & Hsame1 & Htr1 & Hadd1).
  rewrite bind_run. cbn [get_self]. rewrite bind_run.
  destruct (headers_reads env w1) as (hs & w2 & add2 & -> & Hsame2 & Htr2 & Hadd2).
  unfold session_request.
  assert (Hsame : same_settings (self w) (self w2)).
  { eapply same_settings_trans; [exact Hsame1|exact Hsame2]. }
  exists token, hs, (http env (trace w2)
    {| req_method := "POST"; req_url := http_endpoint (self w) +:+ path_patch_task;
       req_params := [("pan_auth", token); ("device_space", EmptyString)];
       req_headers := hs;
       req_body := Json (PDict [("space", _device_id (self w1));
                                ("type", PStr "user#download-url");
                                ("id", PStr task_id);
                                ("set_params", PDict [("spec", PStr (spec_of phase))])]);
       req_timeout := None |}), (add2 ++ add1).
  unfold patch_request. destruct Hsame1 as (_ & -> & _).
  destruct (http env (trace w2) _); cbn [fst snd trace self];
    (split; [by rewrite Htr2, Htr1, app_assoc|]);
    (split; [by apply Forall_app|done]).
Qed.

Lemma patched_world phase task_id w :
  (try_except (let* response := patch_task env phase task_id in patch_result response)
     (fun _ => ret false) w).2
  = (patch_task env phase task_id w).2.
Proof.
  unfold try_except. rewrite bind_run.
  destruct (patch_task env phase task_id w) as [[response|e] w1]; [|done].
  by destruct (patch_result_spec response w1) as (b & -> & _ & [->|[->|[e ->]]]).
Qed.

(** X27. The one request of a task operation.  On a client that holds
    a truthy device id, [pause_task], [start_task] and [delete_task]
    each end with one POST to the task-patching URL, after reading only
    (the clock, the page of the token): its JSON body names the
    client's device as [space], the given task as [id] and the phase
    [pause], [running] or [delete] as [spec].  Nothing is called after
    it, and the client's settings are left alone. *)
Theorem task_operations_request (task_id : string) (w : World) :
  truthy (_device_id (self w)) = true ->
  patches env "pause" task_id w (pause_task env task_id w).2
  /\ patches env "running" task_id w (start_task env task_id w).2
  /\ patches env "delete" task_id w (delete_task env task_id w).2.
Proof.
  intros Hdev. unfold pause_task, start_task. rewrite !patched_world.
  split; [by apply patch_task_story|]. split; [by apply patch_task_story|].
  pose proof (patch_task_story "delete" task_id w Hdev) as Hstory.
  unfold delete_task, try_except. rewrite bind_run.
  destruct (patch_task env (spec_of "delete") task_id w) as [[response|e] w1]; [|done].
  rewrite bind_run. unfold raise_for_status.
  cbn [fst snd] in Hstory.
  destruct (negb _); [destruct (_ && _)|]; cbn [raise ret]; try done;
    by destruct (patch_result_spec response w1) as (b & -> & _ & [->|[->|[e ->]]]).
Qed.

End Patching.

Lemma task_operations_request_witness :
  patches Sample.running "pause" "task42" Sample.start
    (pause_task Sample.running "task42" Sample.start).2
  /\ patches Sample.running "running" "task42" Sample.start
       (start_task Sample.running "task42" Sample.start).2
  /\ patches Sample.running "delete" "task42" Sample.start
       (delete_task Sample.running "task42" Sample.start).2.
Proof. by apply (task_operations_request Sample.running "task42" Sample.start). Defined.

(** * The listings and the submission, from the answers of the service *)

(** ** The names of the listed tasks *)

Section Records.
Context {lib : PyLib} (env : Env).

Lemma for_each_records (build : pyval -> Res TaskInfo.t)
    (P : TaskInfo.t -> pyval -> Prop) items acc seen out :
  (forall task info, build task = Ok info -> P info task) ->
  Forall2 P acc seen ->
  for_each (fun task res => let? info := build task in Ok (res ++ [info])) items acc
    = Ok out ->
  Forall2 P out (seen ++ items).
Proof.
  intros Hb. revert acc seen. induction items as [|task items IH]; intros acc seen Hacc; cbn.
  - intros [= <-]. by rewrite app_nil_r.
  - intros (acc' & (info & Hinfo & [= <-])%res_bind_ok & Hrest)%res_bind_ok.
    replace (seen ++ task :: items) with ((seen ++ [task]) ++ items)
      by (by rewrite <- app_assoc).
    eapply IH; [|exact Hrest]. apply Forall2_app; [done|].
    constructor; [by apply Hb|constructor].
Qed.

Lemma fetch_tasks_records filters build (P : TaskInfo.t -> pyval -> Prop) w infos w' :
  (forall task info, build task = Ok info -> P info task) ->
  fetch_tasks env filters build w = (Ok infos, w') ->
  exists req resp data listed records,
    head (trace w') = Some (EHttp req (Answer resp))
    /\ json resp = Some data
    /\ py_get data "tasks" = Ok listed
    /\ (if truthy listed then py_iter listed = Ok records else records = [])
    /\ Forall2 P infos records.
Proof.
  intros Hb H. unfold fetch_tasks in H.
  apply bind_ok in H as (me & w0 & [= <- <-] & H).
  apply bind_ok in H as (space & w0 & [= _ <-] & H).
  apply bind_ok in H as (hs & w1 & _ & H).
  apply bind_ok in H as (resp & w2 & Hcall & H).
  unfold session_request in Hcall.
  destruct (http env (trace w1) _) as [|resp'] eqn:Hrep; [done|].
  injection Hcall as -> <-.
  apply bind_ok in H as (data & w3 & Hjson & H).
  unfold response_json in Hjson.
  destruct (json resp) as [data'|] eqn:Hdata; [|done]. injection Hjson as -> <-.
  apply bind_ok in H as (listed & w3 & [= Hlisted <-] & H).
  destruct (truthy listed) eqn:Htruthy; cbn [negb] in H.
  - apply bind_ok in H as (items & w3 & [= Hitems <-] & [= Hout <-]).
    eexists _, resp, data, listed, items. rewrite Htruthy.
    repeat (split; [done|]).
    by apply (for_each_records build P items [] [] infos Hb).
  - injection H as <- <-. eexists _, resp, data, listed, []. rewrite Htruthy.
    repeat (split; [done|]). constructor.
Qed.

Lemma completed_task_info_record task info :
  completed_task_info task = Ok info ->
  exists v, py_get task "name" = Ok v
    /\ validate_str v = Some (TaskInfo.name info)
    /\ validate_str v = Some (TaskInfo.file_name info).
Proof.
  unfold completed_task_info. intros H.
  apply res_bind_ok in H as (p & _ & H).
  apply res_bind_ok in H as (progress & _ & H).
  apply res_bind_ok in H as (name & Hname & H).
  apply res_bind_ok in H as (file_name & Hfile & H).
  repeat (apply res_bind_ok in H as (? & _ & H)).
  apply new_TaskInfo_names in H as [Hn Hf]. exists name.
  rewrite Hname in Hfile. by injection Hfile as <-.
Qed.

Lemma uncompleted_task_info_record task info :
  uncompleted_task_info task = Ok info ->
  exists v, py_get task "name" = Ok v
    /\ validate_str v = Some (TaskInfo.name info)
    /\ validate_str v = Some (TaskInfo.file_name info).
Proof.
  unfold uncompleted_task_info. intros H.
  apply res_bind_ok in H as (p & _ & H).
  apply res_bind_ok in H as (progress & _ & H).
  apply res_bind_ok in H as (file_name & Hfile & H).
  apply res_bind_ok in H as (name & Hname & H).
  repeat (apply res_bind_ok in H as (? & _ & H)).
  apply new_TaskInfo_names in H as [Hn Hf]. exists name.
  rewrite Hname in Hfile. by injection Hfile as <-.
Qed.

(** C10. Every task that [completed_tasks] or [uncompleted_tasks]
    returns has its [file_name] equal to its [name], and both come from
    the record of the service: the returned tasks stand one to one, in
    order, for the records of the answer's [tasks], and the [name] and
    the [file_name] of each are what the field validation reads from
    the [name] of its record, the very string when the record's name
    is a string. *)
Theorem listed_tasks_file_name (w : World) (tasks : list TaskInfo.t) (w' : World) :
  completed_tasks env w = (Ok tasks, w') \/ uncompleted_tasks env w = (Ok tasks, w') ->
  Forall (fun info => TaskInfo.file_name info = TaskInfo.name info) tasks
  /\ exists req resp data listed records,
       head (trace w') = Some (EHttp req (Answer resp))
       /\ json resp = Some data
       /\ py_get data "tasks" = Ok listed
       /\ (if truthy listed then py_iter listed = Ok records else records = [])
       /\ Forall2 (fun info record =>
            exists v, py_get record "name" = Ok v
              /\ validate_str v = Some (TaskInfo.name info)
              /\ validate_str v = Some (TaskInfo.file_name info)
              /\ (forall s, v = PStr s ->
                    TaskInfo.name info = s /\ TaskInfo.file_name info = s))
            tasks records.
Proof.
  intros H.
  assert (Hrecords : exists req resp data listed records,
       head (trace w') = Some (EHttp req (Answer resp))
       /\ json resp = Some data
       /\ py_get data "tasks" = Ok listed
       /\ (if truthy listed then py_iter listed = Ok records else records = [])
       /\ Forall2 (fun info record =>
            exists v, py_get record "name" = Ok v
              /\ validate_str v = Some (TaskInfo.name info)
              /\ validate_str v = Some (TaskInfo.file_name info)
              /\ (forall s, v = PStr s ->
                    TaskInfo.name info = s /\ TaskInfo.file_name info = s))
            tasks records).
  { assert (Hstr : forall v (info : TaskInfo.t),
              validate_str v = Some (TaskInfo.name info) ->
              validate_str v = Some (TaskInfo.file_name info) ->
              forall s, v = PStr s ->
                TaskInfo.name info = s /\ TaskInfo.file_name info = s).
    { intros v info Hn Hf s ->. rewrite validate_str_ok in Hn, Hf.
      injection Hn as <-. by injection Hf as <-. }
    destruct H as [H|H]; eapply fetch_tasks_records; try exact H.
    - intros task info (v & Hv & Hn & Hf)%completed_task_info_record.
      exists v. repeat (split; [done|]). by apply Hstr.
    - intros task info (v & Hv & Hn & Hf)%uncompleted_task_info_record.
      exists v. repeat (split; [done|]). by apply Hstr. }
  split; [|exact Hrecords].
  destruct Hrecords as (_ & _ & _ & _ & records & _ & _ & _ & _ & Hall).
  clear H. induction Hall as [|info record tasks' records' (v & _ & Hn & Hf & _) _ IH].
  - constructor.
  - constructor; [congruence|done].
Qed.

End Records.

Lemma listed_tasks_file_name_witness :
  exists tasks w',
    uncompleted_tasks (lib := strict_lib) Sample.running Sample.start = (Ok tasks, w')
    /\ map TaskInfo.name tasks = ["Sample.Movie"]
    /\ map TaskInfo.file_name tasks = ["Sample.Movie"]
    /\ Forall (fun info => TaskInfo.file_name info = TaskInfo.name info) tasks
    /\ exists req resp data listed records,
         head (trace w') = Some (EHttp req (Answer resp))
         /\ json resp = Some data
         /\ py_get data "tasks" = Ok listed
         /\ (if truthy listed then py_iter listed = Ok records else records = [])
         /\ Forall2 (fun (info : @TaskInfo.t strict_lib) record =>
              exists v, py_get record "name" = Ok v
                /\ @validate_str strict_lib v = Some (TaskInfo.name info)
                /\ @validate_str strict_lib v = Some (TaskInfo.file_name info)
                /\ (forall s, v = PStr s ->
                      TaskInfo.name info = s /\ TaskInfo.file_name info = s))
              tasks records.
Proof.
  eexists _, _. split; [vm_compute; reflexivity|].
  split; [reflexivity|]. split; [reflexivity|].
  apply (listed_tasks_file_name (lib := strict_lib) Sample.running Sample.start _ _
           (or_intror eq_refl)).
Defined.

(** ** The task creation, from the answer of the listing *)

Lemma bool_filter_sublist {A} (f : A -> bool) (l : list A) : List.filter f l `sublist_of` l.
Proof.
  induction l as [|x l IH]; [done|]. cbn.
  destruct (f x); [by apply sublist_skip|by apply sublist_cons].
Qed.

Lemma total_size_fold_left (files : list TaskFile.t) :
  total_size files = fold_left Z.add (map TaskFile.file_size files) 0.
Proof.
  unfold total_size. symmetry. apply List.fold_symmetric; intros; lia.
Qed.

Section Created.
Context {lib : PyLib} (env : Env).

Lemma helper_of_trees vs rs acc :
  Forall2 encodes vs rs -> helper (PList vs) acc = Ok (acc ++ flatten_all rs).
Proof.
  intros Henc. rewrite helper_unfold. cbn [py_iter res_bind].
  apply helper_encoded_list; [|done].
  apply Forall_forall. intros r _. apply helper_encoded.
Qed.

(** What stands behind a task creation: the answer of the listing is an
    object whose [list] holds a list of [resources] with an object
    first, the flattening of those resources went through, and the
    callback, if any, returned the files [kept]. *)
Lemma submits_shape endpoint data magnetic_link preprocess_files task_file_count
    task_files kept req :
  submits endpoint data magnetic_link preprocess_files task_file_count task_files kept
    req ->
  exists d l fd rest,
    data = PDict d
    /\ dict_get d "list" = Some (PDict l)
    /\ dict_get l "resources" = Some (PList (PDict fd :: rest))
    /\ helper (PList (PDict fd :: rest)) [] = Ok task_files
    /\ match preprocess_files with
       | Some f => f task_files = Ok kept
       | None => kept = task_files
       end
    /\ task_file_count = match dict_get fd "file_count" with
                         | Some count => count
                         | None => PNone
                         end
    /\ exists me hs task_name target,
         req = task_request endpoint me hs task_name magnetic_link task_file_count
                 target kept.
Proof.
  intros (me & hs & first & task_name & lst & root & target
          & Hfirst & Hname & Hcount & Hlst & Hroot & Hfiles & Hkept & ->).
  unfold first_resource in Hfirst. rewrite Hlst in Hfirst. cbn in Hfirst.
  rewrite Hroot in Hfirst. cbn in Hfirst.
  destruct data as [| | | | |d]; try done. cbn in Hlst. injection Hlst as Hlst.
  destruct lst as [| | | | |l]; try done. cbn in Hroot. injection Hroot as Hroot.
  destruct first as [| | | | |fd]; try done. cbn in Hcount. injection Hcount as Hcount.
  assert (Hres : root = PList (PDict fd :: match root with PList (_ :: r) => r | _ => [] end)).
  { destruct root as [| | |s|items|]; try done.
    - by destruct s.
    - destruct items; [done|]. cbn in Hfirst. by injection Hfirst as ->. }
  exists d, l, fd, (match root with PList (_ :: r) => r | _ => [] end).
  split; [done|]. split.
  { destruct (dict_get d "list"); [by subst|by subst]. }
  split.
  { rewrite <- Hres. destruct (dict_get l "resources"); [by subst|].
    subst root. done. }
  split; [by rewrite <- Hres|].
  split; [by destruct preprocess_files as [f|]; cbn in Hkept; [|injection Hkept as <-]|].
  split; [done|]. by exists me, hs, task_name, target.
Qed.

(** C3, as the code has it. The [sub_file_index] of the task-creation
    request lists the indices of the files the callback returned, in
    the order in which it returned them, joined by commas: the
    flattened list of the answer's resources itself when there is no
    callback.  It is in discovery order whenever the callback keeps the
    relative order of the entries it passes, as [filter_file_by_size]
    does; nothing puts the list back in order for a callback that
    reorders. *)
Theorem sub_file_index_follows_filter (magnetic_link sub_dir : string)
    (preprocess_files : callback) (w w1 : World) (data : pyval)
    (req : Request) (rep : Reply) :
  list_resources env magnetic_link w = (Ok (Some data), w1) ->
  EHttp req rep
    ∈ new_events w (download_magnetic env magnetic_link sub_dir preprocess_files w).2 ->
  is_task_creation (http_endpoint (self w)) req = true ->
  exists d l first rest task_files kept,
    data = PDict d
    /\ dict_get d "list" = Some (PDict l)
    /\ dict_get l "resources" = Some (PList (first :: rest))
    /\ helper (PList (first :: rest)) [] = Ok task_files
    /\ (forall rs, Forall2 encodes (first :: rest) rs -> task_files = flatten_all rs)
    /\ match preprocess_files with
       | Some f => f task_files = Ok kept
       | None => kept = task_files
       end
    /\ params_field req "sub_file_index"
       = Some (PStr (String.concat ","
                       (map (fun i => str_of_int (TaskFile.index i)) kept)))
    /\ (kept `sublist_of` task_files -> in_discovery_order kept task_files)
    /\ (forall min_size max_size,
          preprocess_files
            = Some (fun files => Ok (filter_file_by_size files min_size max_size)) ->
          in_discovery_order kept task_files).
Proof.
  intros Hlist Hin Hreq.
  pose proof (task_requests_submitted env magnetic_link sub_dir preprocess_files
                w data w1 Hlist) as Hall.
  rewrite Forall_forall in Hall.
  destruct (Hall _ Hin req rep eq_refl Hreq) as (count & files & kept & Hsub).
  apply submits_shape in Hsub
    as (d & l & fd & rest & -> & Hl & Hres & Hfiles & Hkept & _
        & me & hs & task_name & target & ->).
  exists d, l, (PDict fd), rest, files, kept.
  repeat (split; [done|]).
  split.
  { intros rs Henc. rewrite (helper_of_trees _ _ [] Henc) in Hfiles.
    by injection Hfiles as <-. }
  split; [done|]. split; [done|].
  assert (Horder : kept `sublist_of` files -> in_discovery_order kept files).
  { intros Hsl. unfold in_discovery_order. by apply (fmap_sublist TaskFile.index). }
  split; [done|].
  intros min_size max_size ->. apply Horder. injection Hkept as <-.
  rewrite filter_file_by_size_unfold. apply bool_filter_sublist.
Qed.

(** C5. In the task-creation request [file_size] is the sum of the
    sizes of the files the callback returned (of the flattened list
    when there is no callback), as a decimal string, and
    [total_file_count] is the text of the [file_count] that the first
    resource of the answer declares, whatever the callback kept: the
    decimal number when it is a number. *)
Theorem task_body_size_and_count (magnetic_link sub_dir : string)
    (preprocess_files : callback) (w w1 : World) (data : pyval)
    (req : Request) (rep : Reply) :
  list_resources env magnetic_link w = (Ok (Some data), w1) ->
  EHttp req rep
    ∈ new_events w (download_magnetic env magnetic_link sub_dir preprocess_files w).2 ->
  is_task_creation (http_endpoint (self w)) req = true ->
  exists d l fd rest task_files kept,
    data = PDict d
    /\ dict_get d "list" = Some (PDict l)
    /\ dict_get l "resources" = Some (PList (PDict fd :: rest))
    /\ helper (PList (PDict fd :: rest)) [] = Ok task_files
    /\ (forall rs, Forall2 encodes (PDict fd :: rest) rs -> task_files = flatten_all rs)
    /\ match preprocess_files with
       | Some f => f task_files = Ok kept
       | None => kept = task_files
       end
    /\ body_field req "file_size"
       = Some (PStr (str_of_int (fold_left Z.add (map TaskFile.file_size kept) 0)))
    /\ match dict_get fd "file_count" with
       | Some (PInt n) =>
           params_field req "total_file_count" = Some (PStr (str_of_int n))
       | Some count => params_field req "total_file_count" = Some (PStr (py_str count))
       | None => params_field req "total_file_count" = Some (PStr "None")
       end.
Proof.
  intros Hlist Hin Hreq.
  pose proof (task_requests_submitted env magnetic_link sub_dir preprocess_files
                w data w1 Hlist) as Hall.
  rewrite Forall_forall in Hall.
  destruct (Hall _ Hin req rep eq_refl Hreq) as (count & files & kept & Hsub).
  apply submits_shape in Hsub
    as (d & l & fd & rest & -> & Hl & Hres & Hfiles & Hkept & Hcount
        & me & hs & task_name & target & ->).
  exists d, l, fd, rest, files, kept.
  repeat (split; [done|]).
  split.
  { intros rs Henc. rewrite (helper_of_trees _ _ [] Henc) in Hfiles.
    by injection Hfiles as <-. }
  split; [done|].
  split; [cbn; by rewrite total_size_fold_left|].
  subst count. destruct (dict_get fd "file_count") as [[]|]; done.
Qed.

End Created.

Lemma sub_file_index_follows_filter_witness :
  exists req rep,
    EHttp req rep
      ∈ new_events Sample.start
          (download_magnetic (lib := strict_lib) Sample.series Sample.magnet EmptyString
             Sample.by_size Sample.start).2
    /\ params_field req "sub_file_index" = Some (PStr "2")
    /\ exists d l first rest task_files kept,
         Sample.listing "Sample.Series" 2 [Sample.season] = PDict d
         /\ dict_get d "list" = Some (PDict l)
         /\ dict_get l "resources" = Some (PList (first :: rest))
         /\ helper (lib := strict_lib) (PList (first :: rest)) [] = Ok task_files
         /\ (forall rs, Forall2 (encodes (lib := strict_lib)) (first :: rest) rs ->
               task_files = flatten_all rs)
         /\ filter_file_by_size_default task_files = kept
         /\ params_field req "sub_file_index"
            = Some (PStr (String.concat ","
                            (map (fun i => str_of_int (TaskFile.index i)) kept)))
         /\ in_discovery_order kept task_files.
Proof.
  assert (Hin : forall new e,
            new = new_events Sample.start
                    (download_magnetic (lib := strict_lib) Sample.series Sample.magnet
                       EmptyString Sample.by_size Sample.start).2 ->
            head new = Some e -> e ∈ new).
  { intros [|e' new] e _ [= <-]. apply list_elem_of_here. }
  eexists _, _.
  split; [eapply Hin; [reflexivity|vm_compute; reflexivity]|].
  split; [reflexivity|].
  destruct (sub_file_index_follows_filter (lib := strict_lib) Sample.series
              Sample.magnet EmptyString Sample.by_size Sample.start _ _ _ _
              ltac:(vm_compute; reflexivity)
              ltac:(eapply Hin; [reflexivity|vm_compute; reflexivity])
              ltac:(reflexivity))
    as (d & l & first & rest & task_files & kept & Hd & Hl & Hres & Hfiles & Htree
        & Hkept & Hindex & _ & Horder).
  exists d, l, first, rest, task_files, kept.
  repeat (split; [done|]). split; [by injection Hkept|]. split; [done|].
  by apply (Horder default_min_size default_max_size).
Defined.

Lemma task_body_size_and_count_witness :
  exists req rep,
    EHttp req rep
      ∈ new_events Sample.start
          (download_magnetic (lib := strict_lib) Sample.series Sample.magnet "Season 1"
             Sample.by_size Sample.start).2
    /\ body_field req "file_size" = Some (PStr "734003200")
    /\ params_field req "total_file_count" = Some (PStr "2")
    /\ exists d l fd rest task_files kept,
         Sample.listing "Sample.Series" 2 [Sample.season] = PDict d
         /\ dict_get d "list" = Some (PDict l)
         /\ dict_get l "resources" = Some (PList (PDict fd :: rest))
         /\ helper (lib := strict_lib) (PList (PDict fd :: rest)) [] = Ok task_files
         /\ (forall rs, Forall2 (encodes (lib := strict_lib)) (PDict fd :: rest) rs ->
               task_files = flatten_all rs)
         /\ filter_file_by_size_default task_files = kept
         /\ body_field req "file_size"
            = Some (PStr (str_of_int
                            (fold_left Z.add (map TaskFile.file_size kept) 0)))
         /\ dict_get fd "file_count" = Some (PInt 2).
Proof.
  assert (Hin : forall new e,
            new = new_events Sample.start
                    (download_magnetic (lib := strict_lib) Sample.series Sample.magnet
                       "Season 1" Sample.by_size Sample.start).2 ->
            head new = Some e -> e ∈ new).
  { intros [|e' new] e _ [= <-]. apply list_elem_of_here. }
  eexists _, _.
  split; [eapply Hin; [reflexivity|vm_compute; reflexivity]|].
  split; [reflexivity|]. split; [reflexivity|].
  destruct (task_body_size_and_count (lib := strict_lib) Sample.series
              Sample.magnet "Season 1" Sample.by_size Sample.start _ _ _ _
              ltac:(vm_compute; reflexivity)
              ltac:(eapply Hin; [reflexivity|vm_compute; reflexivity])
              ltac:(reflexivity))
    as (d & l & fd & rest & task_files & kept & Hd & Hl & Hres & Hfiles & Htree
        & Hkept & Hsize & Hcount).
  exists d, l, fd, rest, task_files, kept.
  repeat (split; [done|]). split; [by injection Hkept|]. split; [done|].
  injection Hd as <-. cbn in Hl. injection Hl as <-. cbn in Hres.
  by injection Hres as <- _.
Defined.

(** ** The boundary of [download_magnetic] *)

Section Boundary.
Context {lib : PyLib} (env : Env).

(** The [try] of lines 352-454 around the two phases of the run. *)
Lemma download_magnetic_cases magnetic_link sub_dir preprocess_files w :
  download_magnetic env magnetic_link sub_dir preprocess_files w
  = match list_resources env magnetic_link w with
    | (Ok (Some data), w1) =>
        match download_resources env data magnetic_link sub_dir preprocess_files w1 with
        | (Ok v, w2) => (Ok v, w2)
        | (Raise _, w2) => (Ok (PInt 0), w2)
        end
    | (Ok None, w1) => (Ok (PInt 0), w1)
    | (Raise _, w1) => (Ok (PInt 0), w1)
    end.
Proof.
  unfold download_magnetic, try_except. rewrite bind_run.
  by destruct (list_resources env magnetic_link w) as [[[data|]|e] w1].
Qed.

(** C7. [download_magnetic] never raises.  Whatever the service, the
    clock and the callback do, the run returns 0, 1, 2 or [False],
    never anything else, so it returns one of the three outcomes as
    [==] tells them apart, [False] (equal to 0) only for a [sub_dir]
    with a separator.  An exception raised while the resources are
    listed, or in any step after the listing, the callback among them,
    ends the run with 0, [Failed], in the world the exception left;
    without an exception the value is that of the steps. *)
Theorem download_magnetic_total (magnetic_link sub_dir : string)
    (preprocess_files : callback) (w : World) :
  exists v w' o,
    download_magnetic env magnetic_link sub_dir preprocess_files w = (Ok v, w')
    /\ outcome_of v = Some o
    /\ (v = PInt 0 \/ v = PInt 1 \/ v = PInt 2 \/ v = PBool false)
    /\ (v = PBool false -> sub_dir <> EmptyString /\ contains "/" sub_dir = true)
    /\ (forall e w1,
          list_resources env magnetic_link w = (Raise e, w1) ->
          v = PInt 0 /\ o = Failed /\ w' = w1)
    /\ (forall data w1 e w2,
          list_resources env magnetic_link w = (Ok (Some data), w1) ->
          download_resources env data magnetic_link sub_dir preprocess_files w1
            = (Raise e, w2) ->
          v = PInt 0 /\ o = Failed /\ w' = w2)
    /\ (forall data w1 v0 w2,
          list_resources env magnetic_link w = (Ok (Some data), w1) ->
          download_resources env data magnetic_link sub_dir preprocess_files w1
            = (Ok v0, w2) ->
          v = v0 /\ w' = w2)
    /\ (forall w1,
          list_resources env magnetic_link w = (Ok None, w1) ->
          v = PInt 0 /\ o = Failed /\ w' = w1).
Proof.
  assert (H : follows (http_endpoint (self w))
            (download_magnetic env magnetic_link sub_dir preprocess_files)
            (fun _ => True)
            (fun v => (v = PInt 0 \/ v = PInt 1 \/ v = PInt 2 \/ v = PBool false)
                      /\ (v = PBool false ->
                          sub_dir <> EmptyString /\ contains "/" sub_dir = true))).
  { apply follows_download_magnetic; try done; [split; [by left|done]|].
    intros data. apply follows_download_resources; try done.
    - split; [tauto|done].
    - intros Hne Hslash. split; [tauto|done].
    - intros _. split; (split; [tauto|done]). }
  destruct (H w eq_refl) as (_ & _ & Hvalue).
  pose proof (download_magnetic_cases magnetic_link sub_dir preprocess_files w) as Hcases.
  destruct (download_magnetic env magnetic_link sub_dir preprocess_files w)
    as [[v|e] w'] eqn:Hrun.
  2:{ destruct (list_resources env magnetic_link w) as [[[data|]|e'] w1]; try done.
      by destruct (download_resources _ _ _ _ _ _) as [[v|e'] w2]. }
  destruct (Hvalue v eq_refl) as [Hv Hfalse].
  assert (Ho : exists o, outcome_of v = Some o /\ (v = PInt 0 -> o = Failed)).
  { destruct Hv as [->|[->|[->| ->]]]; by eexists. }
  destruct Ho as (o & Ho & Hfailed).
  exists v, w', o. repeat (split; [done|]).
  split.
  { intros e w1 Hl. rewrite Hl in Hcases. injection Hcases as -> ->. auto. }
  split.
  { intros data w1 e w2 Hl Hs. rewrite Hl, Hs in Hcases. injection Hcases as -> ->.
    auto. }
  split.
  { intros data w1 v0 w2 Hl Hs. rewrite Hl, Hs in Hcases. by injection Hcases as -> ->. }
  intros w1 Hl. rewrite Hl in Hcases. injection Hcases as -> ->. auto.
Qed.

End Boundary.

Lemma download_magnetic_total_witness :
  (download_magnetic (lib := strict_lib) Sample.fresh Sample.magnet EmptyString
     Sample.failing Sample.start).1 = Ok (PInt 0)
  /\ (download_magnetic (lib := strict_lib) Sample.down Sample.magnet EmptyString None
        Sample.start).1 = Ok (PInt 0)
  /\ (download_magnetic (lib := strict_lib) Sample.fresh Sample.magnet EmptyString None
        Sample.start).1 = Ok (PInt 1).
Proof.
  split; [|split].
  - destruct (download_magnetic_total (lib := strict_lib) Sample.fresh Sample.magnet
                EmptyString Sample.failing Sample.start)
      as (v & w' & o & -> & _ & _ & _ & _ & Hraise & _).
    by edestruct (Hraise _ _ CallbackError _ ltac:(vm_compute; reflexivity)
                    ltac:(vm_compute; reflexivity)) as (-> & _).
  - destruct (download_magnetic_total (lib := strict_lib) Sample.down Sample.magnet
                EmptyString None Sample.start)
      as (v & w' & o & -> & _ & _ & _ & Hraise & _).
    by edestruct (Hraise RequestException _ ltac:(vm_compute; reflexivity)) as (-> & _).
  - destruct (download_magnetic_total (lib := strict_lib) Sample.fresh Sample.magnet
                EmptyString None Sample.start)
      as (v & w' & o & -> & _ & _ & _ & _ & _ & Hok & _).
    by edestruct (Hok _ _ (PInt 1) _ ltac:(vm_compute; reflexivity)
                    ltac:(vm_compute; reflexivity)) as (-> & _).
Defined.

(** ** A [sub_dir] with a separator *)

Lemma py_in_set_found v names :
  py_in_set v names = Ok true <-> exists name, v = PStr name /\ name ∈ names.
Proof.
  split.
  - destruct v as [| | |s| |]; cbn; try done. intros [= Hex].
    apply existsb_exists in Hex as (x & Hin & Heq%String.eqb_eq). subst x.
    exists s. split; [done|]. by apply list_elem_of_In.
  - intros (name & -> & Hin). cbn. by rewrite existsb_eqb_elem.
Qed.

Lemma py_in_set_missing v names name :
  py_in_set v names = Ok false -> v = PStr name -> name ∉ names.
Proof.
  intros Hset -> Hin.
  assert (Hfound : py_in_set (PStr name) names = Ok true).
  { apply py_in_set_found. by exists name. }
  congruence.
Qed.

Section Separator.
Context {lib : PyLib} (env : Env).

Lemma list_resources_sent magnetic_link w :
  exists req rep add,
    trace (list_resources env magnetic_link w).2 = EHttp req rep :: add ++ trace w
    /\ is_resource_listing (http_endpoint (self w)) req.
Proof.
  unfold list_resources. rewrite bind_run. cbn [get_self]. rewrite bind_run.
  destruct (headers_reads env w) as (hs & w1 & add & -> & _ & Htr & _).
  rewrite bind_run. unfold session_request.
  set (req := {| req_method := "POST";
                 req_url := http_endpoint (self w) +:+ path_resource_list;
                 req_params := []; req_headers := hs;
                 req_body := Data (PDict [("urls", PStr magnetic_link)]);
                 req_timeout := Some 60 |}).
  exists req, (http env (trace w1) req), add.
  split; [|split; reflexivity].
  destruct (http env (trace w1) req) as [|response]; cbn [fst snd trace];
    [by rewrite Htr|].
  destruct (negb _); cbn [ret fst snd trace]; [by rewrite Htr|].
  rewrite bind_run. unfold response_json.
  destruct (json response) as [data|]; cbn [ret raise fst snd trace]; [|by rewrite Htr].
  rewrite bind_lift. destruct (py_get_default data "list" _); [|by rewrite Htr].
  rewrite bind_lift. destruct (py_get _ "resources"); [|by rewrite Htr].
  by destruct (negb _); cbn; rewrite Htr.
Qed.

Lemma download_magnetic_extends magnetic_link sub_dir preprocess_files w :
  exists ext,
    trace (download_magnetic env magnetic_link sub_dir preprocess_files w).2
    = ext ++ trace (list_resources env magnetic_link w).2.
Proof.
  rewrite download_magnetic_cases.
  destruct (list_resources env magnetic_link w) as [[[data|]|e] w1]; cbn [snd];
    [|by exists []..].
  destruct (download_resources_story env (self w1) data magnetic_link sub_dir
              preprocess_files w1 (trace w1) [] (same_settings_refl _) eq_refl
              (List.Forall_nil _)) as (new & Htr & _).
  exists new.
  by destruct (download_resources env data magnetic_link sub_dir preprocess_files w1)
    as [[v|e] w2].
Qed.

Lemma fetch_tasks_sent filters build w infos w' :
  fetch_tasks env filters build w = (Ok infos, w') ->
  exists req resp add,
    trace w' = EHttp req (Answer resp) :: add ++ trace w
    /\ is_task_listing (http_endpoint (self w)) filters req
    /\ http_endpoint (self w') = http_endpoint (self w).
Proof.
  intros H. pose proof (keeps_fetch_tasks env filters build w) as (Hep & _).
  rewrite H in Hep. cbn in Hep.
  unfold fetch_tasks in H.
  apply bind_ok in H as (me & w0 & [= <- <-] & H).
  apply bind_ok in H as (space & w0 & [= _ <-] & H).
  destruct (headers_reads env w) as (hs & w1 & add & Hhs & _ & Htr & _).
  apply bind_ok in H as (hs' & w1' & Hhs' & H).
  rewrite Hhs in Hhs'. injection Hhs' as <- <-.
  apply bind_ok in H as (resp & w2 & Hcall & H).
  unfold session_request in Hcall.
  destruct (http env (trace w1) _) as [|resp'] eqn:Hrep; [done|].
  injection Hcall as -> <-.
  apply bind_ok in H as (data & w3 & Hjson & H).
  unfold response_json in Hjson.
  destruct (json resp) as [data'|]; [|done]. injection Hjson as -> <-.
  apply bind_ok in H as (listed & w3 & [= _ <-] & H).
  assert (Hw : trace w' = EHttp
            {| req_method := "GET";
               req_url := tasks_url (http_endpoint (self w)) space filters;
               req_params := []; req_headers := hs; req_body := NoBody;
               req_timeout := None |} (Answer resp) :: trace w1).
  { destruct (negb (truthy listed)); [by injection H as _ <-|].
    by apply bind_ok in H as (items & w3 & [= _ <-] & [= _ <-]). }
  eexists _, resp, add. rewrite Hw, Htr. split; [done|]. split; [|done].
  split; [done|]. by exists space.
Qed.

(** Lines 373-414 when [sub_dir] has a separator: a run that returns
    has made the duplicate check and returns by its answer. *)
Lemma download_resources_guard data magnetic_link sub_dir preprocess_files w1 v w' :
  sub_dir <> EmptyString -> contains "/" sub_dir = true ->
  download_resources env data magnetic_link sub_dir preprocess_files w1 = (Ok v, w') ->
  exists first task_name completed w2 uncompleted found,
    first_resource data = Ok first
    /\ py_get first "name" = Ok task_name
    /\ completed_tasks env w1 = (Ok completed, w2)
    /\ uncompleted_tasks env w2 = (Ok uncompleted, w')
    /\ py_in_set task_name (map TaskInfo.name (completed ++ uncompleted)) = Ok found
    /\ v = if found then PInt 2 else PBool false.
Proof.
  intros Hne Hslash H. unfold download_resources in H.
  apply bind_ok in H as (first & w0 & [= Hfirst <-] & H).
  apply bind_ok in H as (task_name & w0 & [= Hname <-] & H).
  apply bind_ok in H as (completed & w2 & Hc & H).
  apply bind_ok in H as (uncompleted & w3 & Hu & H).
  apply bind_ok in H as (found & w0 & [= Hfound <-] & H).
  exists first, task_name, completed, w2, uncompleted, found.
  destruct found.
  - injection H as <- <-. by repeat split.
  - apply bind_ok in H as (first' & w0 & [= _ <-] & H).
    apply bind_ok in H as (count & w0 & [= _ <-] & H).
    apply bind_ok in H as (lst & w0 & [= _ <-] & H).
    apply bind_ok in H as (root & w0 & [= _ <-] & H).
    apply bind_ok in H as (files & w0 & [= _ <-] & H).
    apply bind_ok in H as (kept & w0 & [= _ <-] & H).
    apply bind_ok in H as (me & w0 & [= _ <-] & H).
    apply String.eqb_neq in Hne. rewrite Hne, Hslash in H. cbn in H.
    injection H as <- <-. by repeat split.
Qed.

(** The duplicate check found the name (lines 373-381). *)
Lemma download_resources_listed data magnetic_link sub_dir preprocess_files w1 first
    name completed w2 uncompleted w3 :
  first_resource data = Ok first ->
  py_get first "name" = Ok (PStr name) ->
  completed_tasks env w1 = (Ok completed, w2) ->
  uncompleted_tasks env w2 = (Ok uncompleted, w3) ->
  name ∈ map TaskInfo.name (completed ++ uncompleted) ->
  download_resources env data magnetic_link sub_dir preprocess_files w1
  = (Ok (PInt 2), w3).
Proof.
  intros Hfirst Hname Hc Hu Hin. unfold download_resources.
  rewrite bind_lift, Hfirst. rewrite bind_lift, Hname.
  rewrite bind_run, Hc. rewrite bind_run, Hu.
  rewrite bind_lift. cbn [py_in_set]. by rewrite (existsb_eqb_elem _ _ Hin).
Qed.

(** C6, as the code has it. With a [sub_dir] that contains the
    separator a run creates nothing, neither a folder nor a task, but
    it is not free of calls: [sub_dir] is looked at only after the
    resource listing and the duplicate check.  Every run sends the
    resource-listing request.  It returns 2, [AlreadyExists], exactly
    when the listing gave resources, both task listings returned and
    the name of the first resource is among the names they list; it
    returns [False], equal to [Failed], only when the listing gave
    resources, both task listings returned and the name is not among
    them; in both cases the two task-listing requests were sent.  In
    every other case it returns 0. *)
Theorem sub_dir_separator_creates_nothing (magnetic_link sub_dir : string)
    (preprocess_files : callback) (w : World) :
  sub_dir <> EmptyString -> contains "/" sub_dir = true ->
  exists v w',
    download_magnetic env magnetic_link sub_dir preprocess_files w = (Ok v, w')
    /\ (v = PBool false \/ v = PInt 0 \/ v = PInt 2)
    /\ Forall (fun e => creates_nothing (http_endpoint (self w)) e = true)
         (new_events w w')
    /\ (exists req rep,
          EHttp req rep ∈ new_events w w'
          /\ is_resource_listing (http_endpoint (self w)) req)
    /\ (v = PInt 2 <->
        exists data w1 first name completed w2 uncompleted,
          list_resources env magnetic_link w = (Ok (Some data), w1)
          /\ first_resource data = Ok first
          /\ py_get first "name" = Ok (PStr name)
          /\ completed_tasks env w1 = (Ok completed, w2)
          /\ uncompleted_tasks env w2 = (Ok uncompleted, w')
          /\ name ∈ map TaskInfo.name (completed ++ uncompleted))
    /\ (v = PBool false ->
        exists data w1 first task_name completed w2 uncompleted,
          list_resources env magnetic_link w = (Ok (Some data), w1)
          /\ first_resource data = Ok first
          /\ py_get first "name" = Ok task_name
          /\ completed_tasks env w1 = (Ok completed, w2)
          /\ uncompleted_tasks env w2 = (Ok uncompleted, w')
          /\ forall name, task_name = PStr name ->
               name ∉ map TaskInfo.name (completed ++ uncompleted))
    /\ (v = PInt 2 \/ v = PBool false ->
        exists req1 rep1 req2 rep2,
          EHttp req1 rep1 ∈ new_events w w'
          /\ is_task_listing (http_endpoint (self w)) filters_completed req1
          /\ EHttp req2 rep2 ∈ new_events w w'
          /\ is_task_listing (http_endpoint (self w)) filters_uncompleted req2).
Proof.
  intros Hne Hslash.
  destruct (download_magnetic_returns env magnetic_link sub_dir preprocess_files w)
    as [v Hv].
  assert (H : follows (http_endpoint (self w))
            (download_magnetic env magnetic_link sub_dir preprocess_files)
            (fun e => creates_nothing (http_endpoint (self w)) e = true)
            (fun v => v = PBool false \/ v = PInt 0 \/ v = PInt 2)).
  { apply follows_download_magnetic.
    - apply creates_nothing_reads.
    - intros req rep Hu. by apply listing_creates_nothing.
    - tauto.
    - intros data. apply follows_download_resources.
      + apply creates_nothing_reads.
      + tauto.
      + tauto.
      + intros [?|?]; congruence.
      + congruence.
      + intros [?|?]; congruence. }
  destruct (H w eq_refl) as (_ & (new & Hnew & Hall) & Hret).
  destruct (list_resources_sent magnetic_link w) as (lreq & lrep & ladd & Hsent & Hlisting).
  destruct (download_magnetic_extends magnetic_link sub_dir preprocess_files w)
    as (ext & Hext).
  pose proof (keeps_list_resources env magnetic_link w) as (Hep1 & _).
  pose proof (download_magnetic_cases env magnetic_link sub_dir preprocess_files w)
    as Hcases.
  destruct (download_magnetic env magnetic_link sub_dir preprocess_files w)
    as [[v'|e] w'] eqn:Hrun; [|done].
  cbn [fst snd] in *. injection Hv as ->.
  exists v, w'. split; [done|]. split; [by apply Hret|].
  rewrite (new_events_app _ _ _ Hnew). split; [done|].
  assert (Hnew' : new = ext ++ EHttp lreq lrep :: ladd).
  { apply (app_inv_tail (trace w)). rewrite <- Hnew, Hext, Hsent.
    by rewrite <- app_assoc. }
  split.
  { exists lreq, lrep. split; [|done]. rewrite Hnew'.
    apply elem_of_app. right. apply list_elem_of_here. }
  assert (Hguard : v = PInt 2 \/ v = PBool false ->
            exists data w1 first task_name completed w2 uncompleted found,
              list_resources env magnetic_link w = (Ok (Some data), w1)
              /\ first_resource data = Ok first
              /\ py_get first "name" = Ok task_name
              /\ completed_tasks env w1 = (Ok completed, w2)
              /\ uncompleted_tasks env w2 = (Ok uncompleted, w')
              /\ py_in_set task_name (map TaskInfo.name (completed ++ uncompleted))
                 = Ok found
              /\ v = if found then PInt 2 else PBool false).
  { intros Hvalue.
    destruct (list_resources env magnetic_link w) as [[[data|]|e] w1];
      [|injection Hcases as Hv0 _; subst v; by destruct Hvalue..].
    destruct (download_resources env data magnetic_link sub_dir preprocess_files w1)
      as [[v1|e1] w2] eqn:Hsteps; injection Hcases as Hv0 Hw0; subst v w';
      [|by destruct Hvalue].
    apply download_resources_guard in Hsteps
      as (first & task_name & completed & w2' & uncompleted & found & ?); [|done..].
    by exists data, w1, first, task_name, completed, w2', uncompleted, found. }
  split; [split|split].
  - intros Htwo. destruct (Hguard (or_introl Htwo))
      as (data & w1 & first & task_name & completed & w2 & uncompleted & found
          & Hl & Hfirst & Hname & Hc & Hu & Hfound & Hvalue).
    destruct found; [|by subst v].
    apply py_in_set_found in Hfound as (name & -> & Hin).
    by exists data, w1, first, name, completed, w2, uncompleted.
  - intros (data & w1 & first & name & completed & w2 & uncompleted
            & Hl & Hfirst & Hname & Hc & Hu & Hin).
    rewrite Hl in Hcases.
    rewrite (download_resources_listed data magnetic_link sub_dir preprocess_files
               w1 first name completed w2 uncompleted w' Hfirst Hname Hc Hu Hin)
      in Hcases.
    by injection Hcases.
  - intros Hfalse. destruct (Hguard (or_intror Hfalse))
      as (data & w1 & first & task_name & completed & w2 & uncompleted & found
          & Hl & Hfirst & Hname & Hc & Hu & Hfound & Hvalue).
    destruct found; [by subst v|].
    exists data, w1, first, task_name, completed, w2, uncompleted.
    repeat (split; [done|]). intros name. by apply py_in_set_missing.
  - intros Hvalue. destruct (Hguard Hvalue)
      as (data & w1 & first & task_name & completed & w2 & uncompleted & found
          & Hl & Hfirst & Hname & Hc & Hu & Hfound & _).
    rewrite Hl in Hep1, Hsent. cbn [snd] in Hep1, Hsent.
    apply fetch_tasks_sent in Hc as (req1 & resp1 & add1 & Htr1 & Hl1 & Hep2).
    apply fetch_tasks_sent in Hu as (req2 & resp2 & add2 & Htr2 & Hl2 & _).
    rewrite Hep1 in Hl1. rewrite Hep2, Hep1 in Hl2.
    exists req1, (Answer resp1), req2, (Answer resp2).
    assert (Hnew2 : new = (EHttp req2 (Answer resp2) :: add2)
                          ++ (EHttp req1 (Answer resp1) :: add1)
                          ++ EHttp lreq lrep :: ladd).
    { apply (app_inv_tail (trace w)). rewrite <- Hnew, Htr2, Htr1, Hsent.
      by repeat first [rewrite <- app_assoc | rewrite <- app_comm_cons]. }
    rewrite Hnew2. split; [|split; [done|split; [|done]]].
    + apply elem_of_app. right. apply elem_of_app. left. apply list_elem_of_here.
    + apply elem_of_app. left. apply list_elem_of_here.
Qed.

End Separator.

Lemma sub_dir_separator_creates_nothing_witness :
  exists w',
    download_magnetic (lib := strict_lib) Sample.fresh Sample.magnet "a/b" None
      Sample.start = (Ok (PBool false), w')
    /\ Forall (fun e => creates_nothing Sample.endpoint e = true)
         (new_events Sample.start w')
    /\ (exists req rep,
          EHttp req rep ∈ new_events Sample.start w'
          /\ is_resource_listing Sample.endpoint req)
    /\ exists req1 rep1 req2 rep2,
         EHttp req1 rep1 ∈ new_events Sample.start w'
         /\ is_task_listing Sample.endpoint filters_completed req1
         /\ EHttp req2 rep2 ∈ new_events Sample.start w'
         /\ is_task_listing Sample.endpoint filters_uncompleted req2.
Proof.
  destruct (sub_dir_separator_creates_nothing (lib := strict_lib) Sample.fresh
              Sample.magnet "a/b" None Sample.start ltac:(done) ltac:(reflexivity))
    as (v & w' & Hrun & _ & Hquiet & Hlisting & _ & _ & Htasks).
  assert (Hv : v = PBool false).
  { assert (Hfst : (download_magnetic (lib := strict_lib) Sample.fresh Sample.magnet
                      "a/b" None Sample.start).1 = Ok (PBool false))
      by (vm_compute; reflexivity).
    rewrite Hrun in Hfst. by injection Hfst. }
  subst v. exists w'. split; [done|]. split; [done|]. split; [done|].
  apply Htasks. by right.
Defined.
